(** * Trigger creation for AWS Lambda invocations (src/triggers/aws_lambda.js)

    A shallow embedding of [createFromEvent] and of the thirteen trigger
    factories it dispatches to, over a small model of the JavaScript values
    a Lambda payload can hold, followed by the properties of the trigger
    classification and normalisation engine. *)

From stdpp Require Import gmap strings list fin_maps pretty.
From Stdlib Require Import ZArith Ascii Lia Permutation.

#[local] Set Warnings "-register-all".
#[local] Open Scope string_scope.

(** ** JavaScript values

    A payload is what [JSON.parse] produces; [JUndefined] is added because
    reading an absent property yields it.  Strings are sequences of code
    units (one [ascii] per unit); numbers are the integer ones, the file
    does no arithmetic on payload numbers and only ever prints them.  [JObj] lists the own properties
    of an object in insertion order; the keys of one object are pairwise
    distinct in the language, and a lookup takes the first binding. *)

Inductive JSVal : Type :=
| JUndefined
| JNull
| JBool (b : bool)
| JNum (n : Z)
| JStr (s : string)
| JArr (elems : list JSVal)
| JObj (props : list (string * JSVal)).

(** ** Exceptions *)

Inductive JSError : Type := TypeError | SyntaxError | GenericError.

Inductive result (A : Type) : Type :=
| Ok (a : A)
| Throw (e : JSError).
Arguments Ok {A} a.
Arguments Throw {A} e.

Definition bind {A B} (c : result A) (k : A -> result B) : result B :=
  match c with
  | Ok a => k a
  | Throw e => Throw e
  end.

Notation "'let*' x := c 'in' k" := (bind c (fun x => k))
  (at level 10, x name, c at level 100, k at level 200).

Definition isOk {A} (c : result A) : bool :=
  match c with Ok _ => true | Throw _ => false end.

Fixpoint mapM {A B} (f : A -> result B) (l : list A) : result (list B) :=
  match l with
  | [] => Ok []
  | x :: r => let* y := f x in let* ys := mapM f r in Ok (y :: ys)
  end.

(** ** Language primitives used by the file *)

(** ToBoolean. *)
Definition truthy (v : JSVal) : bool :=
  match v with
  | JUndefined | JNull => false
  | JBool b => b
  | JNum n => negb (n =? 0)%Z
  | JStr s => negb (String.eqb s "")
  | JArr _ | JObj _ => true
  end.

(** [a || b] on values. *)
Definition orElse (a b : JSVal) : JSVal := if truthy a then a else b.

(** [v != null] (loose): neither [null] nor [undefined]. *)
Definition nonNullish (v : JSVal) : bool :=
  match v with
  | JUndefined | JNull => false
  | _ => true
  end.

Definition isString (v : JSVal) : bool :=
  match v with JStr _ => true | _ => false end.

(** What the [in] operator accepts on its right: objects and arrays. *)
Definition isObject (v : JSVal) : bool :=
  match v with JArr _ | JObj _ => true | _ => false end.

(** Own property of an object literal, first binding. *)
Fixpoint assoc (k : string) (l : list (string * JSVal)) : option JSVal :=
  match l with
  | [] => None
  | (k', v) :: r => if String.eqb k k' then Some v else assoc k r
  end.

(** [o[k] = v]: overwrite in place, or append a new property. *)
Fixpoint setProp (k : string) (v : JSVal) (l : list (string * JSVal))
  : list (string * JSVal) :=
  match l with
  | [] => [(k, v)]
  | (k', v') :: r =>
      if String.eqb k k' then (k, v) :: r else (k', v') :: setProp k v r
  end.

(** Array index named by a property key: a canonical decimal numeral. *)
Definition digit (c : ascii) : option nat :=
  let n := nat_of_ascii c in
  if (48 <=? n)%nat && (n <=? 57)%nat then Some (n - 48)%nat else None.

Fixpoint digits (s : string) (acc : nat) : option nat :=
  match s with
  | "" => Some acc
  | String c s' =>
      match digit c with
      | Some d => digits s' (10 * acc + d)%nat
      | None => None
      end
  end.

Definition index_of_key (k : string) : option nat :=
  match k with
  | "" => None
  | String c rest =>
      if Ascii.eqb c "0"%char
      then (if String.eqb rest "" then Some 0%nat else None)
      else digits k 0
  end.

(** [k in v].  A primitive on the right is a TypeError.  The keys the file
    tests are never inherited ones, so own properties decide. *)
Definition hasProperty (k : string) (v : JSVal) : result bool :=
  match v with
  | JObj l => Ok (bool_decide (is_Some (assoc k l)))
  | JArr l =>
      Ok (match index_of_key k with
          | Some i => bool_decide (i < length l)%nat
          | None => String.eqb k "length"
          end)
  | _ => Throw TypeError
  end.

Definition charAt (s : string) (i : nat) : JSVal :=
  match String.get i s with
  | Some c => JStr (String c "")
  | None => JUndefined
  end.

(** [v.k] and [v[k]].  Reading a property of [undefined] or [null] is a
    TypeError; a property that is not there reads as [undefined].  The
    names the file reads are never inherited ones. *)
Definition getProp (v : JSVal) (k : string) : result JSVal :=
  match v with
  | JUndefined | JNull => Throw TypeError
  | JBool _ | JNum _ => Ok JUndefined
  | JStr s =>
      Ok (match index_of_key k with
          | Some i => charAt s i
          | None =>
              if String.eqb k "length"
              then JNum (Z.of_nat (String.length s)) else JUndefined
          end)
  | JArr l =>
      Ok (match index_of_key k with
          | Some i => default JUndefined (l !! i)
          | None =>
              if String.eqb k "length"
              then JNum (Z.of_nat (length l)) else JUndefined
          end)
  | JObj l => Ok (default JUndefined (assoc k l))
  end.

(** A chain of property reads, [v.k1.k2...]. *)
Fixpoint getPath (v : JSVal) (ks : list string) : result JSVal :=
  match ks with
  | [] => Ok v
  | k :: r => let* w := getProp v k in getPath w r
  end.

(** ** Number::toString, radix 10

    A number of the model is the integer it denotes; an integer that is no
    double stands for the double nearest to it, as a numeric literal does.
    Up to [2 ^ 53] the text is the decimal numeral.  Beyond, it is the
    decimal with the fewest significant digits that still reads back as the
    same double, written out in full below [10 ^ 21] and in scientific
    notation from there on. *)
Module JSNumber.

(** The double nearest to a natural number, ties to the even significand. *)
Definition nearestDouble (n : Z) : Z :=
  if (n <? 2 ^ 53)%Z then n
  else
    let e := (Z.log2 n - 52)%Z in
    let q := Z.shiftr n e in
    let r := (n - Z.shiftl q e)%Z in
    let half := Z.shiftl 1 (e - 1) in
    let q' := if (half <? r)%Z || ((r =? half)%Z && Z.odd q)
              then (q + 1)%Z else q in
    Z.shiftl q' e.

(** The multiples of [10 ^ m] next to [d] that read back as [d]: the closer
    one, the even one when both are as close. *)
Definition roundTrip (d : Z) (m : nat) : option Z :=
  let p := (10 ^ Z.of_nat m)%Z in
  let lo := (d / p * p)%Z in
  let hi := (lo + p)%Z in
  match (nearestDouble lo =? d)%Z, (nearestDouble hi =? d)%Z with
  | true, true =>
      Some (if (d - lo <? hi - d)%Z then lo
            else if (hi - d <? d - lo)%Z then hi
            else if Z.even (lo / p) then lo else hi)
  | true, false => Some lo
  | false, true => Some hi
  | false, false => None
  end.

(** The decimal with the fewest significant digits that reads back as [d],
    looked for from [m] trailing zeros downwards. *)
Fixpoint shortest (d : Z) (m : nat) : Z :=
  match roundTrip d m, m with
  | Some v, _ => v
  | None, S m' => shortest d m'
  | None, O => d
  end.

Fixpoint dropZeros (s : string) : string :=
  match s with
  | "" => ""
  | String c r =>
      match dropZeros r with
      | "" => if Ascii.eqb c "0" then "" else String c ""
      | r' => String c r'
      end
  end.

(** Scientific notation: the significant digits, a point after the first
    when there are more, and the exponent. *)
Definition exponential (v : Z) : string :=
  let ds := pretty v in
  let e := pretty (Z.of_nat (String.length ds - 1)) in
  match dropZeros ds with
  | String c "" => String c "" +:+ "e+" +:+ e
  | String c r => String c ("." +:+ r) +:+ "e+" +:+ e
  | "" => "0"
  end.

Definition ofNatural (n : Z) : string :=
  if (n <? 2 ^ 53)%Z then pretty n
  else
    let d := nearestDouble n in
    if (2 ^ 1024 <=? d)%Z then "Infinity"
    else
      let v := shortest d (String.length (pretty d) - 1) in
      if (v <? 10 ^ 21)%Z then pretty v else exponential v.

Definition toString (n : Z) : string :=
  if (n <? 0)%Z then "-" +:+ ofNatural (- n) else ofNatural n.

End JSNumber.

(** [Array.prototype.join] with the default separator, given the text of
    an element. *)
Section Join.

Context {A : Type} (text : A -> result string).

Fixpoint joinTexts (l : list A) : result string :=
  match l with
  | [] => Ok ""
  | [ x ] => text x
  | x :: r =>
      let* a := text x in
      let* b := joinTexts r in
      Ok (a +:+ "," +:+ b)
  end.

End Join.

(** ToString, as a template literal and [JSON.parse] apply it to their
    argument.  An object is converted by its [toString] method: the
    inherited one gives ['[object Object]'], and an own property of that
    name, which in a payload is never a function, leaves no method to call:
    a TypeError.  An array joins the texts of its elements, [undefined] and
    [null] counting as empty, and raises when an element does. *)
Fixpoint toStr (v : JSVal) : result string :=
  match v with
  | JUndefined => Ok "undefined"
  | JNull => Ok "null"
  | JBool b => Ok (if b then "true" else "false")
  | JNum n => Ok (JSNumber.toString n)
  | JStr s => Ok s
  | JArr l =>
      joinTexts (fun x => match x with
                          | JUndefined | JNull => Ok ""
                          | _ => toStr x
                          end) l
  | JObj l =>
      if bool_decide (is_Some (assoc "toString" l))
      then Throw TypeError else Ok "[object Object]"
  end.

(** [s.split(c)] for a one-unit separator: never empty. *)
Fixpoint splitOn (c : ascii) (s : string) : list string :=
  match s with
  | "" => [""]
  | String a r =>
      if Ascii.eqb a c then "" :: splitOn c r
      else match splitOn c r with
           | [] => [String a ""]
           | h :: t => String a h :: t
           end
  end.

(** [v.split(c)]: only strings have the method. *)
Definition callSplit (v : JSVal) (c : ascii) : result (list string) :=
  match v with
  | JStr s => Ok (splitOn c s)
  | _ => Throw TypeError
  end.

(** [arr.pop()] on the array [split] returned. *)
Definition pop (l : list string) : JSVal :=
  match last l with
  | Some s => JStr s
  | None => JUndefined
  end.

(** [arr[i]] on the array [split] returned. *)
Definition nthSeg (l : list string) (i : nat) : JSVal :=
  match l !! i with
  | Some s => JStr s
  | None => JUndefined
  end.

(** [arr.slice(-n)]. *)
Definition sliceLast (n : nat) (l : list string) : list string :=
  drop (length l - n) l.

(** [s.replace(pat, rep)] with a string pattern: the first occurrence. *)
Fixpoint replaceFirst (pat rep s : string) : string :=
  if String.prefix pat s
  then rep +:+ String.substring (String.length pat)
                                (String.length s - String.length pat) s
  else match s with
       | "" => ""
       | String a r => String a (replaceFirst pat rep r)
       end.

Definition callReplace (v : JSVal) (pat rep : string) : result JSVal :=
  match v with
  | JStr s => Ok (JStr (replaceFirst pat rep s))
  | _ => Throw TypeError
  end.

(** [v.map(f)]: only arrays have the method. *)
Definition callMap (v : JSVal) (f : JSVal -> result JSVal) : result JSVal :=
  match v with
  | JArr l => let* r := mapM f l in Ok (JArr r)
  | _ => Throw TypeError
  end.

(** ** The trigger record (proto/event_pb.js) *)

Inductive ErrorCode : Type := OK | ERROR.

(** The resource of an event: type, name and operation as the setters
    received them, and the two metadata channels. *)
Record Resource : Type := mkResource {
  r_type : JSVal;
  r_name : JSVal;
  r_operation : JSVal;
  annotations : gmap string JSVal;
  payload : gmap string JSVal
}.

Record Event : Type := mkEvent {
  id : JSVal;
  start_time : Z;
  duration : Z;
  origin : string;
  error_code : ErrorCode;
  resource : Resource
}.

(** [new serverlessEvent.Resource()] and [new serverlessEvent.Event()]
    followed by [trigger.setResource(resource)]: every field at its
    default. *)
Definition newResource : Resource :=
  mkResource (JStr "") (JStr "") (JStr "") ∅ ∅.

Definition newEvent : Event :=
  mkEvent (JStr "") 0 0 "" OK newResource.

Definition withResource (f : Resource -> Resource) (t : Event) : Event :=
  mkEvent (id t) (start_time t) (duration t) (origin t) (error_code t)
          (f (resource t)).

Definition setId (v : JSVal) (t : Event) : Event :=
  mkEvent v (start_time t) (duration t) (origin t) (error_code t) (resource t).

Definition setStartTime (z : Z) (t : Event) : Event :=
  mkEvent (id t) z (duration t) (origin t) (error_code t) (resource t).

Definition setDuration (z : Z) (t : Event) : Event :=
  mkEvent (id t) (start_time t) z (origin t) (error_code t) (resource t).

Definition setOrigin (s : string) (t : Event) : Event :=
  mkEvent (id t) (start_time t) (duration t) s (error_code t) (resource t).

Definition setErrorCode (c : ErrorCode) (t : Event) : Event :=
  mkEvent (id t) (start_time t) (duration t) (origin t) c (resource t).

Definition setType (v : JSVal) : Event -> Event :=
  withResource (fun r =>
    mkResource v (r_name r) (r_operation r) (annotations r) (payload r)).

Definition setName (v : JSVal) : Event -> Event :=
  withResource (fun r =>
    mkResource (r_type r) v (r_operation r) (annotations r) (payload r)).

Definition setOperation (v : JSVal) : Event -> Event :=
  withResource (fun r =>
    mkResource (r_type r) (r_name r) v (annotations r) (payload r)).

Definition setAnnotation (k : string) (v : JSVal) : Event -> Event :=
  withResource (fun r =>
    mkResource (r_type r) (r_name r) (r_operation r)
               (<[k := v]> (annotations r)) (payload r)).

Definition setPayload (k : string) (v : JSVal) : Event -> Event :=
  withResource (fun r =>
    mkResource (r_type r) (r_name r) (r_operation r)
               (annotations r) (<[k := v]> (payload r))).

(** The fields a metadata attachment never writes. *)
Definition identity (t : Event) : JSVal * JSVal * JSVal * JSVal :=
  (id t, r_type (resource t), r_name (resource t), r_operation (resource t)).

(** ** What the module imports

    The collaborators of the file that live outside it: language and
    package functions, the optional SDK, the configuration, and the two
    values an invocation draws from its surroundings (a fresh identifier
    and the clock). *)
Record Runtime : Type := mkRuntime {
  (** [JSON.parse] on the text of its argument; [None] is a SyntaxError. *)
  JSON_parse : string -> option JSVal;
  (** [JSON.stringify]: a string, or [undefined] for [undefined]. *)
  JSON_stringify : JSVal -> JSVal;
  (** The [md5] package on a string. *)
  md5 : string -> string;
  (** [tryRequire('aws-sdk')]: [None] when the SDK is not installed,
      otherwise its [DynamoDB.Converter.unmarshall]. *)
  AWS : option (JSVal -> result JSVal);
  (** [resourceUtils.getSNSTrigger] on the record list: the embedded SNS
      message, or [null]. *)
  getSNSTrigger : JSVal -> JSVal;
  (** The value [uuid4()] returns in this invocation. *)
  uuid4 : string;
  (** [utils.createTimestamp()] in this invocation. *)
  createTimestamp : Z;
  (** [config.getConfig().metadataOnly]. *)
  metadataOnly : bool;
  (** The configured maximum size of a payload-channel string. *)
  maxPayloadSize : nat;
  (** The marker a truncated string ends with. *)
  truncationMarker : string
}.

Definition MAX_SQS_BODY_LENGTH : nat := 1 * 1024.

(** Modelled from the spec: the object canonicalisation of [JSON.sortify]
    (the json.sortify package is not part of the sources): keys in a
    stable order, here the order of [String.leb], at every depth. *)
Fixpoint insertProp (k : string) (v : JSVal) (l : list (string * JSVal))
  : list (string * JSVal) :=
  match l with
  | [] => [(k, v)]
  | (k', v') :: r =>
      if String.leb k k' then (k, v) :: l else (k', v') :: insertProp k v r
  end.

(** Modelled from the spec: the properties of one object in key order, by
    insertion. *)
Fixpoint sortProps (l : list (string * JSVal)) : list (string * JSVal) :=
  match l with
  | [] => []
  | (k, x) :: r => insertProp k x (sortProps r)
  end.

(** Modelled from the spec: the canonical form of a value, every object
    inside it with its keys in order; arrays keep the order of their
    elements. *)
Fixpoint sortKeys (v : JSVal) : JSVal :=
  match v with
  | JArr l => JArr (map sortKeys l)
  | JObj l => JObj (sortProps (map (fun kv => (fst kv, sortKeys (snd kv))) l))
  | _ => v
  end.

Section Engine.

Context (rt : Runtime).

(** Modelled from the spec: [utils.createTimestampFromTime] (src/utils.js
    is absent); the duration it is called for is the zero placeholder. *)
Definition createTimestampFromTime (t : Z) : Z := t.

(** Modelled from the spec: [utils.truncateMessage] (src/utils.js is
    absent): a string longer than the maximum is cut to the maximum and the
    marker appended; anything else is returned as it is. *)
Definition truncateMessage (msg : JSVal) (maxSize : nat) : JSVal :=
  match msg with
  | JStr s =>
      if (maxSize <? String.length s)%nat
      then JStr (String.substring 0 maxSize s +:+ truncationMarker rt)
      else msg
  | _ => msg
  end.

(** Modelled from the spec: [eventInterface.addToMetadata] (src/event.js
    is absent), the metadata normaliser.  Annotations are always attached;
    payload entries are dropped under metadata-only mode and otherwise
    attached with over-long strings truncated. *)
Definition addToMetadata (trigger : Event)
           (annots : list (string * JSVal))
           (fullData : list (string * JSVal)) : Event :=
  let trigger :=
    fold_left (fun t kv => setAnnotation (fst kv) (snd kv) t) annots trigger in
  if metadataOnly rt then trigger
  else fold_left
         (fun t kv =>
            setPayload (fst kv) (truncateMessage (snd kv) (maxPayloadSize rt)) t)
         fullData trigger.

(** Modelled from the spec: [JSON.sortify], canonical form then
    [JSON.stringify]. *)
Definition JSON_sortify (v : JSVal) : JSVal :=
  JSON_stringify rt (sortKeys v).

(** [md5(x)]: the package rejects [undefined] and [null], and hashes the
    text of what it is given. *)
Definition callMd5 (v : JSVal) : result JSVal :=
  match v with
  | JUndefined | JNull => Throw GenericError
  | _ => let* text := toStr v in Ok (JStr (md5 rt text))
  end.

(** The last element of the array [split] returned; [split] never returns
    an empty array, so the default is never taken. *)
Definition lastSeg (l : list string) : string := default "" (last l).

(** *** fillCommonFields *)
Definition fillCommonFields (trigger : Event) (resourceType : string) : Event :=
  let trigger := setStartTime (createTimestamp rt) trigger in
  let trigger := setDuration (createTimestampFromTime 0) trigger in
  let trigger := setOrigin "trigger" trigger in
  let trigger := setType (JStr resourceType) trigger in
  setErrorCode OK trigger.

(** *** createJSONTrigger *)
Definition createJSONTrigger (event : JSVal) (trigger : Event) (context : JSVal)
  : result Event :=
  let trigger := setId (JStr ("trigger-" +:+ uuid4 rt)) trigger in
  let* functionName := getProp context "functionName" in
  let* name := toStr functionName in
  let trigger := setName (JStr ("trigger-" +:+ name)) trigger in
  let trigger := setOperation (JStr "Event") trigger in
  Ok (addToMetadata trigger [] [("data", event)]).

(** *** createS3Trigger *)
Definition createS3Trigger (event : JSVal) (trigger : Event) (context : JSVal)
  : result Event :=
  let* requestId :=
    getPath event ["Records"; "0"; "responseElements"; "x-amz-request-id"] in
  let trigger := setId requestId trigger in
  let* bucket := getPath event ["Records"; "0"; "s3"; "bucket"; "name"] in
  let trigger := setName bucket trigger in
  let* eventName := getPath event ["Records"; "0"; "eventName"] in
  let trigger := setOperation eventName trigger in
  let* awsRegion := getPath event ["Records"; "0"; "awsRegion"] in
  let* region := toStr awsRegion in
  let* requestParameters := getPath event ["Records"; "0"; "requestParameters"] in
  let* userIdentity := getPath event ["Records"; "0"; "userIdentity"] in
  let* key := getPath event ["Records"; "0"; "s3"; "object"; "key"] in
  let* objectKey := toStr key in
  let* size := getPath event ["Records"; "0"; "s3"; "object"; "size"] in
  let* objectSize := toStr size in
  let* eTag := getPath event ["Records"; "0"; "s3"; "object"; "eTag"] in
  let* objectEtag := toStr eTag in
  let* requestId' :=
    getPath event ["Records"; "0"; "responseElements"; "x-amz-request-id"] in
  let* requestIdText := toStr requestId' in
  Ok (addToMetadata trigger
        [ ("region", JStr region);
          ("request_parameters", JSON_stringify rt requestParameters);
          ("user_identity", JSON_stringify rt userIdentity);
          ("object_key", JStr objectKey);
          ("object_size", JStr objectSize);
          ("object_etag", JStr objectEtag);
          ("x-amz-request-id", JStr requestIdText) ]
        []).

(** *** createKinesisTrigger *)
Definition createKinesisTrigger (event : JSVal) (trigger : Event) (context : JSVal)
  : result Event :=
  let* eventID := getPath event ["Records"; "0"; "eventID"] in
  let trigger := setId eventID trigger in
  let* arn := getPath event ["Records"; "0"; "eventSourceARN"] in
  let* parts := callSplit arn "/" in
  let trigger := setName (pop parts) trigger in
  let* eventName := getPath event ["Records"; "0"; "eventName"] in
  let* operation := callReplace eventName "aws:kinesis:" "" in
  let trigger := setOperation operation trigger in
  let* region := getPath event ["Records"; "0"; "awsRegion"] in
  let* invokeIdentityArn := getPath event ["Records"; "0"; "invokeIdentityArn"] in
  let* sequenceNumber :=
    getPath event ["Records"; "0"; "kinesis"; "sequenceNumber"] in
  let* partitionKey :=
    getPath event ["Records"; "0"; "kinesis"; "partitionKey"] in
  let* count := getPath event ["Records"; "length"] in
  Ok (addToMetadata trigger
        [ ("region", region);
          ("invoke_identity", invokeIdentityArn);
          ("sequence_number", sequenceNumber);
          ("partition_key", partitionKey);
          ("total_record_count", count) ]
        []).

(** *** createSNSTrigger *)
Definition createSNSTrigger (event : JSVal) (trigger : Event) (context : JSVal)
  : result Event :=
  let* messageId := getPath event ["Records"; "0"; "Sns"; "MessageId"] in
  let trigger := setId messageId trigger in
  let* arn := getPath event ["Records"; "0"; "EventSubscriptionArn"] in
  let* parts := callSplit arn ":" in
  let trigger := setName (nthSeg (sliceLast 2 parts) 0) trigger in
  let* type := getPath event ["Records"; "0"; "Sns"; "Type"] in
  let trigger := setOperation type trigger in
  let* subject := getPath event ["Records"; "0"; "Sns"; "Subject"] in
  let* message := getPath event ["Records"; "0"; "Sns"; "Message"] in
  let* messageAttributes :=
    getPath event ["Records"; "0"; "Sns"; "MessageAttributes"] in
  Ok (addToMetadata trigger
        [ ("Notification Subject", subject) ]
        [ ("Notification Message", message);
          ("Notification Message Attributes", messageAttributes) ]).

(** *** createSQSTrigger *)

(** The callback of [event.Records.map]: one entry of the record list. *)
Definition sqsRecord (r : JSVal) : result JSVal :=
  let* md5OfBody := getProp r "md5OfBody" in
  let* messageId := getProp r "messageId" in
  let record := [ ("MD5 Of Message Body", md5OfBody);
                  ("Message ID", messageId) ] in
  if negb (metadataOnly rt) then
    let* body := getProp r "body" in
    let record :=
      setProp "Message Body"
              (truncateMessage (orElse body (JStr "{}")) MAX_SQS_BODY_LENGTH)
              record in
    let* attributes := getProp r "attributes" in
    let record := setProp "Attributes" attributes record in
    let* messageAttributes := getProp r "messageAttributes" in
    let record := setProp "Message Attributes" messageAttributes record in
    Ok (JObj record)
  else Ok (JObj record).

(** The body of the [try] block: parse the first record's body and attach
    the step-functions data when it is there.  [JSON.parse] takes the text
    of its argument. *)
Definition sqsStepsDict (sqsMessageBody : JSVal) (trigger : Event) : result Event :=
  let* text := toStr sqsMessageBody in
  match JSON_parse rt text with
  | None => Throw SyntaxError
  | Some messageBody =>
      let* input := getProp messageBody "input" in
      if truthy input then
        let* epsagon := getProp input "Epsagon" in
        if truthy epsagon
        then Ok (addToMetadata trigger [ ("steps_dict", epsagon) ] [])
        else Ok trigger
      else Ok trigger
  end.

(** The [try] statement: whatever the block raises is caught, and the
    handler builds the message of [utils.debugLog] from the body, a
    template literal, before logging it. *)
Definition sqsTryStepsDict (sqsMessageBody : JSVal) (trigger : Event)
  : result Event :=
  match sqsStepsDict sqsMessageBody trigger with
  | Ok trigger' => Ok trigger'
  | Throw _ => let* _ := toStr sqsMessageBody in Ok trigger
  end.

Definition createSQSTrigger (event : JSVal) (trigger : Event) (context : JSVal)
  : result Event :=
  let* messageId := getPath event ["Records"; "0"; "messageId"] in
  let trigger := setId messageId trigger in
  let* arn := getPath event ["Records"; "0"; "eventSourceARN"] in
  let* parts := callSplit arn ":" in
  let trigger := setName (nthSeg (sliceLast 1 parts) 0) trigger in
  let trigger := setOperation (JStr "ReceiveMessage") trigger in
  let* body := getPath event ["Records"; "0"; "body"] in
  let sqsMessageBody := orElse body (JStr "{}") in
  let* records := getProp event "Records" in
  let* record := callMap records sqsRecord in
  let* count := getPath event ["Records"; "length"] in
  let trigger :=
    addToMetadata trigger
      [ ("record", record); ("total_record_count", count) ] [] in
  let* trigger := sqsTryStepsDict sqsMessageBody trigger in
  let* records' := getProp event "Records" in
  let snsData := getSNSTrigger rt records' in
  if nonNullish snsData
  then Ok (addToMetadata trigger [ ("SNS Trigger", snsData) ] [])
  else Ok trigger.

(** *** createAPIGatewayTrigger *)
Definition createAPIGatewayTrigger (event : JSVal) (trigger : Event) (context : JSVal)
  : result Event :=
  let* requestId := getPath event ["requestContext"; "requestId"] in
  let trigger := setId requestId trigger in
  let* host := getPath event ["headers"; "Host"] in
  let* name :=
    if truthy host then Ok host
    else getPath event ["requestContext"; "apiId"] in
  let trigger := setName name trigger in
  let* httpMethod := getProp event "httpMethod" in
  let trigger := setOperation httpMethod trigger in
  let* stage := getPath event ["requestContext"; "stage"] in
  let* queryStringParameters := getProp event "queryStringParameters" in
  let* pathParameters := getProp event "pathParameters" in
  let* path := getProp event "resource" in
  let* body := getProp event "body" in
  let* headers := getProp event "headers" in
  let* requestContext := getProp event "requestContext" in
  Ok (addToMetadata trigger
        [ ("stage", stage);
          ("query_string_parameters", queryStringParameters);
          ("path_parameters", pathParameters);
          ("path", path) ]
        [ ("body", body);
          ("headers", headers);
          ("requestContext", requestContext) ]).

(** *** createAPIGatewayHTTPV2Trigger *)
Definition createAPIGatewayHTTPV2Trigger (event : JSVal) (trigger : Event)
           (context : JSVal) : result Event :=
  let* requestId := getPath event ["requestContext"; "requestId"] in
  let trigger := setId requestId trigger in
  let* host := getPath event ["headers"; "Host"] in
  let* name :=
    if truthy host then Ok host
    else getPath event ["requestContext"; "domainName"] in
  let trigger := setName name trigger in
  let* method := getPath event ["requestContext"; "http"; "method"] in
  let trigger := setOperation method trigger in
  let* stage := getPath event ["requestContext"; "stage"] in
  let* queryStringParameters := getProp event "queryStringParameters" in
  let* pathParameters := getProp event "pathParameters" in
  let* path := getPath event ["requestContext"; "http"; "path"] in
  let* apiId := getPath event ["requestContext"; "apiId"] in
  let* body := getProp event "body" in
  let* headers := getProp event "headers" in
  let* requestContext := getProp event "requestContext" in
  Ok (addToMetadata trigger
        [ ("stage", stage);
          ("query_string_parameters", queryStringParameters);
          ("path_parameters", pathParameters);
          ("path", path);
          ("aws.api_gateway.api_id", apiId) ]
        [ ("body", body);
          ("headers", headers);
          ("requestContext", requestContext) ]).

(** *** createNoProxyAPIGatewayTrigger *)
Definition createNoProxyAPIGatewayTrigger (event : JSVal) (trigger : Event)
           (context : JSVal) : result Event :=
  let* requestId := getPath event ["context"; "request-id"] in
  let trigger := setId requestId trigger in
  let* host := getPath event ["params"; "header"; "Host"] in
  let* name :=
    if truthy host then Ok host
    else getPath event ["context"; "api-id"] in
  let trigger := setName name trigger in
  let* httpMethod := getPath event ["context"; "http-method"] in
  let trigger := setOperation httpMethod trigger in
  let* stage := getPath event ["context"; "stage"] in
  let* querystring := getPath event ["params"; "querystring"] in
  let* path := getPath event ["params"; "path"] in
  let* resourcePath := getPath event ["context"; "resource-path"] in
  let* body := getProp event "body-json" in
  let* header := getPath event ["params"; "header"] in
  Ok (addToMetadata trigger
        [ ("stage", stage);
          ("query_string_parameters", querystring);
          ("path_parameters", path);
          ("path", resourcePath) ]
        [ ("body", body);
          ("headers", header) ]).

(** *** createWebSocketTrigger *)
Definition createWebSocketTrigger (event : JSVal) (trigger : Event) (context : JSVal)
  : result Event :=
  let* requestId := getPath event ["requestContext"; "requestId"] in
  let trigger := setId requestId trigger in
  let* domainName := getPath event ["requestContext"; "domainName"] in
  let trigger := setName domainName trigger in
  let* eventType := getPath event ["requestContext"; "eventType"] in
  let trigger := setOperation (orElse eventType (JStr "CONNECT")) trigger in
  let* stage := getPath event ["requestContext"; "stage"] in
  let* routeKey := getPath event ["requestContext"; "routeKey"] in
  let* messageId := getPath event ["requestContext"; "messageId"] in
  let* connectionId := getPath event ["requestContext"; "connectionId"] in
  let* requestId' := getPath event ["requestContext"; "requestId"] in
  let* messageDirection := getPath event ["requestContext"; "messageDirection"] in
  let* body := getProp event "body" in
  Ok (addToMetadata trigger
        [ ("stage", stage);
          ("route_key", routeKey);
          ("message_id", messageId);
          ("connection_id", connectionId);
          ("request_id", requestId');
          ("message_direction", messageDirection) ]
        [ ("body", body) ]).

(** *** createEventsTrigger *)
Definition createEventsTrigger (event : JSVal) (trigger : Event) (context : JSVal)
  : result Event :=
  let* eventId := getProp event "id" in
  let trigger := setId eventId trigger in
  let* first := getPath event ["resources"; "0"] in
  let* name :=
    if isString first then
      let* first' := getPath event ["resources"; "0"] in
      let* parts := callSplit first' "/" in
      Ok (pop parts)
    else Ok (JStr "CloudWatch Events") in
  let trigger := setName name trigger in
  let* detailType := getProp event "detail-type" in
  let trigger := setOperation detailType trigger in
  let* region := getProp event "region" in
  let* detail := getProp event "detail" in
  let* account := getProp event "account" in
  Ok (addToMetadata trigger
        [ ("region", region);
          ("detail", JSON_stringify rt detail);
          ("account", account) ]
        []).

(** *** createDynamoDBTrigger *)

(** [record.eventName === 'REMOVE']. *)
Definition isRemove (eventName : JSVal) : bool :=
  match eventName with
  | JStr s => String.eqb s "REMOVE"
  | _ => false
  end.

(** The [if (AWS)] block: the hash of the decoded item. *)
Definition dynamoItemHash (record : JSVal) : result JSVal :=
  match AWS rt with
  | None => Ok (JStr "")
  | Some unmarshall =>
      let* eventName := getProp record "eventName" in
      (* in case of a delete - hash only the key. *)
      let* item :=
        if isRemove eventName then
          let* keys := getPath record ["dynamodb"; "Keys"] in
          unmarshall keys
        else
          let* newImage := getPath record ["dynamodb"; "NewImage"] in
          unmarshall newImage in
      callMd5 (JSON_sortify item)
  end.

Definition createDynamoDBTrigger (event : JSVal) (trigger : Event) (context : JSVal)
  : result Event :=
  let* record := getPath event ["Records"; "0"] in
  let* itemHash := dynamoItemHash record in
  let* eventID := getProp record "eventID" in
  let trigger := setId eventID trigger in
  let* arn := getProp record "eventSourceARN" in
  let* parts := callSplit arn "/" in
  let trigger := setName (nthSeg parts 1) trigger in
  let* eventName := getProp record "eventName" in
  let trigger := setOperation eventName trigger in
  let* region := getProp record "awsRegion" in
  let* sequenceNumber := getPath record ["dynamodb"; "SequenceNumber"] in
  let* count := getPath event ["Records"; "length"] in
  let* records := getProp event "Records" in
  Ok (addToMetadata trigger
        [ ("region", region);
          ("sequence_number", sequenceNumber);
          ("item_hash", itemHash);
          ("total_record_count", count) ]
        [ ("data", JSON_stringify rt records) ]).

(** *** createElbTrigger *)
Definition createElbTrigger (event : JSVal) (trigger : Event) (context : JSVal)
  : result Event :=
  let trigger := setId (JStr ("elb-" +:+ uuid4 rt)) trigger in
  let* host := getPath event ["headers"; "host"] in
  let trigger := setName host trigger in
  let* httpMethod := getProp event "httpMethod" in
  let trigger := setOperation httpMethod trigger in
  let* queryStringParameters := getProp event "queryStringParameters" in
  let* targetGroupArn :=
    getPath event ["requestContext"; "elb"; "targetGroupArn"] in
  let* path := getProp event "path" in
  let* body := getProp event "body" in
  let* headers := getProp event "headers" in
  Ok (addToMetadata trigger
        [ ("query_string_parameters", JSON_stringify rt queryStringParameters);
          ("target_group_arn", targetGroupArn);
          ("path", path) ]
        [ ("body", JSON_stringify rt body);
          ("headers", JSON_stringify rt headers) ]).

(** *** createCognitoTrigger *)
Definition createCognitoTrigger (event : JSVal) (trigger : Event) (context : JSVal)
  : result Event :=
  let trigger := setId (JStr ("cognito-" +:+ uuid4 rt)) trigger in
  let* userPoolId := getProp event "userPoolId" in
  let trigger := setName userPoolId trigger in
  let* triggerSource := getProp event "triggerSource" in
  let trigger := setOperation triggerSource trigger in
  let* userName := getProp event "userName" in
  let* region := getProp event "region" in
  let* callerContext := getProp event "callerContext" in
  let* request := getProp event "request" in
  let* response := getProp event "response" in
  Ok (addToMetadata trigger
        [ ("username", userName);
          ("region", region) ]
        [ ("caller_context", callerContext);
          ("request", request);
          ("response", response) ]).

(** *** resourceTypeToFactoryMap *)

Definition Factory : Type := JSVal -> Event -> JSVal -> result Event.

Definition resourceTypeToFactoryMap : list (string * Factory) :=
  [ ("s3", createS3Trigger);
    ("json", createJSONTrigger);
    ("kinesis", createKinesisTrigger);
    ("events", createEventsTrigger);
    ("sns", createSNSTrigger);
    ("sqs", createSQSTrigger);
    ("api_gateway", createAPIGatewayTrigger);
    ("api_gateway_no_proxy", createNoProxyAPIGatewayTrigger);
    ("api_gateway_websocket", createWebSocketTrigger);
    ("api_gateway_http2", createAPIGatewayHTTPV2Trigger);
    ("dynamodb", createDynamoDBTrigger);
    ("elastic_load_balancer", createElbTrigger);
    ("cognito", createCognitoTrigger) ].

(** The own property [resourceTypeToFactoryMap[tag]], if there is one. *)
Fixpoint lookupFactory (tag : string) (m : list (string * Factory)) : option Factory :=
  match m with
  | [] => None
  | (k, f) :: r => if String.eqb tag k then Some f else lookupFactory tag r
  end.

(** [resourceTypeToFactoryMap[tag](event, trigger, context)] when [tag] is
    not an own key.  The map is a plain object literal, so the lookup falls
    through to [Object.prototype]: its methods that take any arguments
    return and leave the trigger alone; those that convert their first
    argument to a property key return unless the payload shadows
    [toString] with a value that cannot be called; everything else
    ([undefined], [__proto__], [__defineGetter__], ...) is a TypeError. *)
Definition inheritedCall (tag : string) (event : JSVal) : result unit :=
  if bool_decide (tag ∈ [ "constructor"; "toString"; "toLocaleString";
                          "valueOf"; "isPrototypeOf" ])
  then Ok tt
  else if bool_decide (tag ∈ [ "hasOwnProperty"; "propertyIsEnumerable";
                               "__lookupGetter__"; "__lookupSetter__" ])
  then match event with
       | JObj l => if bool_decide (is_Some (assoc "toString" l))
                   then Throw TypeError else Ok tt
       | _ => Ok tt
       end
  else Throw TypeError.

(** *** createFromEvent *)

(** [a && b] on conditions that may throw: [b] is evaluated only when [a]
    holds. *)
Definition andAlso (a b : result bool) : result bool :=
  let* x := a in if x then b else Ok false.

(** The first phase of [createFromEvent]: the value of [triggerService]
    when the dispatch is reached. *)
Definition triggerService (event : JSVal) : result string :=
  if truthy event then
    let* hasRecords := hasProperty "Records" event in
    if hasRecords then
      let* first := getPath event ["Records"; "0"] in
      let* upper := hasProperty "EventSource" first in
      let* service :=
        if upper then
          let* source := getPath event ["Records"; "0"; "EventSource"] in
          let* parts := callSplit source ":" in
          Ok (lastSeg parts)
        else Ok "json" in
      let* first' := getPath event ["Records"; "0"] in
      let* lower := hasProperty "eventSource" first' in
      if lower then
        let* source := getPath event ["Records"; "0"; "eventSource"] in
        let* parts := callSplit source ":" in
        Ok (lastSeg parts)
      else Ok service
    else
      let* isEvents :=
        andAlso (hasProperty "source" event)
          (andAlso (hasProperty "detail-type" event)
                   (hasProperty "detail" event)) in
      if isEvents then Ok "events" else
      let* hasSource :=
        andAlso (hasProperty "source" event)
                (let* source := getProp event "source" in Ok (truthy source)) in
      if hasSource then
        let* source := getProp event "source" in
        let* parts := callSplit source "." in
        Ok (lastSeg parts)
      else
      let* isElb :=
        andAlso (hasProperty "requestContext" event)
                (let* rc := getProp event "requestContext" in
                 hasProperty "elb" rc) in
      if isElb then Ok "elastic_load_balancer" else
      let* isApi := hasProperty "httpMethod" event in
      if isApi then Ok "api_gateway" else
      let* isNoProxy :=
        andAlso (hasProperty "context" event)
                (let* c := getProp event "context" in
                 hasProperty "http-method" c) in
      if isNoProxy then Ok "api_gateway_no_proxy" else
      let* isDynamo := hasProperty "dynamodb" event in
      if isDynamo then Ok "dynamodb" else
      let* isCognito := hasProperty "userPoolId" event in
      if isCognito then Ok "cognito" else
      let* isHttp2 :=
        andAlso (hasProperty "requestContext" event)
          (andAlso (let* rc := getProp event "requestContext" in
                    hasProperty "apiId" rc)
                   (let* rc := getProp event "requestContext" in
                    hasProperty "http" rc)) in
      if isHttp2 then Ok "api_gateway_http2" else
      let* isWebSocket :=
        andAlso (hasProperty "requestContext" event)
                (let* rc := getProp event "requestContext" in
                 hasProperty "apiId" rc) in
      if isWebSocket then Ok "api_gateway_websocket" else
      Ok "json"
  else Ok "json".

Definition createFromEvent (event context : JSVal) : result Event :=
  let* service := triggerService event in
  let trigger := newEvent in
  let* trigger :=
    match lookupFactory service resourceTypeToFactoryMap with
    | Some factory => factory event trigger context
    | None => let* _ := inheritedCall service event in Ok trigger
    end in
  Ok (fillCommonFields trigger service).

End Engine.

(** The closed enumeration of source tags, as the specification lists it. *)
Definition sourceTags : list string :=
  [ "json"; "s3"; "kinesis"; "events"; "sns"; "sqs"; "api_gateway";
    "api_gateway_no_proxy"; "api_gateway_websocket"; "api_gateway_http2";
    "dynamodb"; "elastic_load_balancer"; "cognito" ].

(** ** The classification chain, as an ordered list of rules *)

(** A rule of a chain: when it matches and the tag it then gives. *)
Record Rule : Type := mkRule {
  matches : JSVal -> bool;
  tagOf : JSVal -> string
}.

(** Top-down evaluation: the first rule that matches decides. *)
Fixpoint firstMatch (rules : list Rule) (fallback : string) (payload : JSVal)
  : string :=
  match rules with
  | [] => fallback
  | r :: rest =>
      if matches r payload then tagOf r payload
      else firstMatch rest fallback payload
  end.

(** A field of a payload, absent when the payload is not an object. *)
Definition field (k : string) (v : JSVal) : option JSVal :=
  match v with
  | JObj l => assoc k l
  | _ => None
  end.

Definition has (k : string) (v : JSVal) : bool :=
  bool_decide (is_Some (field k v)).

(** A nested field [payload.k1.k2], absent when any step is. *)
Definition nested (k1 k2 : string) (payload : JSVal) : option JSVal :=
  field k1 payload ≫= field k2.

(** The text of a value, empty when it has none. *)
Definition rendered (v : JSVal) : string :=
  match toStr v with
  | Ok s => s
  | Throw _ => ""
  end.

(** The text after the last separator of a field. *)
Definition afterLast (c : ascii) (v : option JSVal) : string :=
  lastSeg (splitOn c (from_option rendered "" v)).

Definition constantly (tag : string) : JSVal -> string := fun _ => tag.

(** The chain in the words of the specification (section 4.1), predicates
    1 to 11 in order; predicate 12 is the fallback. *)
Module SpecChain.

(** First element of a non-empty "Records" list. *)
Definition firstRecord (payload : JSVal) : option JSVal :=
  match field "Records" payload with
  | Some (JArr (r :: _)) => Some r
  | _ => None
  end.

Definition recordField (k : string) (payload : JSVal) : option JSVal :=
  firstRecord payload ≫= field k.

Definition p1 : Rule :=
  mkRule (fun p => bool_decide (is_Some (recordField "EventSource" p)))
         (fun p => afterLast ":" (recordField "EventSource" p)).
Definition p2 : Rule :=
  mkRule (fun p => bool_decide (is_Some (recordField "eventSource" p)))
         (fun p => afterLast ":" (recordField "eventSource" p)).
Definition p3 : Rule :=
  mkRule (fun p => has "source" p && has "detail-type" p && has "detail" p)
         (constantly "events").
Definition p4 : Rule :=
  mkRule (fun p => has "source" p && negb (has "detail-type" p))
         (fun p => afterLast "." (field "source" p)).
Definition p5 : Rule :=
  mkRule (fun p => bool_decide (is_Some (nested "requestContext" "elb" p)))
         (constantly "elastic_load_balancer").
Definition p6 : Rule :=
  mkRule (has "httpMethod") (constantly "api_gateway").
Definition p7 : Rule :=
  mkRule (fun p => bool_decide (is_Some (nested "context" "http-method" p)))
         (constantly "api_gateway_no_proxy").
Definition p8 : Rule :=
  mkRule (has "dynamodb") (constantly "dynamodb").
Definition p9 : Rule :=
  mkRule (has "userPoolId") (constantly "cognito").
Definition p10 : Rule :=
  mkRule (fun p => bool_decide (is_Some (nested "requestContext" "apiId" p))
                   && bool_decide (is_Some (nested "requestContext" "http" p)))
         (constantly "api_gateway_http2").
Definition p11 : Rule :=
  mkRule (fun p => bool_decide (is_Some (nested "requestContext" "apiId" p))
                   && negb (bool_decide (is_Some (nested "requestContext" "http" p))))
         (constantly "api_gateway_websocket").

Definition chain : list Rule :=
  [ p1; p2; p3; p4; p5; p6; p7; p8; p9; p10; p11 ].

Definition classify (payload : JSVal) : string :=
  firstMatch chain "json" payload.

End SpecChain.

(** The chain the code follows.  A payload with a "Records" field is
    decided by the record rules alone, [eventSource] before [EventSource];
    any other payload by the remaining rules, where the source rule asks
    for a truthy [source] and does not look at [detail-type]. *)
Module CodeChain.

(** [event.Records[0]], whatever kind of value "Records" is. *)
Definition firstRecord (payload : JSVal) : option JSVal :=
  match field "Records" payload with
  | Some records =>
      match getProp records "0" with
      | Ok r => Some r
      | Throw _ => None
      end
  | None => None
  end.

Definition recordField (k : string) (payload : JSVal) : option JSVal :=
  firstRecord payload ≫= field k.

Definition lower : Rule :=
  mkRule (fun p => bool_decide (is_Some (recordField "eventSource" p)))
         (fun p => afterLast ":" (recordField "eventSource" p)).
Definition upper : Rule :=
  mkRule (fun p => bool_decide (is_Some (recordField "EventSource" p)))
         (fun p => afterLast ":" (recordField "EventSource" p)).
Definition source : Rule :=
  mkRule (fun p => from_option truthy false (field "source" p))
         (fun p => afterLast "." (field "source" p)).

Definition recordRules : list Rule := [ lower; upper ].

Definition otherRules : list Rule :=
  [ SpecChain.p3; source; SpecChain.p5; SpecChain.p6; SpecChain.p7;
    SpecChain.p8; SpecChain.p9; SpecChain.p10; SpecChain.p11 ].

Definition classify (payload : JSVal) : string :=
  if has "Records" payload
  then firstMatch recordRules "json" payload
  else firstMatch otherRules "json" payload.

End CodeChain.

(** ** Payload shapes on which classification evaluates *)

(** A field is absent or satisfies [P]. *)
Definition fieldIs (P : JSVal -> bool) (k : string) (l : list (string * JSVal))
  : bool :=
  from_option P true (assoc k l).

(** "Records" has an object (or array) as first element, whose source
    fields, where present, are strings. *)
Definition recordsShape (records : JSVal) : bool :=
  match getProp records "0" with
  | Ok (JObj r) => fieldIs isString "EventSource" r && fieldIs isString "eventSource" r
  | Ok (JArr _) => true
  | _ => false
  end.

Definition classifiable (event : JSVal) : bool :=
  match event with
  | JObj l =>
      fieldIs recordsShape "Records" l
      && fieldIs (fun s => negb (truthy s) || isString s) "source" l
      && fieldIs isObject "requestContext" l
      && fieldIs isObject "context" l
  | JArr _ => true
  | _ => negb (truthy event)
  end.

(** ** A runtime to evaluate with

    Stand-ins for the imported functions, used to run the factories on
    sample payloads.  Every property below is stated for an arbitrary
    [Runtime]; this one is only where they are evaluated. *)
Module Json.

Definition dquote : ascii := ascii_of_nat 34.
Definition backslash : ascii := ascii_of_nat 92.

Definition isSpace (c : ascii) : bool :=
  bool_decide (nat_of_ascii c ∈ [ 32; 9; 10; 13 ]%nat).

Fixpoint skipSpace (s : string) : string :=
  match s with
  | String c r => if isSpace c then skipSpace r else s
  | "" => ""
  end.

(** A single-character escape. *)
Definition unescape (c : ascii) : option ascii :=
  if Ascii.eqb c dquote then Some dquote
  else if Ascii.eqb c backslash then Some backslash
  else if Ascii.eqb c "/" then Some "/"%char
  else if Ascii.eqb c "n" then Some (ascii_of_nat 10)
  else if Ascii.eqb c "t" then Some (ascii_of_nat 9)
  else if Ascii.eqb c "r" then Some (ascii_of_nat 13)
  else if Ascii.eqb c "b" then Some (ascii_of_nat 8)
  else if Ascii.eqb c "f" then Some (ascii_of_nat 12)
  else None.

(** The rest of a string literal, after its opening quote. *)
Fixpoint stringBody (s : string) : option (string * string) :=
  match s with
  | "" => None
  | String c r =>
      if Ascii.eqb c dquote then Some ("", r)
      else if Ascii.eqb c backslash then
        match r with
        | String e r' =>
            match unescape e, stringBody r' with
            | Some ch, Some (t, rest) => Some (String ch t, rest)
            | _, _ => None
            end
        | "" => None
        end
      else if (nat_of_ascii c <? 32)%nat then None
      else match stringBody r with
           | Some (t, rest) => Some (String c t, rest)
           | None => None
           end
  end.

(** The digits at the head of a text, and what follows them. *)
Fixpoint spanDigits (s : string) : string * string :=
  match s with
  | String c r =>
      match digit c with
      | Some _ => let '(d, rest) := spanDigits r in (String c d, rest)
      | None => ("", s)
      end
  | "" => ("", "")
  end.

(** An integer literal: no leading zero, no fraction, no exponent. *)
Definition natural (s : string) : option (Z * string) :=
  let '(d, rest) := spanDigits s in
  match index_of_key d with
  | Some n =>
      match rest with
      | String c _ =>
          if bool_decide (c ∈ [ "."; "e"; "E" ]%char) then None
          else Some (Z.of_nat n, rest)
      | "" => Some (Z.of_nat n, rest)
      end
  | None => None
  end.

Definition literal (word : string) (v : JSVal) (s : string)
  : option (JSVal * string) :=
  if String.prefix word s
  then Some (v, String.substring (String.length word)
                                 (String.length s - String.length word) s)
  else None.

Fixpoint value (fuel : nat) (s : string) : option (JSVal * string) :=
  match fuel with
  | O => None
  | S fuel =>
      match skipSpace s with
      | "" => None
      | String c r =>
          if Ascii.eqb c "{" then
            match skipSpace r with
            | String c' r' =>
                if Ascii.eqb c' "}" then Some (JObj [], r')
                else match members fuel (String c' r') with
                     | Some (l, rest) =>
                         Some (JObj (fold_left (fun o kv => setProp kv.1 kv.2 o) l []),
                               rest)
                     | None => None
                     end
            | "" => None
            end
          else if Ascii.eqb c "[" then
            match skipSpace r with
            | String c' r' =>
                if Ascii.eqb c' "]" then Some (JArr [], r')
                else match elements fuel (String c' r') with
                     | Some (l, rest) => Some (JArr l, rest)
                     | None => None
                     end
            | "" => None
            end
          else if Ascii.eqb c dquote then
            match stringBody r with
            | Some (t, rest) => Some (JStr t, rest)
            | None => None
            end
          else if Ascii.eqb c "-" then
            match natural r with
            | Some (n, rest) => Some (JNum (- n), rest)
            | None => None
            end
          else if Ascii.eqb c "t" then literal "true" (JBool true) (String c r)
          else if Ascii.eqb c "f" then literal "false" (JBool false) (String c r)
          else if Ascii.eqb c "n" then literal "null" JNull (String c r)
          else match natural (String c r) with
               | Some (n, rest) => Some (JNum n, rest)
               | None => None
               end
      end
  end
with members (fuel : nat) (s : string)
     : option (list (string * JSVal) * string) :=
  match fuel with
  | O => None
  | S fuel =>
      match skipSpace s with
      | String c r =>
          if Ascii.eqb c dquote then
            match stringBody r with
            | Some (k, rest) =>
                match skipSpace rest with
                | String colon rest' =>
                    if Ascii.eqb colon ":" then
                      match value fuel rest' with
                      | Some (v, rest'') =>
                          match skipSpace rest'' with
                          | String sep more =>
                              if Ascii.eqb sep "}" then Some ([ (k, v) ], more)
                              else if Ascii.eqb sep "," then
                                match members fuel more with
                                | Some (l, final) => Some ((k, v) :: l, final)
                                | None => None
                                end
                              else None
                          | "" => None
                          end
                      | None => None
                      end
                    else None
                | "" => None
                end
            | None => None
            end
          else None
      | "" => None
      end
  end
with elements (fuel : nat) (s : string) : option (list JSVal * string) :=
  match fuel with
  | O => None
  | S fuel =>
      match value fuel s with
      | Some (v, rest) =>
          match skipSpace rest with
          | String sep more =>
              if Ascii.eqb sep "]" then Some ([ v ], more)
              else if Ascii.eqb sep "," then
                match elements fuel more with
                | Some (l, final) => Some (v :: l, final)
                | None => None
                end
              else None
          | "" => None
          end
      | None => None
      end
  end.

(** [JSON.parse] on texts whose values the model holds (integers,
    strings with single-character escapes). *)
Definition parse (s : string) : option JSVal :=
  match value (S (String.length s)) s with
  | Some (v, rest) =>
      if String.eqb (skipSpace rest) "" then Some v else None
  | None => None
  end.

(** A string literal, quotes and backslashes escaped. *)
Fixpoint escaped (s : string) : string :=
  match s with
  | "" => ""
  | String c r =>
      if Ascii.eqb c dquote || Ascii.eqb c backslash
      then String backslash (String c (escaped r))
      else String c (escaped r)
  end.

Definition quote (s : string) : string :=
  String dquote (escaped s) +:+ String dquote "".

Fixpoint text (v : JSVal) : string :=
  match v with
  | JUndefined | JNull => "null"
  | JBool b => if b then "true" else "false"
  | JNum n => JSNumber.toString n
  | JStr s => quote s
  | JArr l =>
      "[" +:+ (fix join (l : list JSVal) : string :=
                 match l with
                 | [] => ""
                 | [ x ] => text x
                 | x :: r => text x +:+ "," +:+ join r
                 end) l +:+ "]"
  | JObj l =>
      "{" +:+ (fix join (l : list (string * JSVal)) (first : bool) : string :=
                 match l with
                 | [] => ""
                 | (_, JUndefined) :: r => join r first
                 | (k, x) :: r =>
                     (if first then "" else ",")
                     +:+ quote k +:+ ":" +:+ text x +:+ join r false
                 end) l true +:+ "}"
  end.

(** [JSON.stringify]. *)
Definition stringify (v : JSVal) : JSVal :=
  match v with
  | JUndefined => JUndefined
  | _ => JStr (text v)
  end.

(** Sample texts are written with an apostrophe where JSON has a double
    quote. *)
Fixpoint quoted (s : string) : string :=
  match s with
  | "" => ""
  | String c r => String (if Ascii.eqb c "'" then dquote else c) (quoted r)
  end.

End Json.

(** ** Payload shapes the factories rely on *)

(** The value at a path is there: neither [undefined] nor [null]. *)
Definition present (v : JSVal) (path : list string) : bool :=
  match getPath v path with
  | Ok x => nonNullish x
  | Throw _ => false
  end.

(** The value at a path is a string. *)
Definition textAt (v : JSVal) (path : list string) : bool :=
  match getPath v path with
  | Ok x => isString x
  | Throw _ => false
  end.

(** The value at a path is an array without [null] elements. *)
Definition recordsAt (v : JSVal) (path : list string) : bool :=
  match getPath v path with
  | Ok (JArr l) => forallb nonNullish l
  | _ => false
  end.

(** A value has a text: no object in it, at any depth of its arrays, has a
    property of its own named [toString]. *)
Fixpoint convertible (v : JSVal) : bool :=
  match v with
  | JArr l => forallb convertible l
  | JObj l => negb (has "toString" v)
  | _ => true
  end.

(** The value at a path can be read and has a text. *)
Definition convertibleAt (v : JSVal) (path : list string) : bool :=
  match getPath v path with
  | Ok x => convertible x
  | Throw _ => false
  end.

Fixpoint prefixb (a b : list string) : bool :=
  match a, b with
  | [], _ => true
  | x :: a', y :: b' => String.eqb x y && prefixb a' b'
  | _ :: _, [] => false
  end.

(** Reading [path] needs no more than the values up to the end of [p]. *)
Definition covers (p path : list string) : bool :=
  prefixb (removelast path) p.

Section Shapes.

Context (rt : Runtime).

(** What each factory dereferences, calls a method on or turns into text,
    by tag. *)
Definition factoryShapes : list (string * (JSVal -> JSVal -> bool)) :=
  [ ("s3", fun event _ =>
       present event ["Records"; "0"; "responseElements"]
       && present event ["Records"; "0"; "s3"; "bucket"]
       && present event ["Records"; "0"; "s3"; "object"]
       && convertibleAt event ["Records"; "0"; "awsRegion"]
       && convertibleAt event ["Records"; "0"; "s3"; "object"; "key"]
       && convertibleAt event ["Records"; "0"; "s3"; "object"; "size"]
       && convertibleAt event ["Records"; "0"; "s3"; "object"; "eTag"]
       && convertibleAt event
            ["Records"; "0"; "responseElements"; "x-amz-request-id"]);
    ("json", fun _ context =>
       nonNullish context && convertibleAt context ["functionName"]);
    ("kinesis", fun event _ =>
       textAt event ["Records"; "0"; "eventSourceARN"]
       && textAt event ["Records"; "0"; "eventName"]
       && present event ["Records"; "0"; "kinesis"]);
    ("events", fun event _ => present event ["resources"]);
    ("sns", fun event _ =>
       present event ["Records"; "0"; "Sns"]
       && textAt event ["Records"; "0"; "EventSubscriptionArn"]);
    ("sqs", fun event _ =>
       textAt event ["Records"; "0"; "eventSourceARN"]
       && recordsAt event ["Records"]
       && convertibleAt event ["Records"; "0"; "body"]);
    ("api_gateway", fun event _ =>
       present event ["requestContext"] && present event ["headers"]);
    ("api_gateway_no_proxy", fun event _ =>
       present event ["context"] && present event ["params"; "header"]);
    ("api_gateway_websocket", fun event _ => present event ["requestContext"]);
    ("api_gateway_http2", fun event _ =>
       present event ["requestContext"; "http"] && present event ["headers"]);
    ("dynamodb", fun event _ =>
       textAt event ["Records"; "0"; "eventSourceARN"]
       && present event ["Records"; "0"; "dynamodb"]
       && match getPath event ["Records"; "0"] with
          | Ok record => isOk (dynamoItemHash rt record)
          | Throw _ => false
          end);
    ("elastic_load_balancer", fun event _ =>
       present event ["headers"] && present event ["requestContext"; "elb"]);
    ("cognito", fun event _ => nonNullish event) ].

Fixpoint lookupShape (tag : string) (m : list (string * (JSVal -> JSVal -> bool)))
  : option (JSVal -> JSVal -> bool) :=
  match m with
  | [] => None
  | (k, p) :: r => if String.eqb tag k then Some p else lookupShape tag r
  end.

Definition wellShaped (tag : string) (event context : JSVal) : bool :=
  match lookupShape tag factoryShapes with
  | Some p => p event context
  | None => false
  end.

End Shapes.

(** What an entry of the SQS record list holds for its record. *)
Definition entryOf (rt : Runtime) (r entry : JSVal) : Prop :=
  exists md5OfBody messageId body attributes messageAttributes,
    getProp r "md5OfBody" = Ok md5OfBody
    /\ getProp r "messageId" = Ok messageId
    /\ getProp r "body" = Ok body
    /\ getProp r "attributes" = Ok attributes
    /\ getProp r "messageAttributes" = Ok messageAttributes
    /\ field "MD5 Of Message Body" entry = Some md5OfBody
    /\ field "Message ID" entry = Some messageId
    /\ if metadataOnly rt
       then field "Message Body" entry = None
            /\ field "Attributes" entry = None
            /\ field "Message Attributes" entry = None
       else field "Message Body" entry
            = Some (truncateMessage rt (orElse body (JStr "{}"))
                                    MAX_SQS_BODY_LENGTH)
            /\ field "Attributes" entry = Some attributes
            /\ field "Message Attributes" entry = Some messageAttributes.


(** ** Items that differ in key order only *)

(** Two decoded items are the same item when one is obtained from the
    other by reordering the properties of objects, at any depth. *)
Inductive sameItem : JSVal -> JSVal -> Prop :=
| same_leaf v : isObject v = false -> sameItem v v
| same_array l l' : Forall2 sameItem l l' -> sameItem (JArr l) (JArr l')
| same_object l m l' :
    Forall2 (fun kv kv' => fst kv = fst kv' /\ sameItem (snd kv) (snd kv')) l m ->
    Permutation m l' ->
    NoDup (map fst l) ->
    sameItem (JObj l) (JObj l').

(** ** Sample runtime and payloads *)
Module Samples.

(** One attribute value of a DynamoDB item: S, N, BOOL and NULL. *)
Definition attribute (v : JSVal) : result JSVal :=
  match v with
  | JObj [ (t, x) ] =>
      if String.eqb t "S" then Ok (JStr (rendered x))
      else if String.eqb t "N" then
        match Json.parse (rendered x) with
        | Some (JNum n) => Ok (JNum n)
        | _ => Throw GenericError
        end
      else if String.eqb t "BOOL" then Ok (JBool (truthy x))
      else if String.eqb t "NULL" then Ok JNull
      else Throw GenericError
  | _ => Throw GenericError
  end.

(** Stand-in for the SDK's [unmarshall], on flat attribute maps. *)
Definition unmarshall (data : JSVal) : result JSVal :=
  match data with
  | JObj l =>
      let* l' := mapM (fun kv => let* x := attribute kv.2 in Ok (kv.1, x)) l in
      Ok (JObj l')
  | _ => Ok (JObj [])
  end.

(** Stand-in for the md5 package: some function of the text. *)
Definition digest (s : string) : string := "md5(" +:+ s +:+ ")".

Definition runtime : Runtime :=
  mkRuntime Json.parse Json.stringify digest (Some unmarshall)
            (fun _ => JNull) "6f1c" 1700000000000 false 1024 "...".

(** The same runtime under metadata-only mode and without the SDK. *)
Definition bareRuntime : Runtime :=
  mkRuntime Json.parse Json.stringify digest None
            (fun _ => JNull) "6f1c" 1700000000000 true 1024 "...".

Definition context : JSVal := JObj [ ("functionName", JStr "resize") ].

Definition s3Event : JSVal :=
  JObj [ ("Records",
          JArr [ JObj [ ("eventSource", JStr "aws:s3");
                        ("awsRegion", JStr "us-east-1");
                        ("eventName", JStr "ObjectCreated:Put");
                        ("responseElements",
                         JObj [ ("x-amz-request-id", JStr "C3D13FE58DE4C810") ]);
                        ("s3",
                         JObj [ ("bucket", JObj [ ("name", JStr "pictures") ]);
                                ("object",
                                 JObj [ ("key", JStr "cat.png");
                                        ("size", JNum 1024);
                                        ("eTag", JStr "d41d8cd9") ]) ]) ] ]) ].

(** Classified as s3, with nothing but the source field. *)
Definition s3Partial : JSVal :=
  JObj [ ("Records", JArr [ JObj [ ("eventSource", JStr "aws:s3") ] ]) ].

Definition sqsRecordWith (body : JSVal) : JSVal :=
  JObj [ ("eventSource", JStr "aws:sqs");
         ("messageId", JStr "059f36b4");
         ("md5OfBody", JStr "e4e68fb7");
         ("body", body);
         ("attributes", JObj [ ("SentTimestamp", JStr "1545082649183") ]);
         ("messageAttributes", JObj []);
         ("eventSourceARN", JStr "arn:aws:sqs:us-east-2:123456789012:jobs") ].

Definition sqsEvent (body : JSVal) : JSVal :=
  JObj [ ("Records", JArr [ sqsRecordWith body ]) ].

Definition stepsBody : string := Json.quoted "{'input':{'Epsagon':{'x':1}}}".

Definition dynamoRecord (eventName : string) (newImage : JSVal) : JSVal :=
  JObj [ ("eventSource", JStr "aws:dynamodb");
         ("eventID", JStr "c4ca4238");
         ("eventName", JStr eventName);
         ("awsRegion", JStr "us-west-2");
         ("eventSourceARN",
          JStr "arn:aws:dynamodb:us-west-2:1:table/Orders/stream/2020");
         ("dynamodb",
          JObj [ ("Keys", JObj [ ("Id", JObj [ ("N", JStr "101") ]) ]);
                 ("NewImage", newImage);
                 ("SequenceNumber", JStr "111") ]) ].

Definition dynamoEvent (eventName : string) (newImage : JSVal) : JSVal :=
  JObj [ ("Records", JArr [ dynamoRecord eventName newImage ]) ].

Definition newImage : JSVal :=
  JObj [ ("Message", JObj [ ("S", JStr "New item!") ]);
         ("Id", JObj [ ("N", JStr "101") ]) ].

Definition otherImage : JSVal :=
  JObj [ ("Id", JObj [ ("N", JStr "101") ]);
         ("Message", JObj [ ("S", JStr "Changed") ]) ].

Definition elbEvent : JSVal :=
  JObj [ ("requestContext",
          JObj [ ("elb", JObj [ ("targetGroupArn", JStr "arn:aws:elb:tg") ]) ]);
         ("httpMethod", JStr "GET");
         ("headers", JObj [ ("host", JStr "lb.example.com") ]) ].

(** A first record with neither source field, next to what predicates 5
    and 6 look for. *)
Definition recordsAndElb : JSVal :=
  JObj [ ("Records", JArr [ JObj [] ]);
         ("requestContext", JObj [ ("elb", JObj []) ]);
         ("httpMethod", JStr "GET") ].

Definition bothSourceFields : JSVal :=
  JObj [ ("Records",
          JArr [ JObj [ ("EventSource", JStr "aws:sns");
                        ("eventSource", JStr "aws:sqs") ] ]) ].

End Samples.

(** ** Further vocabulary for the properties *)

(** The unit [c] occurs in [s]. *)
Fixpoint occurs (c : ascii) (s : string) : bool :=
  match s with
  | "" => false
  | String a r => Ascii.eqb a c || occurs c r
  end.

(** A computation that raises nothing but TypeError. *)
Definition typeErrorsOnly {A} (c : result A) : Prop :=
  forall e, c = Throw e -> e = TypeError.

(** The methods every object inherits that [inheritedCall] lets return. *)
Definition inheritedNames : list string :=
  [ "constructor"; "toString"; "toLocaleString"; "valueOf"; "isPrototypeOf";
    "hasOwnProperty"; "propertyIsEnumerable";
    "__lookupGetter__"; "__lookupSetter__" ].

(** More sample payloads. *)
Module Fixtures.

Definition kinesisEvent : JSVal :=
  JObj [ ("Records",
          JArr [ JObj [ ("eventSource", JStr "aws:kinesis");
                        ("eventID", JStr "shardId-000:4959");
                        ("eventName", JStr "aws:kinesis:record");
                        ("eventSourceARN",
                         JStr "arn:aws:kinesis:us-east-2:123456789012:stream/clicks");
                        ("awsRegion", JStr "us-east-2");
                        ("kinesis",
                         JObj [ ("sequenceNumber", JStr "4959");
                                ("partitionKey", JStr "1") ]) ] ]) ].

Definition snsEvent : JSVal :=
  JObj [ ("Records",
          JArr [ JObj [ ("EventSource", JStr "aws:sns");
                        ("EventSubscriptionArn",
                         JStr "arn:aws:sns:us-east-2:123456789012:alerts:21be56ed");
                        ("Sns",
                         JObj [ ("MessageId", JStr "95df01b4");
                                ("Type", JStr "Notification");
                                ("Subject", JStr "TestInvoke");
                                ("Message", JStr "Hello") ]) ] ]) ].

(** A scheduled event without resources. *)
Definition scheduledEvent : JSVal :=
  JObj [ ("id", JStr "cdc73f9d");
         ("detail-type", JStr "Scheduled Event");
         ("source", JStr "aws.events");
         ("detail", JObj []);
         ("resources", JArr []) ].

End Fixtures.

(** ** File-system instrumentation

    The second module of the sources: the wrapper around [fs.writeFile]
    and [fs.writeFileSync].  What it does to its collaborators (the
    tracer, the event interface, the wrapped function, the user's
    callback) is recorded as a log of actions, in order. *)
Module FsHook.

(** An argument: a plain value, a function of the caller, or the callback
    the wrapper builds around one. *)
Inductive Arg : Type :=
| Value (v : JSVal)
| UserFunction (name : string)
| PatchedCallback (fsCallback : Arg).

(** [typeof a === 'function']. *)
Definition isFunction (a : Arg) : bool :=
  match a with
  | Value _ => false
  | _ => true
  end.

Definition truthyArg (a : Arg) : bool :=
  match a with
  | Value v => truthy v
  | _ => true
  end.

(** [a || b]. *)
Definition orArg (a b : Arg) : Arg := if truthyArg a then a else b.

Section Wrapper.

(** What the wrapped function and the file system raise or report. *)
Context {Err : Type}.

Inductive Action : Type :=
| InitializeEvent (path : Arg) (operation : string)
    (* eventInterface.initializeEvent('file_system', path, name, 'file_system') *)
| AddEvent (withPromise : bool)       (* tracer.addEvent(fsEvent[, promise]) *)
| Original (args : list Arg)          (* original.apply(this, args) *)
| FinalizeEvent (err : option Err)    (* eventInterface.finalizeEvent(fsEvent, startTime, err) *)
| AddException (err : Err)            (* tracer.addException(err) *)
| Resolve                             (* resolve() of the response promise *)
| UserCallback (fsCallback : Arg) (err : option Err).

(** A run: what was done, and the value returned or the exception raised. *)
Record Run : Type := mkRun {
  log : list Action;
  outcome : Err + Arg
}.

(** The wrapped function: it raises or returns.  Node calls a callback it
    was given later, never during the call. *)
Context (original : list Arg -> Err + Arg).

(** *** handleFunctionWithoutCallback *)
Definition handleFunctionWithoutCallback (args : list Arg) : Run :=
  match original args with
  | inr response => mkRun [ AddEvent false; Original args ] (inr response)
  | inl err =>
      mkRun [ AddEvent false; Original args; FinalizeEvent (Some err) ] (inl err)
  end.

(** The callback the wrapper hands to the wrapped function, when the file
    system calls it with [err]. *)
Definition patchedCallback (fsCallback : Arg) (err : option Err) : list Action :=
  [ FinalizeEvent err; Resolve; UserCallback fsCallback err ].

(** *** wrapFsWriteFileFunction: the function it returns *)
Definition internalWrapFsWriteFileFunction (originalName : string)
           (path data options callback : Arg) : Run :=
  let fsCallback :=
    if isFunction (orArg callback options)
    then orArg callback options else Value (JBool false) in
  let started := InitializeEvent path originalName in
  if negb (truthyArg fsCallback) then
    let run := handleFunctionWithoutCallback [ path; data; options ] in
    mkRun (started :: log run) (outcome run)
  else
    (* the try block: the call, then tracer.addEvent; the catch block:
       tracer.addException *)
    let attempt : list Action * Arg :=
      let call (args : list Arg) : list Action * Arg :=
        match original args with
        | inr clientRequest => ([ Original args; AddEvent true ], clientRequest)
        | inl err => ([ Original args; AddException err ], Value JUndefined)
        end in
      if isFunction callback
      then call [ path; data; options; PatchedCallback fsCallback ]
      else if isFunction options
      then call [ path; data; PatchedCallback fsCallback ]
      else ([ AddEvent true ], Value JUndefined) in
    let clientRequest := snd attempt in
    if truthyArg (orArg clientRequest fsCallback)
    then mkRun (started :: fst attempt) (inr clientRequest)
    else
      let again := [ path; data; options; callback ] in
      mkRun (started :: fst attempt ++ [ Original again ])%list (original again).

(** The argument lists the wrapped function was called with, in order. *)
Fixpoint originalCalls (l : list Action) : list (list Arg) :=
  match l with
  | [] => []
  | Original args :: r => args :: originalCalls r
  | _ :: r => originalCalls r
  end.

(** Whether the event was handed to the tracer. *)
Definition eventAdded (l : list Action) : bool :=
  existsb (fun a => match a with AddEvent _ => true | _ => false end) l.

End Wrapper.

(** [s.toUpperCase()] on units.  Three Latin-1 letters have their upper
    case outside the 8-bit units and are left as they are; none of them
    maps onto a letter of ['TRUE']. *)
Definition upperUnit (c : ascii) : ascii :=
  let n := nat_of_ascii c in
  if (97 <=? n)%nat && (n <=? 122)%nat then ascii_of_nat (n - 32)
  else if (224 <=? n)%nat && (n <=? 254)%nat && negb (n =? 247)%nat
  then ascii_of_nat (n - 32)
  else c.

Fixpoint toUpperCase (s : string) : string :=
  match s with
  | "" => ""
  | String c r => String (upperUnit c) (toUpperCase r)
  end.

(** *** init: the methods of [fs] it patches, given
    [process.env.EPSAGON_FS_INSTRUMENTATION] *)
Definition init (setting : JSVal) : result (list string) :=
  match orElse setting (JStr "") with
  | JStr s =>
      if String.eqb (toUpperCase s) "TRUE"
      then Ok [ "writeFile"; "writeFileSync" ] else Ok []
  | _ => Throw TypeError
  end.

End FsHook.

(** A wrapped function that always fails, to evaluate the wrapper with. *)
Definition alwaysFails : list FsHook.Arg -> string + FsHook.Arg :=
  fun _ => inl "EACCES".

(** * Properties *)

(** ** The value model *)

(** Induction over values that reaches inside arrays and objects. *)
Lemma JSVal_deep_ind (P : JSVal -> Prop) :
  P JUndefined -> P JNull ->
  (forall b, P (JBool b)) -> (forall n, P (JNum n)) -> (forall s, P (JStr s)) ->
  (forall l, Forall P l -> P (JArr l)) ->
  (forall l, Forall (fun kv => P (snd kv)) l -> P (JObj l)) ->
  forall v, P v.
Proof.
  intros Hu Hn Hb Hz Hs Ha Ho.
  fix IH 1. intros [ | | b | n | s | l | l ].
  - exact Hu.
  - exact Hn.
  - apply Hb.
  - apply Hz.
  - apply Hs.
  - apply Ha. induction l as [ | x l IHl ]; constructor; [ apply IH | exact IHl ].
  - apply Ho. induction l as [ | [k x] l IHl ]; constructor; [ apply IH | exact IHl ].
Qed.

Example split_arn : splitOn ":" "arn:aws:sqs:us-east-1:1:queue"
                    = ["arn"; "aws"; "sqs"; "us-east-1"; "1"; "queue"].
Proof. reflexivity. Qed.

Example split_empty : splitOn ":" "" = [""].
Proof. reflexivity. Qed.

Example replace_kinesis : replaceFirst "aws:kinesis:" "" "aws:kinesis:record" = "record".
Proof. reflexivity. Qed.

Example toStr_array : toStr (JArr [JNum 1; JNull; JStr "a"]) = Ok "1,,a".
Proof. reflexivity. Qed.

Example toStr_own_toString :
  toStr (JObj [ ("toString", JNum 1) ]) = Throw TypeError
  /\ toStr (JArr [ JStr "a"; JObj [ ("toString", JNum 1) ] ]) = Throw TypeError
  /\ toStr (JObj [ ("a", JNum 1) ]) = Ok "[object Object]".
Proof. repeat split. Qed.

Example toStr_numbers :
  toStr (JNum 1024) = Ok "1024"
  /\ toStr (JNum (-5)) = Ok "-5"
  /\ toStr (JNum (10 ^ 21)) = Ok "1e+21"
  /\ toStr (JNum (2 ^ 64)) = Ok "18446744073709552000"
  /\ toStr (JNum (2 ^ 70)) = Ok "1.1805916207174113e+21".
Proof. repeat split; vm_compute; reflexivity. Qed.

(** Up to [2 ^ 53] the text of a number is its decimal numeral. *)
Lemma toStr_safe_integer n :
  (0 <= n < 2 ^ 53)%Z -> toStr (JNum n) = Ok (pretty n).
Proof.
  intros [ Hlo Hhi ]. simpl. unfold JSNumber.toString, JSNumber.ofNatural.
  destruct (Z.ltb_spec n 0); [ lia | ].
  destruct (Z.ltb_spec n (2 ^ 53)); [ reflexivity | lia ].
Qed.

Lemma joinTexts_ok {A} (text : A -> result string) l :
  isOk (joinTexts text l) = forallb (fun x => isOk (text x)) l.
Proof.
  induction l as [ | x l IH ]; [ reflexivity | ].
  cbn [forallb]. rewrite <- IH. clear IH.
  destruct l as [ | y l ].
  - cbn. now rewrite andb_true_r.
  - change (joinTexts text (x :: y :: l))
      with (let* a := text x in
            let* b := joinTexts text (y :: l) in Ok (a +:+ "," +:+ b)).
    destruct (text x); [ | reflexivity ]. cbn [bind isOk andb].
    now destruct (joinTexts text (y :: l)).
Qed.

Lemma joinTexts_raises {A} (text : A -> result string) l e :
  Forall (fun x => forall e, text x = Throw e -> e = TypeError) l ->
  joinTexts text l = Throw e -> e = TypeError.
Proof.
  induction 1 as [ | x l Hx _ IH ]; [ discriminate | ].
  destruct l as [ | y l ]; [ apply Hx | ].
  change (joinTexts text (x :: y :: l))
    with (let* a := text x in
          let* b := joinTexts text (y :: l) in Ok (a +:+ "," +:+ b)).
  destruct (text x) eqn:E; cbn [bind]; [ | intros [= <-]; now apply Hx ].
  destruct (joinTexts text (y :: l)); cbn [bind];
    [ discriminate | intros [= <-]; now apply IH ].
Qed.

(** A value has a text exactly when it is [convertible]. *)
Lemma toStr_convertible v : isOk (toStr v) = convertible v.
Proof.
  induction v as [ | | b | n | s | l IH | l _ ] using JSVal_deep_ind;
    try reflexivity.
  - cbn [toStr convertible]. rewrite joinTexts_ok.
    induction IH as [ | x l Hx _ IHl ]; [ reflexivity | ].
    cbn [forallb]. rewrite IHl, <- Hx. now destruct x.
  - cbn. unfold has. cbn. now destruct (bool_decide _).
Qed.

Lemma convertible_text v : convertible v = true -> exists s, toStr v = Ok s.
Proof.
  rewrite <- toStr_convertible. destruct (toStr v); [ eauto | discriminate ].
Qed.

(** What ToString raises is a TypeError. *)
Lemma toStr_raises v e : toStr v = Throw e -> e = TypeError.
Proof.
  revert e.
  induction v as [ | | b | n | s | l IH | l _ ] using JSVal_deep_ind;
    intros e; try discriminate.
  - cbn [toStr]. apply joinTexts_raises.
    eapply Forall_impl; [ exact IH | ].
    intros x Hx e'. destruct x; try discriminate; apply Hx.
  - cbn. destruct (bool_decide _); [ now intros [= <-] | discriminate ].
Qed.

Example index_zero : getProp (JArr [JStr "x"]) "0" = Ok (JStr "x").
Proof. reflexivity. Qed.

Example index_leading_zero : getProp (JArr [JStr "x"]) "00" = Ok JUndefined.
Proof. reflexivity. Qed.


(** ** The metadata normaliser leaves the identity of a trigger alone *)

Section Normaliser.

Context (rt : Runtime).

Lemma setName_setName n m t : setName n (setName m t) = setName n t.
Proof. reflexivity. Qed.

Lemma setName_id t : setName (r_name (resource t)) t = t.
Proof. destruct t as [? ? ? ? ? []]; reflexivity. Qed.

Lemma setAnnotation_setName k v n t :
  setAnnotation k v (setName n t) = setName n (setAnnotation k v t).
Proof. reflexivity. Qed.

Lemma setPayload_setName k v n t :
  setPayload k v (setName n t) = setName n (setPayload k v t).
Proof. reflexivity. Qed.

Lemma fold_annotations_setName annots n t :
  fold_left (fun t kv => setAnnotation (fst kv) (snd kv) t) annots (setName n t)
  = setName n
      (fold_left (fun t kv => setAnnotation (fst kv) (snd kv) t) annots t).
Proof.
  revert t. induction annots as [ | [k v] annots IH ]; intros t; simpl.
  - reflexivity.
  - rewrite setAnnotation_setName. apply IH.
Qed.

Lemma fold_payload_setName (f : JSVal -> JSVal) fullData n t :
  fold_left (fun t kv => setPayload (fst kv) (f (snd kv)) t) fullData (setName n t)
  = setName n
      (fold_left (fun t kv => setPayload (fst kv) (f (snd kv)) t) fullData t).
Proof.
  revert t. induction fullData as [ | [k v] fullData IH ]; intros t; simpl.
  - reflexivity.
  - rewrite setPayload_setName. apply IH.
Qed.

Lemma addToMetadata_setName annots fullData n t :
  addToMetadata rt (setName n t) annots fullData
  = setName n (addToMetadata rt t annots fullData).
Proof.
  unfold addToMetadata. rewrite fold_annotations_setName.
  destruct (metadataOnly rt); [ reflexivity | ].
  apply (fold_payload_setName (fun v => truncateMessage rt v (maxPayloadSize rt))).
Qed.

Lemma fold_annotations_identity annots t :
  identity
    (fold_left (fun t kv => setAnnotation (fst kv) (snd kv) t) annots t)
  = identity t.
Proof.
  revert t. induction annots as [ | kv annots IH ]; intros t; simpl.
  - reflexivity.
  - now rewrite IH.
Qed.

Lemma fold_payload_identity (f : JSVal -> JSVal) fullData t :
  identity
    (fold_left (fun t kv => setPayload (fst kv) (f (snd kv)) t) fullData t)
  = identity t.
Proof.
  revert t. induction fullData as [ | kv fullData IH ]; intros t; simpl.
  - reflexivity.
  - now rewrite IH.
Qed.

Lemma addToMetadata_identity annots fullData t :
  identity (addToMetadata rt t annots fullData) = identity t.
Proof.
  unfold addToMetadata. destruct (metadataOnly rt).
  - apply fold_annotations_identity.
  - rewrite (fold_payload_identity
               (fun v => truncateMessage rt v (maxPayloadSize rt))).
    apply fold_annotations_identity.
Qed.

Lemma fillCommonFields_setName n t tag :
  fillCommonFields rt (setName n t) tag = setName n (fillCommonFields rt t tag).
Proof. reflexivity. Qed.

Lemma fillCommonFields_resource t tag :
  r_type (resource (fillCommonFields rt t tag)) = JStr tag
  /\ r_name (resource (fillCommonFields rt t tag)) = r_name (resource t)
  /\ r_operation (resource (fillCommonFields rt t tag)) = r_operation (resource t)
  /\ annotations (resource (fillCommonFields rt t tag)) = annotations (resource t).
Proof. repeat split. Qed.

End Normaliser.

(** ** The fallback type *)

(** C6: the empty payload and the null payload both classify as [json], and
    the trigger is the one the json factory builds: operation ['Event'],
    name ['trigger-'] followed by the function name of the context, for a
    context whose function name has a text.  The text of a string is the
    string itself, that of an absent function name is ['undefined'], that of
    an integer up to [2 ^ 53] its decimal numeral. *)
Theorem fallback_is_json (rt : Runtime) (event context functionName : JSVal)
        (name : string) :
  event = JObj [] \/ event = JNull ->
  getProp context "functionName" = Ok functionName ->
  toStr functionName = Ok name ->
  triggerService event = Ok "json"
  /\ (exists built,
        createJSONTrigger rt event newEvent context = Ok built
        /\ createFromEvent rt event context = Ok (fillCommonFields rt built "json")
        /\ r_type (resource (fillCommonFields rt built "json")) = JStr "json"
        /\ r_operation (resource (fillCommonFields rt built "json")) = JStr "Event"
        /\ r_name (resource (fillCommonFields rt built "json"))
           = JStr ("trigger-" +:+ name))
  /\ (forall s, functionName = JStr s -> name = s)
  /\ (functionName = JUndefined -> name = "undefined")
  /\ (forall n, functionName = JNum n -> (0 <= n < 2 ^ 53)%Z -> name = pretty n).
Proof.
  intros Hev Hctx Hname.
  assert (Hsvc : triggerService event = Ok "json")
    by (destruct Hev as [-> | ->]; reflexivity).
  split; [ exact Hsvc | ]. split; [ | split; [ | split ] ].
  - unfold createFromEvent. rewrite Hsvc. simpl.
    unfold createJSONTrigger. rewrite Hctx. cbn [bind]. rewrite Hname.
    cbn [bind].
    eexists. split; [ reflexivity | ]. split; [ reflexivity | ].
    pose proof (addToMetadata_identity rt [] [("data", event)]
                  (setOperation (JStr "Event")
                     (setName (JStr ("trigger-" +:+ name))
                        (setId (JStr ("trigger-" +:+ uuid4 rt)) newEvent)))) as Hid.
    unfold identity in Hid. simpl in Hid. injection Hid as _ _ Hn Hop.
    repeat split; simpl; assumption.
  - intros s ->. now injection Hname.
  - intros ->. now injection Hname.
  - intros n -> Hn. rewrite (toStr_safe_integer n Hn) in Hname.
    now injection Hname.
Qed.

(** ** Classification *)

Lemma hasProperty_obj k l : hasProperty k (JObj l) = Ok (has k (JObj l)).
Proof. reflexivity. Qed.

Lemma splitOn_nonempty c s : splitOn c s <> [].
Proof.
  destruct s as [ | a r ]; simpl; [ discriminate | ].
  destruct (Ascii.eqb a c); [ discriminate | ].
  destruct (splitOn c r); discriminate.
Qed.

Lemma andAlso_ok x y : andAlso (Ok x) (Ok y) = Ok (x && y).
Proof. destruct x; reflexivity. Qed.

(** The three-field test of the events rule never throws on an object. *)
Lemma events_test l :
  andAlso (hasProperty "source" (JObj l))
          (andAlso (hasProperty "detail-type" (JObj l))
                   (hasProperty "detail" (JObj l)))
  = Ok (matches SpecChain.p3 (JObj l)).
Proof.
  rewrite !hasProperty_obj, !andAlso_ok. simpl.
  now rewrite andb_assoc.
Qed.

(** Nor does the test of a truthy [source]. *)
Lemma source_test l :
  andAlso (hasProperty "source" (JObj l))
          (let* source := getProp (JObj l) "source" in Ok (truthy source))
  = Ok (matches CodeChain.source (JObj l)).
Proof.
  simpl. destruct (assoc "source" l); reflexivity.
Qed.

(** A test of a nested field, when it returns, says whether the nested
    field is there; it throws when the outer field is not an object. *)
Lemma nested_test k1 k2 l b :
  index_of_key k2 = None -> String.eqb k2 "length" = false ->
  andAlso (hasProperty k1 (JObj l))
          (let* x := getProp (JObj l) k1 in hasProperty k2 x) = Ok b ->
  b = bool_decide (is_Some (nested k1 k2 (JObj l))).
Proof.
  intros Hidx Hlen. unfold nested. simpl.
  destruct (assoc k1 l) as [ x | ]; simpl; [ | now intros [= <-] ].
  destruct x; simpl; try discriminate.
  - rewrite Hidx, Hlen. now intros [= <-].
  - now intros [= <-].
Qed.

Lemma nested_test_ok k1 k2 l :
  fieldIs isObject k1 l = true ->
  isOk (andAlso (hasProperty k1 (JObj l))
                (let* x := getProp (JObj l) k1 in hasProperty k2 x)) = true.
Proof.
  unfold fieldIs. simpl.
  destruct (assoc k1 l) as [ x | ]; simpl; [ | reflexivity ].
  destruct x; simpl; intros H; try discriminate; reflexivity.
Qed.

Lemma recordField_first k l records first :
  assoc "Records" l = Some records ->
  getProp records "0" = Ok first ->
  CodeChain.recordField k (JObj l) = field k first.
Proof.
  intros HR H0. unfold CodeChain.recordField, CodeChain.firstRecord.
  simpl. rewrite HR, H0. reflexivity.
Qed.

(** The right-hand side of a monadic test, once it is known to return. *)
Ltac returned H b :=
  match goal with
  | |- context [ bind ?c _ ] =>
      destruct c as [ b | ] eqn:H; [ | discriminate ]
  end.

Lemma code_chain_records l records t :
  assoc "Records" l = Some records ->
  triggerService (JObj l) = Ok t ->
  t = firstMatch CodeChain.recordRules "json" (JObj l).
Proof.
  intros HR. unfold triggerService. simpl. rewrite HR. simpl.
  destruct (getProp records "0") as [ first | e ] eqn:H0; simpl;
    [ | discriminate ].
  rewrite !(recordField_first _ _ _ _ HR H0).
  destruct first as [ | | b | n | s | a | r ]; simpl; try discriminate.
  - (* an array as first record carries neither field *)
    cbn. intros [= <-]. reflexivity.
  - unfold afterLast.
    destruct (assoc "EventSource" r) as [ up | ] eqn:HU;
      destruct (assoc "eventSource" r) as [ lo | ] eqn:HL; simpl;
      repeat match goal with
             | |- context [ callSplit ?v _ ] => destruct v; simpl; try discriminate
             end;
      intros [= <-]; reflexivity.
Qed.

Lemma http2_test l b :
  andAlso (hasProperty "requestContext" (JObj l))
          (andAlso (let* rc := getProp (JObj l) "requestContext" in
                    hasProperty "apiId" rc)
                   (let* rc := getProp (JObj l) "requestContext" in
                    hasProperty "http" rc)) = Ok b ->
  b = matches SpecChain.p10 (JObj l).
Proof.
  unfold SpecChain.p10, nested. simpl.
  destruct (assoc "requestContext" l) as [ x | ]; simpl; [ | now intros [= <-] ].
  destruct x as [ | | ? | ? | ? | a | r ]; simpl; try discriminate.
  - now intros [= <-].
  - destruct (assoc "apiId" r); simpl; now intros [= <-].
Qed.

Lemma code_chain_others l t :
  assoc "Records" l = None ->
  triggerService (JObj l) = Ok t ->
  t = firstMatch CodeChain.otherRules "json" (JObj l).
Proof.
  intros HR. unfold triggerService.
  cbn [truthy]. rewrite hasProperty_obj. unfold has at 1. cbn [field].
  rewrite HR. replace (bool_decide (is_Some (@None JSVal))) with false
    by reflexivity.
  rewrite events_test, source_test. cbn [bind].
  unfold CodeChain.otherRules. cbn [firstMatch].
  destruct (matches SpecChain.p3 (JObj l)); [ now intros [= <-] | ].
  destruct (matches CodeChain.source (JObj l)) eqn:Hsrc.
  { unfold CodeChain.source, afterLast in *. simpl in *.
    destruct (assoc "source" l) as [ [ ] | ]; simpl in *; try discriminate;
      intros [= <-]; reflexivity. }
  returned Helb b. apply nested_test in Helb; [ | reflexivity .. ].
  change (b = matches SpecChain.p5 (JObj l)) in Helb. subst b. cbn [bind].
  destruct (matches SpecChain.p5 (JObj l)); [ now intros [= <-] | ].
  rewrite !hasProperty_obj. cbn [bind].
  change (has "httpMethod" (JObj l)) with (matches SpecChain.p6 (JObj l)).
  destruct (matches SpecChain.p6 (JObj l)); [ now intros [= <-] | ].
  returned Hnp b. apply nested_test in Hnp; [ | reflexivity .. ].
  change (b = matches SpecChain.p7 (JObj l)) in Hnp. subst b. cbn [bind].
  destruct (matches SpecChain.p7 (JObj l)); [ now intros [= <-] | ].
  change (has "dynamodb" (JObj l)) with (matches SpecChain.p8 (JObj l)).
  destruct (matches SpecChain.p8 (JObj l)); [ now intros [= <-] | ].
  change (has "userPoolId" (JObj l)) with (matches SpecChain.p9 (JObj l)).
  destruct (matches SpecChain.p9 (JObj l)); [ now intros [= <-] | ].
  returned Hh2 b. apply http2_test in Hh2. subst b. cbn [bind].
  destruct (matches SpecChain.p10 (JObj l)) eqn:H10; [ now intros [= <-] | ].
  returned Hws b. apply nested_test in Hws; [ | reflexivity .. ]. subst b.
  cbn [bind]. unfold SpecChain.p11, SpecChain.p10 in *. cbn [matches tagOf] in *.
  destruct (bool_decide (is_Some (nested "requestContext" "apiId" (JObj l))));
    destruct (bool_decide (is_Some (nested "requestContext" "http" (JObj l))));
    simpl in *; try discriminate; now intros [= <-].
Qed.

(** The tag [createFromEvent] resolves is the one the code's chain gives. *)
Lemma code_chain ev t : triggerService ev = Ok t -> t = CodeChain.classify ev.
Proof.
  destruct ev as [ | | b | n | s | a | l ].
  1-2: now intros [= <-].
  1-3: unfold triggerService; simpl; destruct (_ : bool); simpl;
       [ discriminate | now intros [= <-] ].
  - vm_compute. now intros [= <-].
  - unfold CodeChain.classify, has. cbn [field].
    destruct (assoc "Records" l) as [ records | ] eqn:HR.
    + apply (code_chain_records _ _ _ HR).
    + apply (code_chain_others _ _ HR).
Qed.

Lemma http2_test_ok l :
  fieldIs isObject "requestContext" l = true ->
  isOk (andAlso (hasProperty "requestContext" (JObj l))
          (andAlso (let* rc := getProp (JObj l) "requestContext" in
                    hasProperty "apiId" rc)
                   (let* rc := getProp (JObj l) "requestContext" in
                    hasProperty "http" rc))) = true.
Proof.
  unfold fieldIs. simpl.
  destruct (assoc "requestContext" l) as [ x | ]; simpl; [ | reflexivity ].
  destruct x as [ | | ? | ? | ? | a | r ]; simpl; try discriminate.
  - reflexivity.
  - destruct (assoc "apiId" r); reflexivity.
Qed.

(** A test known to return can be named. *)
Ltac returns H :=
  match type of H with
  | isOk ?c = true =>
      let b := fresh "b" in
      destruct c as [ b | ? ]; [ clear H | discriminate H ]
  end.

Lemma classifiable_records l records :
  assoc "Records" l = Some records ->
  recordsShape records = true ->
  exists t, triggerService (JObj l) = Ok t.
Proof.
  intros HR. unfold triggerService, recordsShape, fieldIs. simpl.
  rewrite HR. simpl.
  destruct (getProp records "0") as [ first | ]; simpl; [ | discriminate ].
  destruct first as [ | | ? | ? | ? | a | r ]; simpl; try discriminate.
  - intros _. cbn. eauto.
  - destruct (assoc "EventSource" r) as [ [ ] | ];
      destruct (assoc "eventSource" r) as [ [ ] | ];
      simpl; try discriminate; eauto.
Qed.

Lemma classifiable_others l :
  assoc "Records" l = None ->
  fieldIs (fun s => negb (truthy s) || isString s) "source" l = true ->
  fieldIs isObject "requestContext" l = true ->
  fieldIs isObject "context" l = true ->
  exists t, triggerService (JObj l) = Ok t.
Proof.
  intros HR Hsrc Hrc Hctx. unfold triggerService.
  cbn [truthy]. rewrite hasProperty_obj. unfold has at 1. cbn [field].
  rewrite HR. replace (bool_decide (is_Some (@None JSVal))) with false
    by reflexivity.
  rewrite events_test, source_test. cbn [bind].
  destruct (matches SpecChain.p3 (JObj l)); [ eauto | ].
  destruct (matches CodeChain.source (JObj l)) eqn:Hs.
  { unfold CodeChain.source, fieldIs in *. simpl in *.
    destruct (assoc "source" l) as [ [ ] | ]; simpl in *;
      try discriminate; eauto;
      subst; simpl in *;
      repeat match goal with
             | H : negb ?c || false = true |- _ => destruct c; simpl in H
             end;
      discriminate. }
  pose proof (nested_test_ok "requestContext" "elb" l Hrc) as Helb.
  returns Helb. cbn [bind]. destruct b; [ eauto | ].
  rewrite (hasProperty_obj "httpMethod"). cbn [bind].
  destruct (has "httpMethod" (JObj l)); [ eauto | ].
  pose proof (nested_test_ok "context" "http-method" l Hctx) as Hnp.
  returns Hnp. cbn [bind]. destruct b; [ eauto | ].
  rewrite (hasProperty_obj "dynamodb"), (hasProperty_obj "userPoolId").
  cbn [bind].
  destruct (has "dynamodb" (JObj l)); [ eauto | ].
  destruct (has "userPoolId" (JObj l)); [ eauto | ].
  pose proof (http2_test_ok l Hrc) as Hh2.
  returns Hh2. cbn [bind]. destruct b; [ eauto | ].
  pose proof (nested_test_ok "requestContext" "apiId" l Hrc) as Hws.
  returns Hws. cbn [bind]. destruct b; eauto.
Qed.

(** C1, amended: classification evaluates without error on every payload
    that is falsy, an array, or an object whose nested values have the kind
    the tests need: the first element of "Records" is an object (or array)
    with string source fields, a truthy "source" is a string, and
    "requestContext" and "context" are objects.  A top-level field that is
    absent is a non-match. *)
Theorem classifier_total_on_shapes (event : JSVal) :
  classifiable event = true -> exists tag, triggerService event = Ok tag.
Proof.
  destruct event as [ | | b | n | s | a | l ].
  1-5: intros H; apply negb_true_iff in H; unfold triggerService;
       rewrite H; eauto.
  - intros _. eexists. reflexivity.
  - simpl. unfold fieldIs at 1. intros H.
    apply andb_prop in H as [ H Hctx ]. apply andb_prop in H as [ H Hrc ].
    apply andb_prop in H as [ Hrec Hsrc ].
    destruct (assoc "Records" l) as [ records | ] eqn:HR.
    + apply (classifiable_records _ _ HR Hrec).
    + apply (classifiable_others _ HR Hsrc Hrc Hctx).
Qed.

(** C1 fails as stated: an empty "Records" list and a null "context" both
    make the classifier raise. *)
Lemma classifier_not_total :
  triggerService (JObj [ ("Records", JArr []) ]) = Throw TypeError
  /\ triggerService (JObj [ ("context", JNull) ]) = Throw TypeError.
Proof. split; reflexivity. Qed.

(** The amended C1 at an S3 notification. *)
Lemma classifier_total_on_shapes_witness :
  exists tag,
    triggerService
      (JObj [ ("Records", JArr [ JObj [ ("eventSource", JStr "aws:s3") ] ]) ])
    = Ok tag.
Proof.
  apply (classifier_total_on_shapes
           (JObj [ ("Records", JArr [ JObj [ ("eventSource", JStr "aws:s3") ] ]) ])).
  reflexivity.
Defined.

(** *** The order of the chain *)

Lemma spec_chain_no_records ev :
  has "Records" ev = false ->
  matches SpecChain.p3 ev = true
  \/ matches SpecChain.p4 ev = matches CodeChain.source ev ->
  CodeChain.classify ev = SpecChain.classify ev.
Proof.
  intros HR Hsrc. unfold CodeChain.classify, SpecChain.classify.
  rewrite HR. unfold SpecChain.chain, CodeChain.otherRules. cbn [firstMatch].
  assert (H1 : matches SpecChain.p1 ev = false).
  { unfold SpecChain.p1, SpecChain.recordField, SpecChain.firstRecord, has in *.
    cbn [matches]. apply bool_decide_eq_false in HR.
    destruct (field "Records" ev); [ exfalso; apply HR; eauto | reflexivity ]. }
  assert (H2 : matches SpecChain.p2 ev = false).
  { unfold SpecChain.p2, SpecChain.recordField, SpecChain.firstRecord, has in *.
    cbn [matches]. apply bool_decide_eq_false in HR.
    destruct (field "Records" ev); [ exfalso; apply HR; eauto | reflexivity ]. }
  rewrite H1, H2.
  destruct (matches SpecChain.p3 ev) eqn:H3; [ reflexivity | ].
  destruct Hsrc as [ Hsrc | Hsrc ]; [ discriminate | ].
  rewrite Hsrc. reflexivity.
Qed.

(** C4, amended: classification is first-match-wins over the chain the
    code follows.  A payload with a "Records" field is decided by the
    record rules alone, [eventSource] taking precedence over [EventSource],
    with [json] when the first record carries neither; a payload without
    "Records" is decided by predicates 3 to 11 in order, predicate 4 asking
    for a truthy [source] whatever [detail-type] is.  Where the payload has
    no "Records" field and predicate 4 agrees with that test, the tag is the
    one the chain of section 4.1 gives. *)
Theorem classification_follows_code_chain (event : JSVal) (tag : string) :
  triggerService event = Ok tag ->
  tag = CodeChain.classify event
  /\ (has "Records" event = false ->
      matches SpecChain.p3 event = true
      \/ matches SpecChain.p4 event = matches CodeChain.source event ->
      tag = SpecChain.classify event).
Proof.
  intros H. apply code_chain in H. split; [ exact H | ].
  intros HR Hsrc. rewrite H. now apply spec_chain_no_records.
Qed.

(** The amended C4 at a load-balancer request. *)
Lemma classification_follows_code_chain_witness :
  "elastic_load_balancer"
  = CodeChain.classify
      (JObj [ ("requestContext", JObj [ ("elb", JObj []) ]);
              ("httpMethod", JStr "GET") ])
  /\ (has "Records"
          (JObj [ ("requestContext", JObj [ ("elb", JObj []) ]);
                  ("httpMethod", JStr "GET") ]) = false ->
      matches SpecChain.p3
          (JObj [ ("requestContext", JObj [ ("elb", JObj []) ]);
                  ("httpMethod", JStr "GET") ]) = true
      \/ matches SpecChain.p4
           (JObj [ ("requestContext", JObj [ ("elb", JObj []) ]);
                   ("httpMethod", JStr "GET") ])
         = matches CodeChain.source
             (JObj [ ("requestContext", JObj [ ("elb", JObj []) ]);
                     ("httpMethod", JStr "GET") ]) ->
      "elastic_load_balancer"
      = SpecChain.classify
          (JObj [ ("requestContext", JObj [ ("elb", JObj []) ]);
                  ("httpMethod", JStr "GET") ])).
Proof.
  apply (classification_follows_code_chain
           (JObj [ ("requestContext", JObj [ ("elb", JObj []) ]);
                   ("httpMethod", JStr "GET") ])
           "elastic_load_balancer").
  reflexivity.
Defined.

(** C4 fails as stated, twice: with both source fields on the first record
    the tag comes from [eventSource], not [EventSource]; and a first record
    with neither field ends classification at [json] although a later
    predicate of the chain matches. *)
Lemma chain_order_counterexample :
  (triggerService
     (JObj [ ("Records",
              JArr [ JObj [ ("EventSource", JStr "aws:sns");
                            ("eventSource", JStr "aws:sqs") ] ]) ])
   = Ok "sqs"
   /\ SpecChain.classify
        (JObj [ ("Records",
                 JArr [ JObj [ ("EventSource", JStr "aws:sns");
                               ("eventSource", JStr "aws:sqs") ] ]) ])
      = "sns")
  /\ (triggerService
        (JObj [ ("Records", JArr [ JObj [] ]); ("httpMethod", JStr "GET") ])
      = Ok "json"
      /\ SpecChain.classify
           (JObj [ ("Records", JArr [ JObj [] ]); ("httpMethod", JStr "GET") ])
         = "api_gateway").
Proof. repeat split. Qed.

(** *** The load balancer before the API gateway *)

(** C5, amended: a payload without a "Records" field, which is not an
    events payload and has no truthy [source], and which carries both
    [requestContext.elb] and [httpMethod], classifies as
    [elastic_load_balancer]. *)
Theorem elb_before_api_gateway (l : list (string * JSVal)) :
  has "Records" (JObj l) = false ->
  matches SpecChain.p3 (JObj l) = false ->
  matches CodeChain.source (JObj l) = false ->
  is_Some (nested "requestContext" "elb" (JObj l)) ->
  is_Some (field "httpMethod" (JObj l)) ->
  triggerService (JObj l) = Ok "elastic_load_balancer".
Proof.
  intros HR H3 Hsrc Helb _. unfold triggerService.
  cbn [truthy]. rewrite hasProperty_obj, HR. cbn [bind].
  rewrite events_test, source_test, H3, Hsrc. cbn [bind].
  unfold nested in Helb. simpl in *.
  destruct (assoc "requestContext" l) as [ rc | ]; simpl in *;
    [ | now destruct Helb ].
  destruct rc as [ | | ? | ? | ? | a | r ]; simpl in *;
    try (now destruct Helb).
  rewrite bool_decide_eq_true_2 by exact Helb. reflexivity.
Qed.

(** The amended C5 at a load-balancer request. *)
Lemma elb_before_api_gateway_witness :
  triggerService
    (JObj [ ("requestContext", JObj [ ("elb", JObj [ ("targetGroupArn", JStr "arn") ]) ]);
            ("httpMethod", JStr "GET") ])
  = Ok "elastic_load_balancer".
Proof.
  apply (elb_before_api_gateway
           [ ("requestContext", JObj [ ("elb", JObj [ ("targetGroupArn", JStr "arn") ]) ]);
             ("httpMethod", JStr "GET") ]);
    solve [ reflexivity | simpl; eauto ].
Defined.

(** C5 fails as stated: a payload whose first record carries neither source
    field matches none of predicates 1 to 4 and has both
    [requestContext.elb] and [httpMethod], yet classifies as [json]. *)
Lemma elb_counterexample :
  matches SpecChain.p1 Samples.recordsAndElb = false
  /\ matches SpecChain.p2 Samples.recordsAndElb = false
  /\ matches SpecChain.p3 Samples.recordsAndElb = false
  /\ matches SpecChain.p4 Samples.recordsAndElb = false
  /\ matches SpecChain.p5 Samples.recordsAndElb = true
  /\ matches SpecChain.p6 Samples.recordsAndElb = true
  /\ triggerService Samples.recordsAndElb = Ok "json"
  /\ triggerService Samples.recordsAndElb <> Ok "elastic_load_balancer".
Proof. repeat split. discriminate. Qed.

(** *** The enumeration of tags *)

Ltac in_tags := apply (bool_decide_unpack _); reflexivity.

Lemma other_rules_tags ev :
  matches CodeChain.source ev = false \/ matches SpecChain.p3 ev = true ->
  firstMatch CodeChain.otherRules "json" ev ∈ sourceTags.
Proof.
  intros Hsrc. unfold CodeChain.otherRules. cbn [firstMatch].
  destruct (matches SpecChain.p3 ev) eqn:H3; [ in_tags | ].
  destruct Hsrc as [ -> | ]; [ | discriminate ].
  repeat match goal with
         | |- context [ matches ?r ev ] => destruct (matches r ev)
         end; in_tags.
Qed.

(** The registry has an own entry exactly for the tags of the enumeration. *)
Lemma registry_domain rt tag :
  is_Some (lookupFactory tag (resourceTypeToFactoryMap rt)) <-> tag ∈ sourceTags.
Proof.
  unfold resourceTypeToFactoryMap, sourceTags. cbn [lookupFactory].
  repeat match goal with
         | |- context [ String.eqb tag ?k ] =>
             destruct (String.eqb_spec tag k) as [ -> | ? ];
             [ split; [ intros _; in_tags | eauto ] | ]
         end.
  split; [ intros [ ? [=] ] | ].
  rewrite !elem_of_cons, elem_of_nil. intuition congruence.
Qed.

(** C3, amended: the tag is in the closed enumeration unless it was derived
    from text, from the [eventSource] or [EventSource] field of the first
    record (after the last [:]) or from a truthy [source] (after the last
    [.]); a derived tag is not checked against the enumeration, and the
    registry has an entry of its own exactly for the tags of the
    enumeration. *)
Theorem tag_in_enumeration_unless_derived (rt : Runtime) (event : JSVal)
        (tag : string) :
  triggerService event = Ok tag ->
  (tag ∈ sourceTags
   \/ (has "Records" event = true
       /\ (tag = afterLast ":" (CodeChain.recordField "eventSource" event)
           \/ tag = afterLast ":" (CodeChain.recordField "EventSource" event)))
   \/ (has "Records" event = false
       /\ matches SpecChain.p3 event = false
       /\ matches CodeChain.source event = true
       /\ tag = afterLast "." (field "source" event)))
  /\ (is_Some (lookupFactory tag (resourceTypeToFactoryMap rt))
      <-> tag ∈ sourceTags).
Proof.
  intros H. apply code_chain in H. split; [ | apply registry_domain ].
  subst tag. unfold CodeChain.classify.
  destruct (has "Records" event) eqn:HR.
  - unfold CodeChain.recordRules. cbn [firstMatch].
    destruct (matches CodeChain.lower event); [ right; left; eauto | ].
    destruct (matches CodeChain.upper event); [ right; left; eauto | ].
    left. in_tags.
  - destruct (matches SpecChain.p3 event) eqn:H3.
    + left. apply other_rules_tags. now right.
    + destruct (matches CodeChain.source event) eqn:Hsrc.
      * right; right. repeat split.
        unfold CodeChain.otherRules. cbn [firstMatch]. now rewrite H3, Hsrc.
      * left. apply other_rules_tags. now left.
Qed.

(** ** The factories on well-shaped payloads *)

Lemma getPath_app v p q :
  getPath v (p ++ q)%list = let* x := getPath v p in getPath x q.
Proof.
  revert v. induction p as [ | k p IH ]; intros v; simpl; [ reflexivity | ].
  destruct (getProp v k); simpl; [ apply IH | reflexivity ].
Qed.

Lemma getPath_single v k : getPath v [ k ] = getProp v k.
Proof. simpl. now destruct (getProp v k). Qed.

Lemma getProp_ok v k : nonNullish v = true -> isOk (getProp v k) = true.
Proof. now destruct v. Qed.

Lemma getProp_inv v k x : getProp v k = Ok x -> nonNullish v = true.
Proof. now destruct v. Qed.

Lemma present_head v p : present v p = true -> nonNullish v = true.
Proof.
  unfold present. destruct p as [ | k p ]; simpl.
  - trivial.
  - destruct (getProp v k) eqn:E; simpl; [ | discriminate ].
    intros _. eapply getProp_inv, E.
Qed.

Lemma present_prefix v q r : present v (q ++ r)%list = true -> present v q = true.
Proof.
  unfold present. rewrite getPath_app.
  destruct (getPath v q) as [ y | ]; simpl; [ | discriminate ].
  intros H. apply (present_head y r). exact H.
Qed.

Lemma prefixb_app a b : prefixb a b = true -> exists r, b = (a ++ r)%list.
Proof.
  revert b. induction a as [ | x a IH ]; intros b; simpl.
  - eauto.
  - destruct b as [ | y b ]; [ discriminate | ].
    intros H. apply andb_prop in H as [ Hxy Hab ].
    apply String.eqb_eq in Hxy as ->.
    destruct (IH _ Hab) as [ r -> ]. eauto.
Qed.

Lemma removelast_snoc (path : list string) :
  path = [] \/ exists k, path = (removelast path ++ [ k ])%list.
Proof.
  induction path as [ | x path IH ]; [ now left | right ].
  destruct IH as [ -> | [ k Hk ] ].
  - exists x. reflexivity.
  - exists k. destruct path as [ | y path ]; [ discriminate | ].
    change (removelast (x :: y :: path)) with (x :: removelast (y :: path)).
    rewrite <- app_comm_cons. f_equal. exact Hk.
Qed.

(** A read that goes at most one step beyond a present value returns. *)
Lemma covered v p path :
  present v p = true -> covers p path = true -> isOk (getPath v path) = true.
Proof.
  intros Hp Hc. destruct (removelast_snoc path) as [ -> | [ k Hk ] ];
    [ reflexivity | ].
  apply prefixb_app in Hc as [ r -> ]. apply present_prefix in Hp.
  rewrite Hk, getPath_app. unfold present in Hp.
  destruct (getPath v (removelast path)) as [ y | ]; [ | discriminate ].
  simpl. pose proof (getProp_ok y k Hp) as Hy.
  destruct (getProp y k); [ reflexivity | discriminate ].
Qed.

Lemma textAt_present v p : textAt v p = true -> present v p = true.
Proof.
  unfold textAt, present. destruct (getPath v p) as [ [ ] | ]; trivial.
Qed.

Lemma textAt_inv v p : textAt v p = true -> exists s, getPath v p = Ok (JStr s).
Proof.
  unfold textAt. destruct (getPath v p) as [ [ ] | ]; try discriminate; eauto.
Qed.

Lemma convertibleAt_inv v p :
  convertibleAt v p = true ->
  exists x s, getPath v p = Ok x /\ toStr x = Ok s.
Proof.
  unfold convertibleAt. destruct (getPath v p) as [ x | ]; [ | discriminate ].
  intros H. destruct (convertible_text x H) as [ s Hs ]. eauto.
Qed.

(** Turn the shape hypotheses into facts about reads. *)
Ltac shape_facts :=
  repeat match goal with
         | H : _ && _ = true |- _ => apply andb_prop in H as [ ? ? ]
         end;
  repeat match goal with
         | H : textAt ?v ?p = true |- _ =>
             let s := fresh "s" in
             let E := fresh "E" in
             pose proof (textAt_present v p H);
             apply textAt_inv in H as [ s E ]
         | H : convertibleAt ?v ?p = true |- _ =>
             let x := fresh "x" in
             let s := fresh "s" in
             let E := fresh "E" in
             let T := fresh "T" in
             apply convertibleAt_inv in H as (x & s & E & T);
             try rewrite getPath_single in E
         end.

(** Resolve the next read of the goal from the shape facts. *)
Ltac next_read :=
  match goal with
  | E : getPath ?v ?path = Ok _ |- context [ bind (getPath ?v ?path) _ ] =>
      rewrite E; cbn [bind callSplit callReplace]
  | E : getProp ?v ?k = Ok _ |- context [ bind (getProp ?v ?k) _ ] =>
      rewrite E; cbn [bind callSplit callReplace]
  | T : toStr ?x = Ok _ |- context [ bind (toStr ?x) _ ] =>
      rewrite T; cbn [bind]
  | H : present ?v ?p = true |- context [ bind (getPath ?v ?path) _ ] =>
      let R := fresh "R" in
      assert (R : isOk (getPath v path) = true)
        by (apply (covered v p path H); reflexivity);
      destruct (getPath v path); [ clear R | discriminate R ]; cbn [bind]
  | H : present ?v ?p = true |- context [ bind (getProp ?v ?k) _ ] =>
      let R := fresh "R" in
      assert (R : isOk (getProp v k) = true)
        by (apply getProp_ok, (present_head v p H));
      destruct (getProp v k); [ clear R | discriminate R ]; cbn [bind]
  | H : nonNullish ?v = true |- context [ bind (getProp ?v ?k) _ ] =>
      let R := fresh "R" in
      assert (R : isOk (getProp v k) = true) by (apply getProp_ok, H);
      destruct (getProp v k); [ clear R | discriminate R ]; cbn [bind]
  | |- context [ if isString ?x then _ else _ ] =>
      destruct x; cbn [isString callSplit bind]
  | |- context [ bind (if ?c then _ else _) _ ] => destruct c; cbn [bind]
  end.

Ltac factory_ok := intros; shape_facts; repeat next_read; reflexivity.

Section Factories.

Context (rt : Runtime).

Lemma createS3Trigger_ok event trigger context :
  present event ["Records"; "0"; "responseElements"]
  && present event ["Records"; "0"; "s3"; "bucket"]
  && present event ["Records"; "0"; "s3"; "object"]
  && convertibleAt event ["Records"; "0"; "awsRegion"]
  && convertibleAt event ["Records"; "0"; "s3"; "object"; "key"]
  && convertibleAt event ["Records"; "0"; "s3"; "object"; "size"]
  && convertibleAt event ["Records"; "0"; "s3"; "object"; "eTag"]
  && convertibleAt event ["Records"; "0"; "responseElements"; "x-amz-request-id"]
  = true ->
  isOk (createS3Trigger rt event trigger context) = true.
Proof. unfold createS3Trigger. factory_ok. Qed.

Lemma createJSONTrigger_ok event trigger context :
  nonNullish context && convertibleAt context ["functionName"] = true ->
  isOk (createJSONTrigger rt event trigger context) = true.
Proof. unfold createJSONTrigger. factory_ok. Qed.

Lemma createKinesisTrigger_ok event trigger context :
  textAt event ["Records"; "0"; "eventSourceARN"]
  && textAt event ["Records"; "0"; "eventName"]
  && present event ["Records"; "0"; "kinesis"] = true ->
  isOk (createKinesisTrigger rt event trigger context) = true.
Proof. unfold createKinesisTrigger. factory_ok. Qed.

Lemma createEventsTrigger_ok event trigger context :
  present event ["resources"] = true ->
  isOk (createEventsTrigger rt event trigger context) = true.
Proof. unfold createEventsTrigger. factory_ok. Qed.

Lemma createSNSTrigger_ok event trigger context :
  present event ["Records"; "0"; "Sns"]
  && textAt event ["Records"; "0"; "EventSubscriptionArn"] = true ->
  isOk (createSNSTrigger rt event trigger context) = true.
Proof. unfold createSNSTrigger. factory_ok. Qed.

Lemma createAPIGatewayTrigger_ok event trigger context :
  present event ["requestContext"] && present event ["headers"] = true ->
  isOk (createAPIGatewayTrigger rt event trigger context) = true.
Proof. unfold createAPIGatewayTrigger. factory_ok. Qed.

Lemma createNoProxyAPIGatewayTrigger_ok event trigger context :
  present event ["context"] && present event ["params"; "header"] = true ->
  isOk (createNoProxyAPIGatewayTrigger rt event trigger context) = true.
Proof. unfold createNoProxyAPIGatewayTrigger. factory_ok. Qed.

Lemma createWebSocketTrigger_ok event trigger context :
  present event ["requestContext"] = true ->
  isOk (createWebSocketTrigger rt event trigger context) = true.
Proof. unfold createWebSocketTrigger. factory_ok. Qed.

Lemma createAPIGatewayHTTPV2Trigger_ok event trigger context :
  present event ["requestContext"; "http"] && present event ["headers"] = true ->
  isOk (createAPIGatewayHTTPV2Trigger rt event trigger context) = true.
Proof. unfold createAPIGatewayHTTPV2Trigger. factory_ok. Qed.

Lemma createElbTrigger_ok event trigger context :
  present event ["headers"] && present event ["requestContext"; "elb"] = true ->
  isOk (createElbTrigger rt event trigger context) = true.
Proof. unfold createElbTrigger. factory_ok. Qed.

Lemma createCognitoTrigger_ok event trigger context :
  nonNullish event = true ->
  isOk (createCognitoTrigger rt event trigger context) = true.
Proof. unfold createCognitoTrigger. factory_ok. Qed.

Lemma present_under v p q y :
  getPath v p = Ok y -> present v (p ++ q)%list = present y q.
Proof. intros E. unfold present. now rewrite getPath_app, E. Qed.

Lemma textAt_under v p q y :
  getPath v p = Ok y -> textAt v (p ++ q)%list = textAt y q.
Proof. intros E. unfold textAt. now rewrite getPath_app, E. Qed.

Lemma createDynamoDBTrigger_ok event trigger context :
  textAt event ["Records"; "0"; "eventSourceARN"]
  && present event ["Records"; "0"; "dynamodb"]
  && match getPath event ["Records"; "0"] with
     | Ok record => isOk (dynamoItemHash rt record)
     | Throw _ => false
     end = true ->
  isOk (createDynamoDBTrigger rt event trigger context) = true.
Proof.
  unfold createDynamoDBTrigger. intros H.
  apply andb_prop in H as [ H Hhash ]. apply andb_prop in H as [ Harn Hdyn ].
  assert (Hrecs : present event ["Records"] = true)
    by (apply (present_prefix event ["Records"] ["0"; "dynamodb"]), Hdyn).
  destruct (getPath event ["Records"; "0"]) as [ record | ] eqn:Hrec;
    [ | discriminate ].
  pose proof (textAt_under event ["Records"; "0"] ["eventSourceARN"] record Hrec)
    as Xarn.
  pose proof (present_under event ["Records"; "0"] ["dynamodb"] record Hrec)
    as Xdyn.
  cbn [app] in Xarn, Xdyn. rewrite Xarn in Harn. rewrite Xdyn in Hdyn.
  clear Xarn Xdyn.
  cbn [bind]. destruct (dynamoItemHash rt record); [ | discriminate ].
  cbn [bind]. apply textAt_inv in Harn as [ s Harn ].
  rewrite getPath_single in Harn.
  repeat next_read. reflexivity.
Qed.

Lemma sqsRecord_ok r : nonNullish r = true -> isOk (sqsRecord rt r) = true.
Proof.
  intros H. unfold sqsRecord. do 2 next_read.
  destruct (metadataOnly rt); cbn [negb]; [ reflexivity | ].
  repeat next_read. reflexivity.
Qed.

Lemma mapM_ok {A B} (f : A -> result B) (P : A -> bool) l :
  (forall x, P x = true -> isOk (f x) = true) ->
  forallb P l = true -> isOk (mapM f l) = true.
Proof.
  intros Hf. induction l as [ | x l IH ]; simpl; [ reflexivity | ].
  intros H. apply andb_prop in H as [ Hx Hl ].
  specialize (Hf x Hx). destruct (f x); [ | discriminate ]. simpl.
  specialize (IH Hl). destruct (mapM f l); [ reflexivity | discriminate ].
Qed.

(** The text of the body the factory parses: the body's own, or ['{}']. *)
Lemma body_text body :
  convertible body = true ->
  exists text, toStr (orElse body (JStr "{}")) = Ok text.
Proof.
  intros H. unfold orElse. destruct (truthy body); [ | eauto ].
  now apply convertible_text.
Qed.

Lemma sqsTryStepsDict_ok body t :
  convertible body = true ->
  isOk (sqsTryStepsDict rt (orElse body (JStr "{}")) t) = true.
Proof.
  intros H. destruct (body_text body H) as [ text Htext ].
  unfold sqsTryStepsDict.
  destruct (sqsStepsDict rt (orElse body (JStr "{}")) t); [ reflexivity | ].
  now rewrite Htext.
Qed.

Lemma createSQSTrigger_ok event trigger context :
  textAt event ["Records"; "0"; "eventSourceARN"]
  && recordsAt event ["Records"]
  && convertibleAt event ["Records"; "0"; "body"] = true ->
  isOk (createSQSTrigger rt event trigger context) = true.
Proof.
  unfold createSQSTrigger. intros H. apply andb_prop in H as [ H Hbody ].
  apply andb_prop in H as [ Harn Hrecs ].
  pose proof (textAt_present _ _ Harn) as Hp.
  apply textAt_inv in Harn as [ s Harn ].
  unfold recordsAt in Hrecs. rewrite getPath_single in Hrecs.
  unfold convertibleAt in Hbody.
  do 2 next_read.
  destruct (getPath event ["Records"; "0"; "body"]) as [ body | ];
    [ | discriminate ].
  cbn [bind].
  destruct (getProp event "Records") as [ [ | | | | | l | ] | ] eqn:HR;
    try discriminate.
  cbn [bind callMap].
  pose proof (mapM_ok (sqsRecord rt) nonNullish l sqsRecord_ok Hrecs) as Hm.
  destruct (mapM (sqsRecord rt) l); [ | discriminate ]. cbn [bind].
  next_read.
  match goal with
  | |- context [ sqsTryStepsDict rt ?b ?t ] =>
      pose proof (sqsTryStepsDict_ok body t Hbody) as Hs;
      destruct (sqsTryStepsDict rt b t); [ | discriminate ]
  end.
  cbn [bind].
  match goal with
  | |- context [ if ?c then _ else _ ] => destruct c
  end; reflexivity.
Qed.

End Factories.

Lemma isOk_inv {A} (c : result A) : isOk c = true -> exists a, c = Ok a.
Proof. destruct c; [ eauto | discriminate ]. Qed.

(** C2, amended: for a payload the classifier assigns a tag of the
    enumeration, the registered factory runs to completion provided the
    payload has the shape that factory reads: every object it looks into is
    there (neither [undefined] nor [null]), every field it calls a string
    method on is a string, every value it puts into a template literal or
    hands to [JSON.parse] has a text (the region, object key, size, eTag
    and request id of an s3 record, the function name of the context for
    json, the body of the first sqs record), the record list of an sqs
    payload is an array of records, and the item of a dynamodb record
    decodes.  [createFromEvent] then returns that trigger with the common
    fields filled. *)
Theorem factory_completes_on_shape (rt : Runtime) (event context : JSVal)
        (tag : string) :
  triggerService event = Ok tag ->
  wellShaped rt tag event context = true ->
  exists factory trigger,
    lookupFactory tag (resourceTypeToFactoryMap rt) = Some factory
    /\ factory event newEvent context = Ok trigger
    /\ createFromEvent rt event context = Ok (fillCommonFields rt trigger tag).
Proof.
  intros Hsvc. unfold createFromEvent, wellShaped. rewrite Hsvc. cbn [bind].
  unfold factoryShapes, resourceTypeToFactoryMap.
  cbn [lookupShape lookupFactory].
  repeat match goal with
         | |- context [ String.eqb tag ?k ] =>
             destruct (String.eqb tag k); [ shelve | ]
         end.
  - discriminate.
  Unshelve.
  all: intros Hshape.
  all: first
         [ pose proof (createS3Trigger_ok rt event newEvent context Hshape) as Hok
         | pose proof (createJSONTrigger_ok rt event newEvent context Hshape) as Hok
         | pose proof (createKinesisTrigger_ok rt event newEvent context Hshape) as Hok
         | pose proof (createEventsTrigger_ok rt event newEvent context Hshape) as Hok
         | pose proof (createSNSTrigger_ok rt event newEvent context Hshape) as Hok
         | pose proof (createSQSTrigger_ok rt event newEvent context Hshape) as Hok
         | pose proof (createAPIGatewayTrigger_ok rt event newEvent context Hshape) as Hok
         | pose proof (createNoProxyAPIGatewayTrigger_ok rt event newEvent context Hshape) as Hok
         | pose proof (createWebSocketTrigger_ok rt event newEvent context Hshape) as Hok
         | pose proof (createAPIGatewayHTTPV2Trigger_ok rt event newEvent context Hshape) as Hok
         | pose proof (createDynamoDBTrigger_ok rt event newEvent context Hshape) as Hok
         | pose proof (createElbTrigger_ok rt event newEvent context Hshape) as Hok
         | pose proof (createCognitoTrigger_ok rt event newEvent context Hshape) as Hok ].
  all: apply isOk_inv in Hok as [ built Hok ].
  all: eexists; exists built; split; [ reflexivity | ].
  all: rewrite Hok; split; reflexivity.
Qed.

(** The amended C2 at a complete S3 notification. *)
Lemma factory_completes_on_shape_witness :
  exists factory trigger,
    lookupFactory "s3" (resourceTypeToFactoryMap Samples.runtime) = Some factory
    /\ factory Samples.s3Event newEvent Samples.context = Ok trigger
    /\ createFromEvent Samples.runtime Samples.s3Event Samples.context
       = Ok (fillCommonFields Samples.runtime trigger "s3").
Proof.
  apply (factory_completes_on_shape
           Samples.runtime Samples.s3Event Samples.context "s3");
    reflexivity.
Defined.

(** C2 fails as stated: a payload classified as s3 by its source field
    alone makes the s3 factory raise on the first field it reads. *)
Lemma factory_throws_on_partial_payload :
  triggerService Samples.s3Partial = Ok "s3"
  /\ lookupFactory "s3" (resourceTypeToFactoryMap Samples.runtime)
     = Some (createS3Trigger Samples.runtime)
  /\ createS3Trigger Samples.runtime Samples.s3Partial newEvent Samples.context
     = Throw TypeError
  /\ createFromEvent Samples.runtime Samples.s3Partial Samples.context
     = Throw TypeError.
Proof. repeat split. Qed.

(** C3 fails as stated: the last segment of [source] becomes the tag
    unchecked, and the registry has no factory for it. *)
Lemma tag_outside_enumeration :
  triggerService (JObj [ ("source", JStr "aws.ec2") ]) = Ok "ec2"
  /\ ("ec2" ∉ sourceTags)
  /\ lookupFactory "ec2" (resourceTypeToFactoryMap Samples.runtime) = None
  /\ createFromEvent Samples.runtime (JObj [ ("source", JStr "aws.ec2") ])
                     Samples.context
     = Throw TypeError.
Proof.
  split; [ reflexivity | ]. split; [ apply (bool_decide_unpack _); reflexivity | ].
  split; reflexivity.
Qed.

(** The amended C3 at a load-balancer request. *)
Lemma tag_in_enumeration_unless_derived_witness :
  ("elastic_load_balancer" ∈ sourceTags
   \/ (has "Records" Samples.elbEvent = true
       /\ ("elastic_load_balancer"
           = afterLast ":" (CodeChain.recordField "eventSource" Samples.elbEvent)
           \/ "elastic_load_balancer"
              = afterLast ":" (CodeChain.recordField "EventSource" Samples.elbEvent)))
   \/ (has "Records" Samples.elbEvent = false
       /\ matches SpecChain.p3 Samples.elbEvent = false
       /\ matches CodeChain.source Samples.elbEvent = true
       /\ "elastic_load_balancer" = afterLast "." (field "source" Samples.elbEvent)))
  /\ (is_Some (lookupFactory "elastic_load_balancer"
                 (resourceTypeToFactoryMap Samples.runtime))
      <-> "elastic_load_balancer" ∈ sourceTags).
Proof.
  apply (tag_in_enumeration_unless_derived
           Samples.runtime Samples.elbEvent "elastic_load_balancer").
  reflexivity.
Defined.

(** ** The invocation context *)

Lemma createJSONTrigger_name rt event context built :
  createJSONTrigger rt event newEvent context = Ok built ->
  exists name,
    built = setName name
              (addToMetadata rt
                 (setOperation (JStr "Event")
                    (setId (JStr ("trigger-" +:+ uuid4 rt)) newEvent))
                 [] [ ("data", event) ]).
Proof.
  unfold createJSONTrigger.
  destruct (getProp context "functionName") as [ fn | ]; [ | discriminate ].
  cbn [bind]. destruct (toStr fn) as [ name | ]; [ | discriminate ].
  cbn [bind]. intros [= <-]. eexists.
  rewrite <- addToMetadata_setName. reflexivity.
Qed.

(** The json factory completes exactly on a context that is there and
    whose function name has a text. *)
Lemma createJSONTrigger_completes rt event trigger context :
  isOk (createJSONTrigger rt event trigger context)
  = nonNullish context && convertibleAt context ["functionName"].
Proof.
  unfold createJSONTrigger, convertibleAt. rewrite getPath_single.
  destruct (getProp context "functionName") as [ fn | ] eqn:Hfn.
  - rewrite (getProp_inv _ _ _ Hfn). cbn [bind andb].
    rewrite <- toStr_convertible. now destruct (toStr fn).
  - now rewrite andb_false_r.
Qed.

Lemma createJSONTrigger_raises rt event trigger context e :
  createJSONTrigger rt event trigger context = Throw e -> e = TypeError.
Proof.
  unfold createJSONTrigger.
  destruct (getProp context "functionName") as [ fn | e' ] eqn:Hfn.
  - cbn [bind]. destruct (toStr fn) as [ name | e' ] eqn:Hname;
      [ discriminate | ].
    cbn [bind]. intros [= <-]. now apply (toStr_raises fn).
  - cbn [bind]. intros [= <-]. destruct context; simpl in Hfn; congruence.
Qed.

(** No factory but the json one looks at the context. *)
Lemma factory_ignores_context rt tag factory event trigger c1 c2 :
  lookupFactory tag (resourceTypeToFactoryMap rt) = Some factory ->
  tag <> "json" ->
  factory event trigger c1 = factory event trigger c2.
Proof.
  unfold resourceTypeToFactoryMap. cbn [lookupFactory].
  repeat match goal with
         | |- context [ String.eqb tag ?k ] =>
             destruct (String.eqb_spec tag k);
             [ intros [= <-] Hne; try (subst; contradiction); reflexivity | ]
         end.
  discriminate.
Qed.

(** C10, amended: the tag depends on the payload alone.  Whatever the two
    contexts, classification has one result (a tag, or an exception that
    [createFromEvent] raises under both); a trigger that is returned has
    the tag as resource type; for a tag other than [json] the outcome of
    [createFromEvent], trigger or exception, is the same under both
    contexts.  For [json] the context decides the resource name and whether
    the factory completes: it completes exactly when the context is neither
    [null] nor [undefined] and its function name has a text, and raises a
    TypeError otherwise.  Two triggers returned for one payload are equal
    except for the resource name. *)
Theorem tag_independent_of_context (rt : Runtime) (event c1 c2 : JSVal) :
  (forall e, triggerService event = Throw e ->
             createFromEvent rt event c1 = Throw e
             /\ createFromEvent rt event c2 = Throw e)
  /\ (forall tag,
         triggerService event = Ok tag ->
         (forall t, createFromEvent rt event c1 = Ok t ->
                    r_type (resource t) = JStr tag)
         /\ (tag <> "json" ->
             createFromEvent rt event c1 = createFromEvent rt event c2)
         /\ (tag = "json" ->
             isOk (createFromEvent rt event c1)
             = nonNullish c1 && convertibleAt c1 ["functionName"]
             /\ forall e, createFromEvent rt event c1 = Throw e -> e = TypeError)
         /\ (forall t1 t2,
                createFromEvent rt event c1 = Ok t1 ->
                createFromEvent rt event c2 = Ok t2 ->
                t2 = setName (r_name (resource t2)) t1)).
Proof.
  unfold createFromEvent. split.
  - intros e ->. split; reflexivity.
  - intros tag ->. cbn [bind]. split; [ | split; [ | split ] ].
    + intros t H.
      match type of H with
      | bind ?c _ = _ => destruct c; [ | discriminate H ]
      end.
      cbn [bind] in H. injection H as <-. reflexivity.
    + intros Hne.
      destruct (lookupFactory tag (resourceTypeToFactoryMap rt)) as [ factory | ]
        eqn:Hfactory; [ | reflexivity ].
      now rewrite (factory_ignores_context rt tag factory event newEvent c1 c2).
    + intros ->.
      change (lookupFactory "json" (resourceTypeToFactoryMap rt))
        with (Some (createJSONTrigger rt)).
      rewrite <- (createJSONTrigger_completes rt event newEvent c1). split.
      * now destruct (createJSONTrigger rt event newEvent c1).
      * intros e.
        destruct (createJSONTrigger rt event newEvent c1) as [ b | e' ] eqn:E;
          [ discriminate | ].
        cbn [bind]. intros [= <-]. now apply createJSONTrigger_raises in E.
    + intros t1 t2.
      destruct (String.eqb_spec tag "json") as [ -> | Hne ].
      * change (lookupFactory "json" (resourceTypeToFactoryMap rt))
          with (Some (createJSONTrigger rt)).
        destruct (createJSONTrigger rt event newEvent c1) as [ b1 | ] eqn:E1;
          [ | discriminate ].
        destruct (createJSONTrigger rt event newEvent c2) as [ b2 | ] eqn:E2;
          [ | discriminate ].
        apply createJSONTrigger_name in E1 as [ n1 -> ].
        apply createJSONTrigger_name in E2 as [ n2 -> ].
        cbn [bind]. rewrite !fillCommonFields_setName. intros [= <-] [= <-].
        reflexivity.
      * destruct (lookupFactory tag (resourceTypeToFactoryMap rt))
          as [ factory | ] eqn:Hfactory.
        -- rewrite (factory_ignores_context rt tag factory event newEvent c1 c2)
             by assumption.
           intros -> [= <-]. symmetry. apply setName_id.
        -- intros -> [= <-]. symmetry. apply setName_id.
Qed.

(** The amended C10 at the empty payload, with a context that names the
    function and one that does not. *)
Lemma tag_independent_of_context_witness :
  (forall t, createFromEvent Samples.runtime (JObj []) Samples.context = Ok t ->
             r_type (resource t) = JStr "json")
  /\ isOk (createFromEvent Samples.runtime (JObj []) Samples.context) = true
  /\ forall t1 t2,
       createFromEvent Samples.runtime (JObj []) Samples.context = Ok t1 ->
       createFromEvent Samples.runtime (JObj []) (JObj []) = Ok t2 ->
       t2 = setName (r_name (resource t2)) t1.
Proof.
  destruct (proj2 (tag_independent_of_context
                     Samples.runtime (JObj []) Samples.context (JObj []))
                  "json" eq_refl)
    as (Htype & _ & Hjson & Hname).
  split; [ exact Htype | ]. split; [ | exact Hname ].
  now rewrite (proj1 (Hjson eq_refl)).
Defined.

(** C10 fails as stated: on one payload the context decides more than the
    resource name.  With an empty context the json factory returns a
    trigger, with a [null] context it raises. *)
Lemma context_decides_completion :
  triggerService (JObj []) = Ok "json"
  /\ (exists t,
        createFromEvent Samples.runtime (JObj []) (JObj []) = Ok t
        /\ r_name (resource t) = JStr "trigger-undefined")
  /\ createFromEvent Samples.runtime (JObj []) JNull = Throw TypeError.
Proof.
  split; [ reflexivity | ]. split; [ | reflexivity ].
  eexists. split; reflexivity.
Qed.

(** ** The SQS factory *)

Section Sqs.

Context (rt : Runtime).

Lemma fold_payload_annotations (f : JSVal -> JSVal) fullData t :
  annotations
    (resource
       (fold_left (fun t kv => setPayload (fst kv) (f (snd kv)) t) fullData t))
  = annotations (resource t).
Proof.
  revert t. induction fullData as [ | kv fullData IH ]; intros t; simpl.
  - reflexivity.
  - now rewrite IH.
Qed.

Lemma fold_annotations_annotations annots t :
  annotations
    (resource
       (fold_left (fun t kv => setAnnotation (fst kv) (snd kv) t) annots t))
  = fold_left (fun m kv => <[fst kv := snd kv]> m) annots
              (annotations (resource t)).
Proof.
  revert t. induction annots as [ | kv annots IH ]; intros t; simpl.
  - reflexivity.
  - now rewrite IH.
Qed.

(** The annotations after an attachment: the given ones, set in order. *)
Lemma addToMetadata_annotations annots fullData t :
  annotations (resource (addToMetadata rt t annots fullData))
  = fold_left (fun m kv => <[fst kv := snd kv]> m) annots
              (annotations (resource t)).
Proof.
  unfold addToMetadata. destruct (metadataOnly rt).
  - apply fold_annotations_annotations.
  - rewrite (fold_payload_annotations
               (fun v => truncateMessage rt v (maxPayloadSize rt))).
    apply fold_annotations_annotations.
Qed.

(** The three stages of the factory after the identity of the trigger is
    set: the record list, the step-functions data, the SNS data. *)
Lemma createSQSTrigger_inv event trigger context built :
  createSQSTrigger rt event trigger context = Ok built ->
  exists messageId name body records entries stepped,
    getPath event ["Records"; "0"; "body"] = Ok body
    /\ getProp event "Records" = Ok (JArr records)
    /\ mapM (sqsRecord rt) records = Ok entries
    /\ let listed :=
         addToMetadata rt
           (setOperation (JStr "ReceiveMessage")
              (setName name (setId messageId trigger)))
           [ ("record", JArr entries);
             ("total_record_count", JNum (Z.of_nat (length records))) ] [] in
       sqsTryStepsDict rt (orElse body (JStr "{}")) listed = Ok stepped
       /\ built = if nonNullish (getSNSTrigger rt (JArr records))
                  then addToMetadata rt stepped
                         [ ("SNS Trigger", getSNSTrigger rt (JArr records)) ] []
                  else stepped.
Proof.
  unfold createSQSTrigger.
  destruct (getPath event ["Records"; "0"; "messageId"]) as [ messageId | ];
    [ | discriminate ].
  cbn [bind].
  destruct (getPath event ["Records"; "0"; "eventSourceARN"]) as [ arn | ];
    [ | discriminate ].
  cbn [bind]. destruct (callSplit arn ":") as [ parts | ]; [ | discriminate ].
  cbn [bind].
  destruct (getPath event ["Records"; "0"; "body"]) as [ body | ] eqn:Hbody;
    [ | discriminate ].
  cbn [bind]. cbn [getPath].
  destruct (getProp event "Records") as [ records | ] eqn:Hrecords;
    [ | discriminate ].
  cbn [bind]. destruct records as [ | | | | | records | ]; try discriminate.
  cbn [callMap bind].
  destruct (mapM (sqsRecord rt) records) as [ entries | ] eqn:Hentries;
    [ | discriminate ].
  change (getProp (JArr records) "length")
    with (Ok (JNum (Z.of_nat (length records)))).
  cbn [bind].
  match goal with
  | |- context [ sqsTryStepsDict rt ?b ?t ] =>
      destruct (sqsTryStepsDict rt b t) as [ stepped | ] eqn:Hstepped;
      [ | discriminate ]
  end.
  cbn [bind]. intros H.
  exists messageId, (nthSeg (sliceLast 1 parts) 0), body, records, entries, stepped.
  repeat split; try assumption.
  destruct (nonNullish (getSNSTrigger rt (JArr records))); now injection H.
Qed.

End Sqs.

Section SqsClaims.

Context (rt : Runtime).

Lemma mapM_Forall2 {A B} (f : A -> result B) l l' :
  mapM f l = Ok l' -> Forall2 (fun x y => f x = Ok y) l l'.
Proof.
  revert l'. induction l as [ | x l IH ]; simpl; intros l'.
  - intros [= <-]. constructor.
  - destruct (f x) as [ y | ] eqn:Hx; [ | discriminate ]. simpl.
    destruct (mapM f l) as [ ys | ]; [ | discriminate ]. simpl.
    intros [= <-]. constructor; [ exact Hx | now apply IH ].
Qed.

Lemma getProp_total v k x k' : getProp v k = Ok x -> exists y, getProp v k' = Ok y.
Proof.
  intros H. apply getProp_inv in H. apply (getProp_ok v k') in H.
  now apply isOk_inv.
Qed.

Lemma substring_prefix_length n s :
  (n <= String.length s)%nat -> String.length (String.substring 0 n s) = n.
Proof.
  revert s. induction n as [ | n IH ]; intros s Hn.
  - now destruct s.
  - destruct s as [ | c s ]; simpl in *; [ lia | ].
    rewrite IH; [ reflexivity | lia ].
Qed.

(** What the cap does to a string. *)
Lemma truncateMessage_string s n :
  ((String.length s <= n)%nat -> truncateMessage rt (JStr s) n = JStr s)
  /\ ((n < String.length s)%nat ->
      truncateMessage rt (JStr s) n
      = JStr (String.substring 0 n s +:+ truncationMarker rt)
      /\ String.length (String.substring 0 n s) = n).
Proof.
  unfold truncateMessage. split; intros H.
  - destruct (Nat.ltb_spec n (String.length s)); [ lia | reflexivity ].
  - destruct (Nat.ltb_spec n (String.length s)); [ | lia ].
    split; [ reflexivity | apply substring_prefix_length; lia ].
Qed.

Lemma sqsRecord_entry r entry : sqsRecord rt r = Ok entry -> entryOf rt r entry.
Proof.
  unfold sqsRecord, entryOf.
  destruct (getProp r "md5OfBody") as [ md5OfBody | ] eqn:Hmd5; [ | discriminate ].
  destruct (getProp_total r _ _ "messageId" Hmd5) as [ messageId Hid ].
  destruct (getProp_total r _ _ "body" Hmd5) as [ body Hbody ].
  destruct (getProp_total r _ _ "attributes" Hmd5) as [ attributes Hattr ].
  destruct (getProp_total r _ _ "messageAttributes" Hmd5) as [ messageAttributes Hmattr ].
  rewrite Hid, Hbody, Hattr, Hmattr. cbn [bind]. intros H.
  exists md5OfBody, messageId, body, attributes, messageAttributes.
  destruct (metadataOnly rt); cbn [negb] in *; injection H as <-;
    repeat split; reflexivity.
Qed.

Lemma sqsStepsDict_inv body t t' :
  sqsStepsDict rt body t = Ok t' ->
  t' = t \/ exists epsagon, t' = addToMetadata rt t [ ("steps_dict", epsagon) ] [].
Proof.
  unfold sqsStepsDict.
  destruct (toStr body) as [ text | ]; [ | discriminate ]. cbn [bind].
  destruct (JSON_parse rt text) as [ messageBody | ]; [ | discriminate ].
  destruct (getProp messageBody "input") as [ input | ]; [ | discriminate ].
  cbn [bind]. destruct (truthy input); [ | intros [= <-]; now left ].
  destruct (getProp input "Epsagon") as [ epsagon | ]; [ | discriminate ].
  cbn [bind]. destruct (truthy epsagon); intros [= <-]; eauto.
Qed.

(** What the [try] statement leaves: the trigger of the block, or the one
    it was given. *)
Lemma sqsTryStepsDict_inv body t t' :
  sqsTryStepsDict rt body t = Ok t' ->
  exists text,
    toStr body = Ok text
    /\ match sqsStepsDict rt body t with
       | Ok stepped => t' = stepped
       | Throw _ => t' = t
       end.
Proof.
  unfold sqsTryStepsDict.
  destruct (sqsStepsDict rt body t) as [ stepped | e ] eqn:E.
  - intros [= <-]. unfold sqsStepsDict in E.
    destruct (toStr body) as [ text | ]; [ eauto | discriminate ].
  - destruct (toStr body) as [ text | ]; [ | discriminate ].
    cbn [bind]. intros [= <-]. eauto.
Qed.

(** Keys attached after the record list leave it and the count alone. *)
Lemma later_stages_keep body records listed stepped k :
  k <> "steps_dict" -> k <> "SNS Trigger" ->
  sqsTryStepsDict rt body listed = Ok stepped ->
  annotations
    (resource
       (if nonNullish (getSNSTrigger rt records)
        then addToMetadata rt stepped
               [ ("SNS Trigger", getSNSTrigger rt records) ] []
        else stepped)) !! k
  = annotations (resource listed) !! k.
Proof.
  intros Hsteps Hsns Htry.
  assert (Hstepped :
            annotations (resource stepped) !! k
            = annotations (resource listed) !! k).
  { apply sqsTryStepsDict_inv in Htry as (text & _ & Htry).
    destruct (sqsStepsDict rt body listed) as [ t' | ] eqn:E;
      [ | now subst ].
    subst t'.
    apply sqsStepsDict_inv in E as [ -> | [ epsagon -> ] ]; [ reflexivity | ].
    rewrite addToMetadata_annotations. simpl.
    now rewrite lookup_insert_ne. }
  destruct (nonNullish (getSNSTrigger rt records)); [ | exact Hstepped ].
  rewrite addToMetadata_annotations. simpl.
  now rewrite lookup_insert_ne.
Qed.

(** C9: the record list of the SQS factory.  On an SQS payload (the queue
    ARN a string, the records an array without null entries, the first body
    a value with a text, as every string is) the factory returns, and the
    "record" annotation has one entry per record, in order.  Every entry
    holds 'MD5 Of Message Body' and 'Message ID'.  When metadata-only mode
    is off it also holds 'Message Body' (the body, or ['{}'] for a falsy
    one, cut to 1024 units with the marker appended when longer),
    'Attributes' and 'Message Attributes'; when it is on, those three keys
    are absent. *)
Theorem sqs_record_list (event : JSVal) (trigger : Event) (context : JSVal) :
  textAt event ["Records"; "0"; "eventSourceARN"]
  && recordsAt event ["Records"]
  && convertibleAt event ["Records"; "0"; "body"] = true ->
  exists built records entries,
    createSQSTrigger rt event trigger context = Ok built
    /\ getProp event "Records" = Ok (JArr records)
    /\ annotations (resource built) !! "record" = Some (JArr entries)
    /\ Forall2 (entryOf rt) records entries
    /\ forall s,
         ((String.length s <= 1024)%nat ->
          truncateMessage rt (JStr s) MAX_SQS_BODY_LENGTH = JStr s)
         /\ ((1024 < String.length s)%nat ->
             truncateMessage rt (JStr s) MAX_SQS_BODY_LENGTH
             = JStr (String.substring 0 1024 s +:+ truncationMarker rt)
             /\ String.length (String.substring 0 1024 s) = 1024%nat).
Proof.
  intros Hshape.
  destruct (isOk_inv _ (createSQSTrigger_ok rt event trigger context Hshape))
    as [ built Hbuilt ].
  destruct (createSQSTrigger_inv rt _ _ _ _ Hbuilt)
    as (messageId & name & body & records & entries & stepped
        & Hbody & Hrecords & Hentries & Hstepped & Heq).
  exists built, records, entries.
  split; [ exact Hbuilt | ]. split; [ exact Hrecords | ]. split.
  - rewrite Heq, (later_stages_keep _ _ _ _ "record" ltac:(discriminate)
                    ltac:(discriminate) Hstepped).
    rewrite addToMetadata_annotations. simpl.
    rewrite lookup_insert_ne by discriminate. apply lookup_insert_eq.
  - split.
    + apply mapM_Forall2 in Hentries.
      eapply Forall2_impl; [ exact Hentries | ].
      intros r entry. apply sqsRecord_entry.
    + intros s. apply (truncateMessage_string s 1024).
Qed.

(** C7: the step-functions data of the SQS factory.  On an SQS payload (the
    queue ARN a string, the records an array without null entries, the
    first body a value with a text, as every string is) the factory
    returns.  The text it parses is that of the first record's body, or
    ['{}'] for a falsy body; for a string body it is the body itself.  When
    the text parses and the parsed value has an [input.Epsagon] sub-object,
    the "steps_dict" annotation is that sub-object; when the text does not
    parse, the "steps_dict" annotation is as it was before the call.
    Either way the record list and the record count are attached. *)
Theorem sqs_steps_dict (event : JSVal) (trigger : Event) (context : JSVal) :
  textAt event ["Records"; "0"; "eventSourceARN"]
  && recordsAt event ["Records"]
  && convertibleAt event ["Records"; "0"; "body"] = true ->
  exists built body text records entries,
    createSQSTrigger rt event trigger context = Ok built
    /\ getPath event ["Records"; "0"; "body"] = Ok body
    /\ toStr (orElse body (JStr "{}")) = Ok text
    /\ (forall s, body = JStr s -> text = if String.eqb s "" then "{}" else s)
    /\ getProp event "Records" = Ok (JArr records)
    /\ mapM (sqsRecord rt) records = Ok entries
    /\ annotations (resource built) !! "record" = Some (JArr entries)
    /\ annotations (resource built) !! "total_record_count"
       = Some (JNum (Z.of_nat (length records)))
    /\ (forall messageBody input epsagon,
          JSON_parse rt text = Some messageBody ->
          field "input" messageBody = Some input ->
          field "Epsagon" input = Some epsagon ->
          isObject epsagon = true ->
          annotations (resource built) !! "steps_dict" = Some epsagon)
    /\ (JSON_parse rt text = None ->
        annotations (resource built) !! "steps_dict"
        = annotations (resource trigger) !! "steps_dict").
Proof.
  intros Hshape.
  destruct (isOk_inv _ (createSQSTrigger_ok rt event trigger context Hshape))
    as [ built Hbuilt ].
  destruct (createSQSTrigger_inv rt _ _ _ _ Hbuilt)
    as (messageId & name & body & records & entries & stepped
        & Hbody & Hrecords & Hentries & Hstepped & Heq).
  pose proof Hstepped as Htry.
  apply sqsTryStepsDict_inv in Htry as (text & Htext & Htry).
  exists built, body, text, records, entries.
  do 3 (split; [ assumption | ]).
  split.
  { intros s ->. unfold orElse in Htext. cbn [truthy] in Htext.
    destruct (String.eqb s ""); cbn in Htext; now injection Htext. }
  do 2 (split; [ assumption | ]).
  split; [ | split; [ | split ] ].
  - rewrite Heq, (later_stages_keep _ _ _ _ "record" ltac:(discriminate)
                    ltac:(discriminate) Hstepped).
    rewrite addToMetadata_annotations. simpl.
    rewrite lookup_insert_ne by discriminate. apply lookup_insert_eq.
  - rewrite Heq, (later_stages_keep _ _ _ _ "total_record_count"
                    ltac:(discriminate) ltac:(discriminate) Hstepped).
    rewrite addToMetadata_annotations. simpl. apply lookup_insert_eq.
  - intros messageBody input epsagon Hparse Hinput Heps Hobj.
    assert (Hsteps :
              stepped
              = addToMetadata rt
                  (addToMetadata rt
                     (setOperation (JStr "ReceiveMessage")
                        (setName name (setId messageId trigger)))
                     [ ("record", JArr entries);
                       ("total_record_count",
                        JNum (Z.of_nat (length records))) ]
                     [])
                  [ ("steps_dict", epsagon) ] []).
    { unfold sqsStepsDict in Htry. rewrite Htext in Htry. cbn [bind] in Htry.
      rewrite Hparse in Htry.
      destruct messageBody as [ | | | | | | mb ]; try discriminate.
      simpl in Hinput. simpl in Htry. rewrite Hinput in Htry. simpl in Htry.
      destruct input as [ | | | | | | inp ]; try discriminate.
      simpl in Heps. simpl in Htry. rewrite Heps in Htry. simpl in Htry.
      destruct epsagon; try discriminate; exact Htry. }
    rewrite Heq, Hsteps.
    destruct (nonNullish (getSNSTrigger rt (JArr records))).
    + rewrite addToMetadata_annotations. simpl.
      rewrite lookup_insert_ne by discriminate.
      rewrite addToMetadata_annotations. simpl. apply lookup_insert_eq.
    + rewrite addToMetadata_annotations. simpl. apply lookup_insert_eq.
  - intros Hparse.
    assert (Hsteps :
              stepped
              = addToMetadata rt
                  (setOperation (JStr "ReceiveMessage")
                     (setName name (setId messageId trigger)))
                  [ ("record", JArr entries);
                    ("total_record_count", JNum (Z.of_nat (length records))) ]
                  []).
    { unfold sqsStepsDict in Htry. rewrite Htext in Htry. cbn [bind] in Htry.
      now rewrite Hparse in Htry. }
    rewrite Heq, Hsteps.
    assert (Hlisted : forall t : Event,
              annotations
                (resource
                   (addToMetadata rt t
                      [ ("record", JArr entries);
                        ("total_record_count", JNum (Z.of_nat (length records))) ]
                      [])) !! "steps_dict"
              = annotations (resource t) !! "steps_dict").
    { intros t. rewrite addToMetadata_annotations. simpl.
      now rewrite !lookup_insert_ne by discriminate. }
    destruct (nonNullish (getSNSTrigger rt (JArr records))).
    + rewrite addToMetadata_annotations. simpl.
      rewrite lookup_insert_ne by discriminate. now rewrite Hlisted.
    + now rewrite Hlisted.
Qed.

End SqsClaims.

(** ** The DynamoDB item hash *)

(** *** Key order *)

Lemma string_leb_trans a b c :
  String.leb a b = true -> String.leb b c = true -> String.leb a c = true.
Proof.
  unfold String.leb. revert b c.
  induction a as [ | x a IH ]; intros b c.
  - destruct c; reflexivity.
  - destruct b as [ | y b ]; [ discriminate | ].
    destruct c as [ | z c ]; [ intros _; simpl; discriminate | ].
    simpl. unfold Ascii.compare.
    destruct (N.compare_spec (N_of_ascii x) (N_of_ascii y)) as [ Hxy | Hxy | Hxy ];
      destruct (N.compare_spec (N_of_ascii y) (N_of_ascii z)) as [ Hyz | Hyz | Hyz ];
      try discriminate;
      destruct (N.compare_spec (N_of_ascii x) (N_of_ascii z)) as [ Hxz | Hxz | Hxz ];
      try lia; try reflexivity.
    apply IH.
Qed.

Lemma insertProp_comm k1 v1 k2 v2 l :
  k1 <> k2 ->
  insertProp k1 v1 (insertProp k2 v2 l) = insertProp k2 v2 (insertProp k1 v1 l).
Proof.
  intros Hne. induction l as [ | [ k v ] l IH ]; simpl.
  - destruct (String.leb k1 k2) eqn:H12; destruct (String.leb k2 k1) eqn:H21;
      try reflexivity.
    + destruct Hne. now apply String.leb_antisym.
    + destruct (String.leb_total k1 k2); congruence.
  - destruct (String.leb k2 k) eqn:H2; destruct (String.leb k1 k) eqn:H1; simpl;
      rewrite ?H1, ?H2.
    + destruct (String.leb k1 k2) eqn:H12; destruct (String.leb k2 k1) eqn:H21;
        try reflexivity.
      * destruct Hne. now apply String.leb_antisym.
      * destruct (String.leb_total k1 k2); congruence.
    + destruct (String.leb k1 k2) eqn:H12; [ | reflexivity ].
      pose proof (string_leb_trans _ _ _ H12 H2). congruence.
    + destruct (String.leb k2 k1) eqn:H21; [ | reflexivity ].
      pose proof (string_leb_trans _ _ _ H21 H1). congruence.
    + now rewrite IH.
Qed.

(** Sorting forgets the order the properties came in. *)
Lemma sortProps_perm l l' :
  Permutation l l' -> NoDup (map fst l) -> sortProps l = sortProps l'.
Proof.
  induction 1 as [ | [ k v ] l l' Hperm IH | [ k1 v1 ] [ k2 v2 ] l
                   | l l' l'' H1 IH1 H2 IH2 ]; intros Hnd.
  - reflexivity.
  - simpl. rewrite IH; [ reflexivity | ]. now inversion Hnd.
  - simpl. apply insertProp_comm. simpl in Hnd.
    apply NoDup_cons in Hnd as [ Hnotin _ ]. intros ->. apply Hnotin.
    now left.
  - rewrite IH1 by exact Hnd. apply IH2.
    assert (Hkeys : Permutation (map fst l) (map fst l'))
      by now apply Permutation_map.
    now rewrite <- Hkeys.
Qed.

Lemma sortKeys_same v v' : sameItem v v' -> sortKeys v = sortKeys v'.
Proof.
  revert v v'. fix IH 3. intros v v' [ w Hleaf | l l' Hall | l m l' Hall Hperm Hnd ].
  - reflexivity.
  - simpl. f_equal.
    induction Hall as [ | x y l l' Hxy Hall IHall ]; simpl;
      [ reflexivity | ].
    f_equal; [ apply IH, Hxy | exact IHall ].
  - simpl. f_equal.
    transitivity (sortProps (map (fun kv => (fst kv, sortKeys (snd kv))) m)).
    + f_equal. clear Hnd Hperm.
      induction Hall as [ | [ k x ] [ k' y ] l m [ Hk Hxy ] Hall IHall ]; simpl;
        [ reflexivity | ].
      simpl in Hk. subst k'. f_equal; [ | exact IHall ].
      f_equal. apply IH, Hxy.
    + apply sortProps_perm.
      * now apply Permutation_map.
      * assert (Hkeys :
                  map fst (map (fun kv => (fst kv, sortKeys (snd kv))) m)
                  = map fst l).
        { clear Hnd Hperm.
          induction Hall as [ | kv kv' l m [ Hk _ ] Hall IHall ]; simpl;
            [ reflexivity | ].
          now rewrite Hk, IHall. }
        now rewrite Hkeys.
Qed.

(** *** The hash block and the annotation *)

Section Dynamo.

Context (rt : Runtime).

Lemma dynamoItemHash_without_sdk record :
  AWS rt = None -> dynamoItemHash rt record = Ok (JStr "").
Proof. unfold dynamoItemHash. now intros ->. Qed.

Lemma dynamoItemHash_with_sdk unmarshall record eventName :
  AWS rt = Some unmarshall ->
  getProp record "eventName" = Ok eventName ->
  dynamoItemHash rt record
  = let* image :=
      getPath record
        ["dynamodb"; if isRemove eventName then "Keys" else "NewImage"] in
    let* item := unmarshall image in
    callMd5 rt (JSON_sortify rt item).
Proof.
  unfold dynamoItemHash. intros -> ->. cbn [bind].
  destruct (isRemove eventName).
  - destruct (getPath record ["dynamodb"; "Keys"]); reflexivity.
  - destruct (getPath record ["dynamodb"; "NewImage"]); reflexivity.
Qed.

(** The factory attaches what the hash block computed. *)
Lemma createDynamoDBTrigger_hash event trigger context record hash :
  getPath event ["Records"; "0"] = Ok record ->
  textAt record ["eventSourceARN"] = true ->
  present record ["dynamodb"] = true ->
  dynamoItemHash rt record = Ok hash ->
  exists built,
    createDynamoDBTrigger rt event trigger context = Ok built
    /\ annotations (resource built) !! "item_hash" = Some hash.
Proof.
  intros Hrec Harn Hdyn Hhash.
  assert (Hrecs : present event ["Records"] = true).
  { unfold present. simpl in *.
    destruct (getProp event "Records") as [ rs | ]; [ | discriminate ].
    simpl in *. destruct (getProp rs "0") eqn:E; [ | discriminate ].
    eapply getProp_inv, E. }
  unfold createDynamoDBTrigger. rewrite Hrec. cbn [bind]. rewrite Hhash.
  cbn [bind]. apply textAt_inv in Harn as [ s Harn ].
  rewrite getPath_single in Harn.
  repeat next_read. eexists. split; [ reflexivity | ].
  rewrite addToMetadata_annotations. simpl.
  rewrite lookup_insert_ne by discriminate. apply lookup_insert_eq.
Qed.

(** The hash block on a record whose image decodes and serialises. *)
Lemma dynamoItemHash_of unmarshall record eventName image item text :
  AWS rt = Some unmarshall ->
  getProp record "eventName" = Ok eventName ->
  getPath record
    ["dynamodb"; if isRemove eventName then "Keys" else "NewImage"] = Ok image ->
  unmarshall image = Ok item ->
  JSON_sortify rt item = JStr text ->
  dynamoItemHash rt record = Ok (JStr (md5 rt text)).
Proof.
  intros Hsdk Hname Himage Hitem Htext.
  rewrite (dynamoItemHash_with_sdk unmarshall record eventName Hsdk Hname).
  rewrite Himage. cbn [bind]. rewrite Hitem. cbn [bind]. now rewrite Htext.
Qed.

(** C8: the item hash of the DynamoDB factory.  On a DynamoDB record the
    factory attaches as "item_hash" what the hash block computes, which is
    (d) the empty string, without error, when the SDK is not available;
    otherwise the md5 of the canonical JSON of the decoded item, the item
    being (a) the key attributes when the event name is 'REMOVE', so that
    records that agree on their keys have the same hash whatever their new
    image, and (b) the new image when the event name is anything else; and
    (c) items that differ only in the order of their keys have the same
    canonical form, hence the same hash. *)
Theorem dynamodb_item_hash (event : JSVal) (trigger : Event) (context record : JSVal) :
  getPath event ["Records"; "0"] = Ok record ->
  textAt record ["eventSourceARN"] = true ->
  present record ["dynamodb"] = true ->
  (forall hash,
      dynamoItemHash rt record = Ok hash ->
      exists built,
        createDynamoDBTrigger rt event trigger context = Ok built
        /\ annotations (resource built) !! "item_hash" = Some hash)
  /\ (AWS rt = None -> dynamoItemHash rt record = Ok (JStr ""))
  /\ (forall unmarshall keys item text,
         AWS rt = Some unmarshall ->
         getProp record "eventName" = Ok (JStr "REMOVE") ->
         getPath record ["dynamodb"; "Keys"] = Ok keys ->
         unmarshall keys = Ok item ->
         JSON_sortify rt item = JStr text ->
         dynamoItemHash rt record = Ok (JStr (md5 rt text)))
  /\ (forall unmarshall eventName newImage item text,
         AWS rt = Some unmarshall ->
         getProp record "eventName" = Ok eventName ->
         eventName <> JStr "REMOVE" ->
         getPath record ["dynamodb"; "NewImage"] = Ok newImage ->
         unmarshall newImage = Ok item ->
         JSON_sortify rt item = JStr text ->
         dynamoItemHash rt record = Ok (JStr (md5 rt text)))
  /\ (forall record',
         getProp record "eventName" = Ok (JStr "REMOVE") ->
         getProp record' "eventName" = Ok (JStr "REMOVE") ->
         getPath record' ["dynamodb"; "Keys"] = getPath record ["dynamodb"; "Keys"] ->
         dynamoItemHash rt record' = dynamoItemHash rt record)
  /\ (forall item item',
         sameItem item item' ->
         sortKeys item = sortKeys item'
         /\ callMd5 rt (JSON_sortify rt item) = callMd5 rt (JSON_sortify rt item')).
Proof.
  intros Hrec Harn Hdyn.
  split; [ | split; [ | split; [ | split; [ | split ] ] ] ].
  - intros hash Hhash.
    now apply (createDynamoDBTrigger_hash event trigger context record).
  - apply dynamoItemHash_without_sdk.
  - intros unmarshall keys item text Hsdk Hname Hkeys Hitem Htext.
    now apply (dynamoItemHash_of unmarshall record (JStr "REMOVE") keys item).
  - intros unmarshall eventName newImage item text Hsdk Hname Hne Himage Hitem Htext.
    apply (dynamoItemHash_of unmarshall record eventName newImage item);
      try assumption.
    assert (Hrm : isRemove eventName = false).
    { destruct eventName as [ | | | | s | | ]; try reflexivity.
      simpl. destruct (String.eqb_spec s "REMOVE") as [ -> | ];
        [ now destruct Hne | reflexivity ]. }
    now rewrite Hrm.
  - intros record' Hname Hname' Hkeys.
    destruct (AWS rt) as [ unmarshall | ] eqn:Hsdk.
    + rewrite (dynamoItemHash_with_sdk unmarshall record _ Hsdk Hname).
      rewrite (dynamoItemHash_with_sdk unmarshall record' _ Hsdk Hname').
      simpl isRemove. cbv iota. now rewrite Hkeys.
    + now rewrite !dynamoItemHash_without_sdk.
  - intros item item' Hsame. apply sortKeys_same in Hsame.
    split; [ exact Hsame | ]. unfold JSON_sortify. now rewrite Hsame.
Qed.

End Dynamo.

(** ** The properties at sample payloads *)

(** C6 at the null payload. *)
Lemma fallback_is_json_witness :
  triggerService JNull = Ok "json"
  /\ exists built,
       createJSONTrigger Samples.runtime JNull newEvent Samples.context = Ok built
       /\ createFromEvent Samples.runtime JNull Samples.context
          = Ok (fillCommonFields Samples.runtime built "json")
       /\ r_type (resource (fillCommonFields Samples.runtime built "json"))
          = JStr "json"
       /\ r_operation (resource (fillCommonFields Samples.runtime built "json"))
          = JStr "Event"
       /\ r_name (resource (fillCommonFields Samples.runtime built "json"))
          = JStr "trigger-resize".
Proof.
  destruct (fallback_is_json Samples.runtime JNull Samples.context
              (JStr "resize") "resize" (or_intror eq_refl) eq_refl eq_refl)
    as (Htag & Hbuilt & _).
  split; [ exact Htag | exact Hbuilt ].
Defined.

(** A function name that is not a string: its text for a number, and a
    TypeError for an object with a [toString] property of its own or for a
    context that is not there. *)
Example json_function_names :
  (exists t,
      createFromEvent Samples.runtime JNull (JObj [ ("functionName", JNum 7) ])
      = Ok t
      /\ r_name (resource t) = JStr "trigger-7")
  /\ createFromEvent Samples.runtime JNull
       (JObj [ ("functionName", JObj [ ("toString", JNum 1) ]) ])
     = Throw TypeError
  /\ createFromEvent Samples.runtime JNull JUndefined = Throw TypeError.
Proof.
  split; [ eexists; split; reflexivity | ]. split; reflexivity.
Qed.

(** C7 at the body of the specification's example. *)
Lemma sqs_steps_dict_witness :
  exists built,
    createSQSTrigger Samples.runtime
      (Samples.sqsEvent (JStr Samples.stepsBody)) newEvent Samples.context
    = Ok built
    /\ annotations (resource built) !! "steps_dict"
       = Some (JObj [ ("x", JNum 1) ]).
Proof.
  destruct (sqs_steps_dict Samples.runtime
              (Samples.sqsEvent (JStr Samples.stepsBody)) newEvent
              Samples.context eq_refl)
    as (built & body & text & records & entries
        & Hbuilt & Hbody & _ & Htext & _ & _ & _ & _ & Hparsed & _).
  exists built. split; [ exact Hbuilt | ].
  simpl in Hbody. injection Hbody as <-.
  specialize (Htext _ eq_refl). simpl in Htext. subst text.
  apply (Hparsed (JObj [ ("input", JObj [ ("Epsagon", JObj [ ("x", JNum 1) ]) ]) ])
                 (JObj [ ("Epsagon", JObj [ ("x", JNum 1) ]) ])
                 (JObj [ ("x", JNum 1) ])); reflexivity.
Defined.

(** A body without a text: [JSON.parse] raises inside the [try] block, the
    handler raises again when it builds its message, and the factory does
    not complete. *)
Example sqs_body_without_text :
  createSQSTrigger Samples.runtime
    (Samples.sqsEvent (JObj [ ("toString", JNum 1) ])) newEvent Samples.context
  = Throw TypeError
  /\ convertibleAt (Samples.sqsEvent (JObj [ ("toString", JNum 1) ]))
       ["Records"; "0"; "body"] = false.
Proof. split; reflexivity. Qed.

(** A body that is not JSON: no "steps_dict", and the record list is there. *)
Example sqs_plain_body :
  exists built,
    createFromEvent Samples.runtime (Samples.sqsEvent (JStr "hello"))
                    Samples.context = Ok built
    /\ annotations (resource built) !! "steps_dict" = None
    /\ annotations (resource built) !! "total_record_count" = Some (JNum 1).
Proof. eexists. split; [ reflexivity | ]. split; reflexivity. Qed.

(** C9 under metadata-only mode. *)
Lemma sqs_record_list_witness :
  exists built entry,
    createSQSTrigger Samples.bareRuntime
      (Samples.sqsEvent (JStr "hello")) newEvent Samples.context = Ok built
    /\ annotations (resource built) !! "record" = Some (JArr [ entry ])
    /\ field "Message ID" entry = Some (JStr "059f36b4")
    /\ field "MD5 Of Message Body" entry = Some (JStr "e4e68fb7")
    /\ field "Message Body" entry = None
    /\ field "Attributes" entry = None
    /\ field "Message Attributes" entry = None.
Proof.
  destruct (sqs_record_list Samples.bareRuntime
              (Samples.sqsEvent (JStr "hello")) newEvent
              Samples.context eq_refl)
    as (built & records & entries & Hbuilt & Hrecords & Hlist & Hall & _).
  simpl in Hrecords. injection Hrecords as <-.
  inversion Hall as [ | r entry rs es Hentry Hrest ]; subst.
  inversion Hrest; subst.
  destruct Hentry as (md5OfBody & messageId & body & attributes & messageAttributes
                      & Hmd5 & Hid & _ & _ & _ & Hfmd5 & Hfid & Hoff).
  simpl in Hmd5, Hid. injection Hmd5 as <-. injection Hid as <-.
  exists built, entry. simpl in Hoff. destruct Hoff as (? & ? & ?).
  repeat split; assumption.
Defined.

(** With metadata-only mode off, the entry carries the body and attributes. *)
Example sqs_full_entry :
  sqsRecord Samples.runtime (Samples.sqsRecordWith (JStr "hello"))
  = Ok (JObj [ ("MD5 Of Message Body", JStr "e4e68fb7");
               ("Message ID", JStr "059f36b4");
               ("Message Body", JStr "hello");
               ("Attributes", JObj [ ("SentTimestamp", JStr "1545082649183") ]);
               ("Message Attributes", JObj []) ]).
Proof. reflexivity. Qed.

(** A string of 2000 units is cut to 1024 units and the marker. *)
Example truncate_2000 :
  let s := String.concat "" (repeat "ab" 1000) in
  String.length s = 2000%nat
  /\ exists cut,
       truncateMessage Samples.runtime (JStr s) MAX_SQS_BODY_LENGTH
       = JStr (cut +:+ "...")
       /\ String.length cut = 1024%nat.
Proof.
  split; [ reflexivity | ]. eexists. split; reflexivity.
Qed.

(** C8 at a removal and at an insert of one item, and without the SDK. *)
Lemma dynamodb_item_hash_witness :
  dynamoItemHash Samples.runtime (Samples.dynamoRecord "REMOVE" Samples.newImage)
  = Ok (JStr (Samples.digest (Json.quoted "{'Id':101}")))
  /\ dynamoItemHash Samples.runtime (Samples.dynamoRecord "INSERT" Samples.newImage)
     = Ok (JStr (Samples.digest (Json.quoted "{'Id':101,'Message':'New item!'}")))
  /\ (exists built,
         createDynamoDBTrigger Samples.runtime
           (Samples.dynamoEvent "INSERT" Samples.newImage) newEvent Samples.context
         = Ok built
         /\ annotations (resource built) !! "item_hash"
            = Some (JStr (Samples.digest
                            (Json.quoted "{'Id':101,'Message':'New item!'}"))))
  /\ (exists built,
         createDynamoDBTrigger Samples.bareRuntime
           (Samples.dynamoEvent "REMOVE" Samples.newImage) newEvent Samples.context
         = Ok built
         /\ annotations (resource built) !! "item_hash" = Some (JStr "")).
Proof.
  destruct (dynamodb_item_hash Samples.runtime
              (Samples.dynamoEvent "REMOVE" Samples.newImage) newEvent
              Samples.context _ eq_refl eq_refl eq_refl)
    as (_ & _ & Hremove & _).
  destruct (dynamodb_item_hash Samples.runtime
              (Samples.dynamoEvent "INSERT" Samples.newImage) newEvent
              Samples.context _ eq_refl eq_refl eq_refl)
    as (Hattach & _ & _ & Hother & _).
  destruct (dynamodb_item_hash Samples.bareRuntime
              (Samples.dynamoEvent "REMOVE" Samples.newImage) newEvent
              Samples.context _ eq_refl eq_refl eq_refl)
    as (Hbare & Hnone & _).
  assert (Hinsert :
            dynamoItemHash Samples.runtime
              (Samples.dynamoRecord "INSERT" Samples.newImage)
            = Ok (JStr (Samples.digest
                          (Json.quoted "{'Id':101,'Message':'New item!'}")))).
  { apply (Hother Samples.unmarshall (JStr "INSERT") Samples.newImage
                  (JObj [ ("Message", JStr "New item!"); ("Id", JNum 101) ])
                  (Json.quoted "{'Id':101,'Message':'New item!'}"));
      solve [ reflexivity | discriminate ]. }
  split; [ | split; [ exact Hinsert | split ] ].
  - apply (Hremove Samples.unmarshall
                   (JObj [ ("Id", JObj [ ("N", JStr "101") ]) ])
                   (JObj [ ("Id", JNum 101) ])
                   (Json.quoted "{'Id':101}")); reflexivity.
  - apply Hattach. exact Hinsert.
  - apply Hbare. apply Hnone. reflexivity.
Defined.

(** The new image in two key orders: one canonical form, one hash. *)
Example item_hash_key_order :
  JSON_sortify Samples.runtime
    (JObj [ ("Message", JStr "New item!"); ("Id", JNum 101) ])
  = JSON_sortify Samples.runtime
      (JObj [ ("Id", JNum 101); ("Message", JStr "New item!") ]).
Proof. reflexivity. Qed.

(** The hash of an insert follows the new image, that of a removal does not. *)
Example item_hash_follows_event :
  dynamoItemHash Samples.runtime
    (JObj [ ("eventName", JStr "REMOVE");
            ("dynamodb", JObj [ ("Keys", JObj [ ("Id", JObj [ ("N", JStr "101") ]) ]);
                                ("NewImage", Samples.newImage) ]) ])
  = dynamoItemHash Samples.runtime
      (JObj [ ("eventName", JStr "REMOVE");
              ("dynamodb", JObj [ ("Keys", JObj [ ("Id", JObj [ ("N", JStr "101") ]) ]);
                                  ("NewImage", Samples.otherImage) ]) ])
  /\ dynamoItemHash Samples.runtime
       (JObj [ ("eventName", JStr "INSERT");
               ("dynamodb", JObj [ ("Keys", JObj [ ("Id", JObj [ ("N", JStr "101") ]) ]);
                                   ("NewImage", Samples.newImage) ]) ])
     <> dynamoItemHash Samples.runtime
          (JObj [ ("eventName", JStr "INSERT");
                  ("dynamodb", JObj [ ("Keys", JObj [ ("Id", JObj [ ("N", JStr "101") ]) ]);
                                      ("NewImage", Samples.otherImage) ]) ]).
Proof. split; [ reflexivity | vm_compute; discriminate ]. Qed.

(** A tag that names a method every object inherits: the dispatch calls
    that method, nothing is extracted, and the type is outside the
    enumeration. *)
Example inherited_member_as_tag :
  exists built,
    createFromEvent Samples.runtime (JObj [ ("source", JStr "aws.toString") ])
                    Samples.context = Ok built
    /\ r_type (resource built) = JStr "toString"
    /\ id built = JStr "".
Proof. eexists. repeat split. Qed.

(** A payload with a [dynamodb] field and no "Records" is classified as
    dynamodb, and the dynamodb factory raises on it. *)
Example dynamodb_field_payload :
  triggerService (JObj [ ("dynamodb", JObj []) ]) = Ok "dynamodb"
  /\ createFromEvent Samples.runtime (JObj [ ("dynamodb", JObj []) ])
                     Samples.context = Throw TypeError.
Proof. split; reflexivity. Qed.

(** * Further properties of the trigger module *)

(** ** The classifier on payloads that are not objects *)

(** X1: a payload that is neither an object nor an array is the fallback
    type when it is falsy and a TypeError when it is truthy: the first [in]
    test rejects a primitive. *)
Theorem primitive_payload (event : JSVal) :
  isObject event = false ->
  triggerService event = if truthy event then Throw TypeError else Ok "json".
Proof.
  intros Hprim. unfold triggerService.
  destruct (truthy event); [ | reflexivity ].
  destruct event; try discriminate; reflexivity.
Qed.

(** X1 at a text payload. *)
Lemma primitive_payload_witness :
  triggerService (JStr "ping") = if truthy (JStr "ping") then Throw TypeError else Ok "json".
Proof. apply (primitive_payload (JStr "ping")). reflexivity. Defined.

(** ** Segments of a text *)

Lemma splitOn_free c s : occurs c s = false -> splitOn c s = [ s ].
Proof.
  induction s as [ | a s IH ]; simpl; [ reflexivity | ].
  destruct (Ascii.eqb a c); simpl; [ discriminate | ].
  intros H. now rewrite IH.
Qed.

(** Splitting at a separator splits the text before it and the text after. *)
Lemma splitOn_at c a b :
  splitOn c (a +:+ String c b) = (splitOn c a ++ splitOn c b)%list.
Proof.
  induction a as [ | x a IH ]; simpl.
  - now rewrite Ascii.eqb_refl.
  - destruct (Ascii.eqb x c); [ now rewrite IH | ].
    rewrite IH. pose proof (splitOn_nonempty c a) as Hne.
    destruct (splitOn c a); [ contradiction | reflexivity ].
Qed.

Lemma lastSeg_app l1 l2 : l2 <> [] -> lastSeg (l1 ++ l2)%list = lastSeg l2.
Proof.
  intros Hne. unfold lastSeg. f_equal.
  destruct l2 as [ | x l2 _ ] using rev_ind; [ contradiction | ].
  now rewrite app_assoc, !last_snoc.
Qed.

(** The text after the last separator. *)
Lemma lastSeg_after c a b :
  occurs c b = false -> lastSeg (splitOn c (a +:+ String c b)) = b.
Proof.
  intros Hb. rewrite splitOn_at, lastSeg_app by apply splitOn_nonempty.
  now rewrite splitOn_free.
Qed.

(** ** The classifier on record payloads *)

(** X2: for a payload with a "Records" field, classification returns
    exactly when the first element of "Records" is an object (or array)
    whose [EventSource] and [eventSource] fields, where present, are
    strings; a non-string [EventSource] makes it raise even when
    [eventSource] would decide. *)
Theorem records_payload_returns_iff (l : list (string * JSVal)) (records : JSVal) :
  assoc "Records" l = Some records ->
  isOk (triggerService (JObj l)) = recordsShape records.
Proof.
  intros HR. unfold triggerService, recordsShape, fieldIs. simpl.
  rewrite HR. simpl.
  destruct (getProp records "0") as [ first | ]; simpl; [ | reflexivity ].
  destruct first as [ | | ? | ? | ? | a | r ]; simpl; try reflexivity.
  destruct (assoc "EventSource" r) as [ [ ] | ];
    destruct (assoc "eventSource" r) as [ [ ] | ]; reflexivity.
Qed.

(** X2 at a first record with a numeric [EventSource]. *)
Lemma records_payload_returns_iff_witness :
  isOk (triggerService
          (JObj [ ("Records",
                   JArr [ JObj [ ("EventSource", JNum 5);
                                 ("eventSource", JStr "aws:s3") ] ]) ]))
  = recordsShape
      (JArr [ JObj [ ("EventSource", JNum 5); ("eventSource", JStr "aws:s3") ] ]).
Proof.
  apply (records_payload_returns_iff
           [ ("Records",
              JArr [ JObj [ ("EventSource", JNum 5);
                            ("eventSource", JStr "aws:s3") ] ]) ]).
  reflexivity.
Defined.

(** X3: the source field of the first record decides the tag, whatever
    else the payload holds: the tag is the text after the last [:] of
    [eventSource], or of [EventSource] when [eventSource] is absent; for a
    source of the form [prefix:name] it is [name]. *)
Theorem record_source_decides (l r : list (string * JSVal))
        (records : JSVal) (source : string) :
  assoc "Records" l = Some records ->
  getProp records "0" = Ok (JObj r) ->
  (assoc "eventSource" r = Some (JStr source)
   /\ fieldIs isString "EventSource" r = true)
  \/ (assoc "eventSource" r = None
      /\ assoc "EventSource" r = Some (JStr source)) ->
  triggerService (JObj l) = Ok (lastSeg (splitOn ":" source))
  /\ forall prefix name,
       source = prefix +:+ String ":" name ->
       occurs ":" name = false ->
       triggerService (JObj l) = Ok name.
Proof.
  intros HR H0 Hsrc.
  assert (Htag : triggerService (JObj l) = Ok (lastSeg (splitOn ":" source))).
  { unfold triggerService, fieldIs in *. simpl. rewrite HR. simpl.
    rewrite H0. simpl.
    destruct Hsrc as [ [ Hlow Hup ] | [ Hlow Hup ] ]; rewrite Hlow.
    - destruct (assoc "EventSource" r) as [ [ ] | ]; simpl in *;
        try discriminate; reflexivity.
    - rewrite Hup. reflexivity. }
  split; [ exact Htag | ].
  intros prefix name -> Hname. rewrite Htag. f_equal.
  now apply lastSeg_after.
Qed.

(** X3 at an SQS message. *)
Lemma record_source_decides_witness :
  triggerService (Samples.sqsEvent (JStr "hello")) = Ok (lastSeg (splitOn ":" "aws:sqs"))
  /\ forall prefix name,
       "aws:sqs" = prefix +:+ String ":" name ->
       occurs ":" name = false ->
       triggerService (Samples.sqsEvent (JStr "hello")) = Ok name.
Proof.
  unfold Samples.sqsEvent, Samples.sqsRecordWith.
  eapply record_source_decides;
    [ reflexivity | reflexivity | left; split; reflexivity ].
Defined.

(** ** The classifier on event-bus payloads *)

(** X19: for a payload without "Records", [source] is looked at before
    anything of a request.  With [source], [detail-type] and [detail] all
    present the tag is [events], whatever [source] is; otherwise a truthy
    string [source] gives the text after its last [.], and for a source of
    the form [prefix.name] that is [name]; a truthy [source] that is not a
    string makes classification raise. *)
Theorem source_decides (l : list (string * JSVal)) (source : JSVal) :
  has "Records" (JObj l) = false ->
  assoc "source" l = Some source ->
  (matches SpecChain.p3 (JObj l) = true -> triggerService (JObj l) = Ok "events")
  /\ (matches SpecChain.p3 (JObj l) = false -> truthy source = true ->
      triggerService (JObj l)
      = match source with
        | JStr s => Ok (lastSeg (splitOn "." s))
        | _ => Throw TypeError
        end)
  /\ (forall prefix name,
         matches SpecChain.p3 (JObj l) = false ->
         source = JStr (prefix +:+ String "." name) ->
         occurs "." name = false ->
         triggerService (JObj l) = Ok name).
Proof.
  intros HR Hsrc.
  assert (Hstart : forall b,
            matches SpecChain.p3 (JObj l) = b ->
            triggerService (JObj l)
            = if b then Ok "events"
              else if truthy source
                   then let* parts := callSplit source "." in Ok (lastSeg parts)
                   else triggerService (JObj l)).
  { intros b Hb. destruct b.
    - unfold triggerService. cbn [truthy]. rewrite hasProperty_obj, HR.
      cbn [bind]. now rewrite events_test, Hb.
    - destruct (truthy source) eqn:Ht; [ | reflexivity ].
      unfold triggerService. cbn [truthy]. rewrite hasProperty_obj, HR.
      cbn [bind]. rewrite events_test, Hb, source_test. cbn [bind].
      unfold CodeChain.source. simpl. rewrite Hsrc. simpl. rewrite Ht.
      reflexivity. }
  split; [ | split ].
  - intros H3. now rewrite (Hstart true H3).
  - intros H3 Ht. rewrite (Hstart false H3), Ht. now destruct source.
  - intros prefix name H3 -> Hname. rewrite (Hstart false H3).
    assert (Ht : truthy (JStr (prefix +:+ String "." name)) = true)
      by now destruct prefix.
    rewrite Ht. simpl. f_equal. now apply lastSeg_after.
Qed.

(** X19 at a notification of an unlisted service. *)
Lemma source_decides_witness :
  triggerService (JObj [ ("source", JStr "aws.ec2") ]) = Ok "ec2".
Proof.
  apply (proj2 (proj2 (source_decides [ ("source", JStr "aws.ec2") ]
                         (JStr "aws.ec2") eq_refl eq_refl))
           "aws" "ec2"); reflexivity.
Defined.

(** ** The classifier on request payloads *)

(** On the shapes where it evaluates, the classifier returns what the
    code's chain gives. *)
Lemma triggerService_on_shapes ev :
  classifiable ev = true -> triggerService ev = Ok (CodeChain.classify ev).
Proof.
  intros Hshape.
  assert (Hret : exists t, triggerService ev = Ok t).
  { destruct ev as [ | | b | n | s | a | l ].
    1-5: apply negb_true_iff in Hshape; unfold triggerService;
         rewrite Hshape; eauto.
    - eexists. reflexivity.
    - simpl in Hshape. unfold fieldIs at 1 in Hshape.
      apply andb_prop in Hshape as [ H Hctx ].
      apply andb_prop in H as [ H Hrc ]. apply andb_prop in H as [ Hrec Hsrc ].
      destruct (assoc "Records" l) as [ records | ] eqn:HR.
      + apply (classifiable_records _ _ HR Hrec).
      + apply (classifiable_others _ HR Hsrc Hrc Hctx). }
  destruct Hret as [ t Ht ]. rewrite Ht. f_equal. now apply code_chain.
Qed.

Lemma elb_test_false l :
  fieldIs isObject "requestContext" l = true ->
  matches SpecChain.p5 (JObj l) = false ->
  andAlso (hasProperty "requestContext" (JObj l))
          (let* rc := getProp (JObj l) "requestContext" in hasProperty "elb" rc)
  = Ok false.
Proof.
  intros Hrc H5. pose proof (nested_test_ok "requestContext" "elb" l Hrc) as Hok.
  apply isOk_inv in Hok as [ b Hb ]. rewrite Hb. f_equal.
  apply nested_test in Hb; [ | reflexivity .. ]. now rewrite Hb.
Qed.

(** X4: the API gateway before the identifiers of the request context.  A
    payload without "Records", that is not an events payload, has no truthy
    [source] and no [requestContext.elb], and that has an [httpMethod]
    field, is [api_gateway] whatever [requestContext.apiId],
    [requestContext.http], [context], [dynamodb] and [userPoolId] are; a
    [context] that is [null] is not even looked at. *)
Theorem http_method_before_api_id (l : list (string * JSVal)) :
  has "Records" (JObj l) = false ->
  matches SpecChain.p3 (JObj l) = false ->
  matches CodeChain.source (JObj l) = false ->
  fieldIs isObject "requestContext" l = true ->
  matches SpecChain.p5 (JObj l) = false ->
  has "httpMethod" (JObj l) = true ->
  triggerService (JObj l) = Ok "api_gateway".
Proof.
  intros HR H3 Hsrc Hrc H5 Hmethod. unfold triggerService.
  cbn [truthy]. rewrite hasProperty_obj, HR. cbn [bind].
  rewrite events_test, source_test, H3, Hsrc. cbn [bind].
  rewrite (elb_test_false l Hrc H5). cbn [bind].
  rewrite hasProperty_obj, Hmethod. reflexivity.
Qed.

(** X4 at a REST request that carries an [apiId] and a null [context]. *)
Lemma http_method_before_api_id_witness :
  triggerService
    (JObj [ ("httpMethod", JStr "GET");
            ("context", JNull);
            ("requestContext", JObj [ ("apiId", JStr "a1b2"); ("http", JObj []) ]) ])
  = Ok "api_gateway".
Proof.
  apply (http_method_before_api_id
           [ ("httpMethod", JStr "GET");
             ("context", JNull);
             ("requestContext", JObj [ ("apiId", JStr "a1b2"); ("http", JObj []) ]) ]);
    reflexivity.
Defined.

(** X5: the two tags decided by [requestContext.apiId].  When no earlier
    rule matches (no "Records", not events, no truthy [source], no
    [requestContext.elb], no [httpMethod], no [context['http-method']], no
    [dynamodb], no [userPoolId]) a payload whose [requestContext] has an
    [apiId] is [api_gateway_http2] if the request context also has [http],
    and [api_gateway_websocket] if it has not. *)
Theorem api_id_decides (l rc : list (string * JSVal)) :
  has "Records" (JObj l) = false ->
  matches SpecChain.p3 (JObj l) = false ->
  matches CodeChain.source (JObj l) = false ->
  assoc "requestContext" l = Some (JObj rc) ->
  assoc "elb" rc = None ->
  has "httpMethod" (JObj l) = false ->
  fieldIs isObject "context" l = true ->
  matches SpecChain.p7 (JObj l) = false ->
  has "dynamodb" (JObj l) = false ->
  has "userPoolId" (JObj l) = false ->
  is_Some (assoc "apiId" rc) ->
  triggerService (JObj l)
  = Ok (if bool_decide (is_Some (assoc "http" rc))
        then "api_gateway_http2" else "api_gateway_websocket").
Proof.
  intros HR H3 Hsrc Hrc Helb Hmethod Hctx H7 Hdyn Hpool Hapi.
  rewrite triggerService_on_shapes.
  - f_equal. unfold CodeChain.classify. rewrite HR.
    unfold CodeChain.otherRules. cbn [firstMatch]. rewrite H3, Hsrc, H7.
    unfold SpecChain.p5, SpecChain.p6, SpecChain.p8, SpecChain.p9,
      SpecChain.p10, SpecChain.p11, nested, constantly. cbn [matches tagOf].
    rewrite Hmethod, Hdyn, Hpool. simpl. rewrite Hrc. simpl. rewrite Helb.
    rewrite (bool_decide_eq_true_2 _ Hapi). simpl.
    destruct (bool_decide (is_Some (assoc "http" rc))); reflexivity.
  - simpl. unfold fieldIs at 1 3.
    unfold has in HR. simpl in HR. apply bool_decide_eq_false in HR.
    destruct (assoc "Records" l); [ exfalso; apply HR; eauto | ].
    rewrite Hrc, Hctx. simpl.
    unfold CodeChain.source in Hsrc. simpl in Hsrc. unfold fieldIs.
    destruct (assoc "source" l); simpl in *; [ now rewrite Hsrc | reflexivity ].
Qed.

(** X5 at a websocket connection. *)
Lemma api_id_decides_witness :
  triggerService
    (JObj [ ("requestContext",
             JObj [ ("apiId", JStr "a1b2"); ("eventType", JStr "CONNECT") ]) ])
  = Ok (if bool_decide
             (is_Some (assoc "http" [ ("apiId", JStr "a1b2");
                                      ("eventType", JStr "CONNECT") ]))
        then "api_gateway_http2" else "api_gateway_websocket").
Proof.
  apply (api_id_decides
           [ ("requestContext",
              JObj [ ("apiId", JStr "a1b2"); ("eventType", JStr "CONNECT") ]) ]);
    solve [ reflexivity | simpl; eauto ].
Defined.

(** ** The payloads on which a factory completes *)

Lemma read_needs v p k x :
  getPath v (p ++ [ k ])%list = Ok x -> present v p = true.
Proof.
  unfold present. rewrite getPath_app.
  destruct (getPath v p) as [ y | ]; simpl; [ | discriminate ].
  destruct (getProp y k) eqn:E; [ | discriminate ].
  intros _. eapply getProp_inv, E.
Qed.

Lemma split_needs v p x c parts :
  getPath v p = Ok x -> callSplit x c = Ok parts -> textAt v p = true.
Proof. unfold textAt. intros ->. now destruct x. Qed.

Lemma replace_needs v p x pat rep y :
  getPath v p = Ok x -> callReplace x pat rep = Ok y -> textAt v p = true.
Proof. unfold textAt. intros ->. now destruct x. Qed.

Lemma text_needs v p x s :
  getPath v p = Ok x -> toStr x = Ok s -> convertibleAt v p = true.
Proof.
  unfold convertibleAt. intros -> H. rewrite <- toStr_convertible. now rewrite H.
Qed.

(** Name the result of every step of a computation that returned. *)
Ltac unbind H :=
  repeat match type of H with
         | bind ?c _ = Ok _ =>
             let E := fresh "E" in
             destruct c eqn:E; [ cbn [bind] in H | discriminate H ]
         end.

(** Read a shape fact off the steps that returned. *)
Ltac needed :=
  match goal with
  | E : getPath ?v ?path = Ok ?x |- present ?v ?p = true =>
      refine (read_needs v p _ x _); exact E
  | E : getPath ?v ?p = Ok ?x, S : callSplit ?x _ = Ok _ |- textAt ?v ?p = true =>
      exact (split_needs v p x _ _ E S)
  | E : getPath ?v ?p = Ok ?x, S : callReplace ?x _ _ = Ok _ |- textAt ?v ?p = true =>
      exact (replace_needs v p x _ _ _ E S)
  | E : getPath ?v ?p = Ok ?x, T : toStr ?x = Ok _ |- convertibleAt ?v ?p = true =>
      exact (text_needs v p x _ E T)
  | E : getProp ?v ?k = Ok ?x, T : toStr ?x = Ok _
    |- convertibleAt ?v [ ?k ] = true =>
      refine (text_needs v [ k ] x _ _ T); rewrite getPath_single; exact E
  | E : getProp ?v _ = Ok _ |- nonNullish ?v = true =>
      exact (getProp_inv v _ _ E)
  end.

Ltac shape_needed H :=
  unbind H; repeat (apply andb_true_intro; split); needed.

Section Exactness.

Context (rt : Runtime).

Lemma createS3Trigger_needs event trigger context built :
  createS3Trigger rt event trigger context = Ok built ->
  present event ["Records"; "0"; "responseElements"]
  && present event ["Records"; "0"; "s3"; "bucket"]
  && present event ["Records"; "0"; "s3"; "object"]
  && convertibleAt event ["Records"; "0"; "awsRegion"]
  && convertibleAt event ["Records"; "0"; "s3"; "object"; "key"]
  && convertibleAt event ["Records"; "0"; "s3"; "object"; "size"]
  && convertibleAt event ["Records"; "0"; "s3"; "object"; "eTag"]
  && convertibleAt event ["Records"; "0"; "responseElements"; "x-amz-request-id"]
  = true.
Proof. unfold createS3Trigger. intros H. shape_needed H. Qed.

Lemma createJSONTrigger_needs event trigger context built :
  createJSONTrigger rt event trigger context = Ok built ->
  nonNullish context && convertibleAt context ["functionName"] = true.
Proof. unfold createJSONTrigger. intros H. shape_needed H. Qed.

Lemma createKinesisTrigger_needs event trigger context built :
  createKinesisTrigger rt event trigger context = Ok built ->
  textAt event ["Records"; "0"; "eventSourceARN"]
  && textAt event ["Records"; "0"; "eventName"]
  && present event ["Records"; "0"; "kinesis"] = true.
Proof. unfold createKinesisTrigger. intros H. shape_needed H. Qed.

Lemma createEventsTrigger_needs event trigger context built :
  createEventsTrigger rt event trigger context = Ok built ->
  present event ["resources"] = true.
Proof. unfold createEventsTrigger. intros H. shape_needed H. Qed.

Lemma createSNSTrigger_needs event trigger context built :
  createSNSTrigger rt event trigger context = Ok built ->
  present event ["Records"; "0"; "Sns"]
  && textAt event ["Records"; "0"; "EventSubscriptionArn"] = true.
Proof. unfold createSNSTrigger. intros H. shape_needed H. Qed.

Lemma createAPIGatewayTrigger_needs event trigger context built :
  createAPIGatewayTrigger rt event trigger context = Ok built ->
  present event ["requestContext"] && present event ["headers"] = true.
Proof. unfold createAPIGatewayTrigger. intros H. shape_needed H. Qed.

Lemma createNoProxyAPIGatewayTrigger_needs event trigger context built :
  createNoProxyAPIGatewayTrigger rt event trigger context = Ok built ->
  present event ["context"] && present event ["params"; "header"] = true.
Proof. unfold createNoProxyAPIGatewayTrigger. intros H. shape_needed H. Qed.

Lemma createWebSocketTrigger_needs event trigger context built :
  createWebSocketTrigger rt event trigger context = Ok built ->
  present event ["requestContext"] = true.
Proof. unfold createWebSocketTrigger. intros H. shape_needed H. Qed.

Lemma createAPIGatewayHTTPV2Trigger_needs event trigger context built :
  createAPIGatewayHTTPV2Trigger rt event trigger context = Ok built ->
  present event ["requestContext"; "http"] && present event ["headers"] = true.
Proof. unfold createAPIGatewayHTTPV2Trigger. intros H. shape_needed H. Qed.

Lemma createElbTrigger_needs event trigger context built :
  createElbTrigger rt event trigger context = Ok built ->
  present event ["headers"] && present event ["requestContext"; "elb"] = true.
Proof. unfold createElbTrigger. intros H. shape_needed H. Qed.

Lemma createCognitoTrigger_needs event trigger context built :
  createCognitoTrigger rt event trigger context = Ok built ->
  nonNullish event = true.
Proof. unfold createCognitoTrigger. intros H. shape_needed H. Qed.

End Exactness.

Section ExactnessRecords.

Context (rt : Runtime).

Lemma mapM_needs {A B} (f : A -> result B) (P : A -> bool) l l' :
  (forall x y, f x = Ok y -> P x = true) ->
  mapM f l = Ok l' -> forallb P l = true.
Proof.
  intros Hf. revert l'. induction l as [ | x l IH ]; intros l' H; simpl in *.
  - reflexivity.
  - destruct (f x) eqn:Hx; [ | discriminate ]. simpl in H.
    destruct (mapM f l) eqn:Hl; [ | discriminate ].
    rewrite (Hf _ _ Hx), (IH _ eq_refl). reflexivity.
Qed.

Lemma sqsRecord_needs r entry : sqsRecord rt r = Ok entry -> nonNullish r = true.
Proof. unfold sqsRecord. intros H. unbind H. needed. Qed.

(** The body the factory parsed had a text. *)
Lemma body_needs body text :
  toStr (orElse body (JStr "{}")) = Ok text -> convertible body = true.
Proof.
  unfold orElse. destruct (truthy body) eqn:Ht.
  - intros H. rewrite <- toStr_convertible. now rewrite H.
  - intros _. now destruct body.
Qed.

Lemma createSQSTrigger_needs event trigger context built :
  createSQSTrigger rt event trigger context = Ok built ->
  textAt event ["Records"; "0"; "eventSourceARN"]
  && recordsAt event ["Records"]
  && convertibleAt event ["Records"; "0"; "body"] = true.
Proof.
  unfold createSQSTrigger. intros H. unbind H.
  repeat (apply andb_true_intro; split); [ needed | | ].
  - unfold recordsAt. rewrite getPath_single.
    match goal with
    | E : getProp event "Records" = Ok ?v, M : callMap ?v _ = Ok _ |- _ =>
        rewrite E; destruct v; try discriminate M; cbn [callMap] in M; unbind M
    end.
    eapply mapM_needs; [ apply sqsRecord_needs | eassumption ].
  - unfold convertibleAt.
    match goal with
    | E : getPath event ["Records"; "0"; "body"] = Ok ?b,
      T : sqsTryStepsDict rt _ _ = Ok _ |- _ =>
        rewrite E; apply sqsTryStepsDict_inv in T as (text & T & _);
        exact (body_needs b text T)
    end.
Qed.

Lemma createDynamoDBTrigger_needs event trigger context built :
  createDynamoDBTrigger rt event trigger context = Ok built ->
  textAt event ["Records"; "0"; "eventSourceARN"]
  && present event ["Records"; "0"; "dynamodb"]
  && match getPath event ["Records"; "0"] with
     | Ok record => isOk (dynamoItemHash rt record)
     | Throw _ => false
     end = true.
Proof.
  unfold createDynamoDBTrigger. intros H.
  destruct (getPath event ["Records"; "0"]) as [ record | ] eqn:Hrec;
    [ | discriminate ].
  cbn [bind] in H. unbind H.
  pose proof (textAt_under event ["Records"; "0"] ["eventSourceARN"] record Hrec)
    as Xarn.
  pose proof (present_under event ["Records"; "0"] ["dynamodb"] record Hrec)
    as Xdyn.
  cbn [app] in Xarn, Xdyn. rewrite Xarn, Xdyn.
  repeat (apply andb_true_intro; split); try reflexivity.
  - unfold textAt. rewrite getPath_single.
    match goal with
    | E : getProp record "eventSourceARN" = Ok ?v, S : callSplit ?v _ = Ok _ |- _ =>
        rewrite E; now destruct v
    end.
  - needed.
Qed.

(** X6: the shape of a tag is exactly what its factory needs.  For each of
    the thirteen registered factories, the factory completes on a payload
    (and context) if and only if every object it looks into is there,
    every field it calls a string method on is a string, every value it
    puts into a template literal or hands to [JSON.parse] has a text (s3,
    json, sqs), and, by tag, the record list is an array without null
    entries (sqs), the context is not null (json), the item decodes
    (dynamodb). *)
Theorem factory_completes_iff_shape (tag : string) (factory : Factory)
        (event : JSVal) (trigger : Event) (context : JSVal) :
  lookupFactory tag (resourceTypeToFactoryMap rt) = Some factory ->
  isOk (factory event trigger context) = wellShaped rt tag event context.
Proof.
  unfold wellShaped, factoryShapes, resourceTypeToFactoryMap.
  cbn [lookupShape lookupFactory].
  repeat match goal with
         | |- context [ String.eqb tag ?k ] =>
             destruct (String.eqb tag k); [ shelve | ]
         end.
  - discriminate.
  Unshelve.
  all: intros [= <-]; apply Bool.eq_iff_eq_true; split.
  all: try (intros H; apply isOk_inv in H as [ built H ]; revert H).
  all: first
         [ apply createS3Trigger_needs | apply createS3Trigger_ok
         | apply createJSONTrigger_needs | apply createJSONTrigger_ok
         | apply createKinesisTrigger_needs | apply createKinesisTrigger_ok
         | apply createEventsTrigger_needs | apply createEventsTrigger_ok
         | apply createSNSTrigger_needs | apply createSNSTrigger_ok
         | apply createSQSTrigger_needs | apply createSQSTrigger_ok
         | apply createAPIGatewayTrigger_needs | apply createAPIGatewayTrigger_ok
         | apply createNoProxyAPIGatewayTrigger_needs
         | apply createNoProxyAPIGatewayTrigger_ok
         | apply createWebSocketTrigger_needs | apply createWebSocketTrigger_ok
         | apply createAPIGatewayHTTPV2Trigger_needs
         | apply createAPIGatewayHTTPV2Trigger_ok
         | apply createDynamoDBTrigger_needs | apply createDynamoDBTrigger_ok
         | apply createElbTrigger_needs | apply createElbTrigger_ok
         | apply createCognitoTrigger_needs | apply createCognitoTrigger_ok ].
Qed.

End ExactnessRecords.

(** X6 at the S3 factory and a payload with the source field alone. *)
Lemma factory_completes_iff_shape_witness :
  isOk (createS3Trigger Samples.runtime Samples.s3Partial newEvent Samples.context)
  = wellShaped Samples.runtime "s3" Samples.s3Partial Samples.context.
Proof.
  apply (factory_completes_iff_shape
           Samples.runtime "s3" (createS3Trigger Samples.runtime)).
  reflexivity.
Defined.

(** ** What the module raises *)

Lemma toe_ok {A} (a : A) : typeErrorsOnly (Ok a).
Proof. intros e [=]. Qed.

Lemma toe_throw {A} : typeErrorsOnly (@Throw A TypeError).
Proof. now intros e [= <-]. Qed.

Lemma toe_bind {A B} (c : result A) (k : A -> result B) :
  typeErrorsOnly c -> (forall a, typeErrorsOnly (k a)) -> typeErrorsOnly (bind c k).
Proof.
  intros Hc Hk e. destruct c as [ a | e' ]; simpl.
  - apply Hk.
  - intros [= <-]. now apply Hc.
Qed.

Lemma toe_getProp v k : typeErrorsOnly (getProp v k).
Proof. destruct v; simpl; solve [ apply toe_ok | apply toe_throw ]. Qed.

Lemma toe_getPath v p : typeErrorsOnly (getPath v p).
Proof.
  revert v. induction p as [ | k p IH ]; intros v; simpl.
  - apply toe_ok.
  - apply toe_bind; [ apply toe_getProp | intros w; apply IH ].
Qed.

Lemma toe_hasProperty k v : typeErrorsOnly (hasProperty k v).
Proof. destruct v; simpl; solve [ apply toe_ok | apply toe_throw ]. Qed.

Lemma toe_callSplit v c : typeErrorsOnly (callSplit v c).
Proof. destruct v; simpl; solve [ apply toe_ok | apply toe_throw ]. Qed.

Lemma toe_callReplace v pat rep : typeErrorsOnly (callReplace v pat rep).
Proof. destruct v; simpl; solve [ apply toe_ok | apply toe_throw ]. Qed.

Lemma toe_mapM {A B} (f : A -> result B) l :
  (forall x, typeErrorsOnly (f x)) -> typeErrorsOnly (mapM f l).
Proof.
  intros Hf. induction l as [ | x l IH ]; simpl; [ apply toe_ok | ].
  apply toe_bind; [ apply Hf | intros y ].
  apply toe_bind; [ exact IH | intros ys; apply toe_ok ].
Qed.

Lemma toe_callMap v f :
  (forall x, typeErrorsOnly (f x)) -> typeErrorsOnly (callMap v f).
Proof.
  intros Hf. destruct v; simpl; try apply toe_throw.
  apply toe_bind; [ now apply toe_mapM | intros r; apply toe_ok ].
Qed.

Lemma toe_toStr v : typeErrorsOnly (toStr v).
Proof. intros e. apply toStr_raises. Qed.

(** Follow the structure of a computation built from reads and calls. *)
Ltac toe :=
  lazymatch goal with
  | |- typeErrorsOnly (bind _ _) => apply toe_bind; [ toe | intros ?; toe ]
  | |- typeErrorsOnly (Ok _) => apply toe_ok
  | |- typeErrorsOnly (Throw TypeError) => apply toe_throw
  | |- typeErrorsOnly (getProp _ _) => apply toe_getProp
  | |- typeErrorsOnly (getPath _ _) => apply toe_getPath
  | |- typeErrorsOnly (hasProperty _ _) => apply toe_hasProperty
  | |- typeErrorsOnly (toStr _) => apply toe_toStr
  | |- typeErrorsOnly (callSplit _ _) => apply toe_callSplit
  | |- typeErrorsOnly (callReplace _ _ _) => apply toe_callReplace
  | |- typeErrorsOnly (andAlso _ _) => unfold andAlso; toe
  | |- typeErrorsOnly (if ?c then _ else _) => destruct c; toe
  | |- typeErrorsOnly (match ?x with _ => _ end) => destruct x; toe
  end.

Lemma toe_triggerService event : typeErrorsOnly (triggerService event).
Proof. unfold triggerService. toe. Qed.

Lemma toe_inheritedCall tag event : typeErrorsOnly (inheritedCall tag event).
Proof. unfold inheritedCall. toe. Qed.

Section Raises.

Context (rt : Runtime).

Lemma toe_sqsRecord r : typeErrorsOnly (sqsRecord rt r).
Proof. unfold sqsRecord. cbv zeta. toe. Qed.

(** The [try] statement lets through only what its handler raises. *)
Lemma toe_sqsTryStepsDict body t : typeErrorsOnly (sqsTryStepsDict rt body t).
Proof.
  unfold sqsTryStepsDict. destruct (sqsStepsDict rt body t); toe.
Qed.

Lemma toe_createSQSTrigger event trigger context :
  typeErrorsOnly (createSQSTrigger rt event trigger context).
Proof.
  unfold createSQSTrigger. cbv zeta.
  do 5 (apply toe_bind; [ toe | intros ? ]).
  apply toe_bind; [ apply toe_callMap, toe_sqsRecord | intros ? ].
  apply toe_bind; [ toe | intros ? ].
  apply toe_bind; [ apply toe_sqsTryStepsDict | intros ? ].
  toe.
Qed.

(** Every factory but the DynamoDB one raises nothing but TypeError. *)
Lemma toe_factories tag factory event trigger context :
  lookupFactory tag (resourceTypeToFactoryMap rt) = Some factory ->
  tag <> "dynamodb" ->
  typeErrorsOnly (factory event trigger context).
Proof.
  unfold resourceTypeToFactoryMap. cbn [lookupFactory].
  repeat match goal with
         | |- context [ String.eqb tag ?k ] =>
             destruct (String.eqb_spec tag k); [ shelve | ]
         end.
  - discriminate.
  Unshelve.
  all: intros [= <-] Hne; try (subst; contradiction).
  all: try apply toe_createSQSTrigger.
  all: unfold createS3Trigger, createJSONTrigger, createKinesisTrigger,
         createEventsTrigger, createSNSTrigger, createAPIGatewayTrigger,
         createNoProxyAPIGatewayTrigger, createWebSocketTrigger,
         createAPIGatewayHTTPV2Trigger, createElbTrigger, createCognitoTrigger;
       cbv zeta; toe.
Qed.

(** X7: what [createFromEvent] raises.  Whatever the payload and the
    context, an exception out of [createFromEvent] is a TypeError, unless
    the payload is tagged dynamodb, the SDK is installed and the exception
    comes out of the hash block (decoding the item, or md5).  The
    SyntaxError of a body that does not parse never leaves the SQS
    factory. *)
Theorem createFromEvent_raises (event context : JSVal) (e : JSError) :
  createFromEvent rt event context = Throw e ->
  e = TypeError
  \/ (triggerService event = Ok "dynamodb"
      /\ exists unmarshall record,
           AWS rt = Some unmarshall
           /\ getPath event ["Records"; "0"] = Ok record
           /\ dynamoItemHash rt record = Throw e).
Proof.
  unfold createFromEvent.
  destruct (triggerService event) as [ tag | e' ] eqn:Htag.
  2: { intros [= <-]. left. now apply (toe_triggerService event). }
  cbn [bind].
  destruct (lookupFactory tag (resourceTypeToFactoryMap rt)) as [ factory | ]
    eqn:Hfactory.
  2: { destruct (inheritedCall tag event) eqn:Hcall; [ discriminate | ].
       intros [= <-]. left. now apply (toe_inheritedCall tag event). }
  destruct (String.eqb_spec tag "dynamodb") as [ -> | Hne ].
  - injection Hfactory as <-. unfold createDynamoDBTrigger.
    destruct (getPath event ["Records"; "0"]) as [ record | e' ] eqn:Hrec.
    2: { intros [= <-]. left. now apply (toe_getPath event ["Records"; "0"]). }
    cbn [bind].
    destruct (dynamoItemHash rt record) as [ hash | e' ] eqn:Hhash.
    + cbn [bind]. intros H. left.
      match type of H with
      | bind ?c _ = _ =>
          assert (Hc : typeErrorsOnly c) by (cbv zeta; toe);
          destruct c; [ discriminate | injection H as <-; now apply Hc ]
      end.
    + intros [= <-]. right. split; [ reflexivity | ].
      destruct (AWS rt) as [ unmarshall | ] eqn:Hsdk.
      * exists unmarshall, record. auto.
      * rewrite dynamoItemHash_without_sdk in Hhash by exact Hsdk.
        discriminate.
  - pose proof (toe_factories tag factory event newEvent context Hfactory Hne)
      as Hf.
    destruct (factory event newEvent context); [ discriminate | ].
    intros [= <-]. left. now apply Hf.
Qed.

End Raises.

(** X7 at the S3 payload with the source field alone. *)
Lemma createFromEvent_raises_witness :
  TypeError = TypeError
  \/ (triggerService Samples.s3Partial = Ok "dynamodb"
      /\ exists unmarshall record,
           AWS Samples.runtime = Some unmarshall
           /\ getPath Samples.s3Partial ["Records"; "0"] = Ok record
           /\ dynamoItemHash Samples.runtime record = Throw TypeError).
Proof.
  apply (createFromEvent_raises Samples.runtime Samples.s3Partial Samples.context).
  reflexivity.
Defined.

(** ** What a returned trigger looks like *)

Lemma inheritedCall_names tag event :
  inheritedCall tag event = Ok tt -> tag ∈ inheritedNames.
Proof.
  unfold inheritedCall, inheritedNames.
  repeat case_bool_decide; intros Hcall; try discriminate Hcall;
    rewrite !elem_of_cons in *; tauto.
Qed.

(** X8: every trigger [createFromEvent] returns has origin ['trigger'],
    error code OK, duration zero and the clock's start time; its resource
    type is the tag the classifier resolved, and that tag is one of the
    enumeration or the name of a method every object inherits (for which
    the dispatch calls that method and extracts nothing). *)
Theorem returned_trigger_fields (rt : Runtime) (event context : JSVal)
        (trigger : Event) :
  createFromEvent rt event context = Ok trigger ->
  origin trigger = "trigger"
  /\ error_code trigger = OK
  /\ duration trigger = 0%Z
  /\ start_time trigger = createTimestamp rt
  /\ exists tag,
       triggerService event = Ok tag
       /\ r_type (resource trigger) = JStr tag
       /\ (tag ∈ sourceTags
           \/ (tag ∈ inheritedNames /\ id trigger = JStr ""
               /\ r_name (resource trigger) = JStr "")).
Proof.
  unfold createFromEvent.
  destruct (triggerService event) as [ tag | ]; [ | discriminate ].
  cbn [bind].
  destruct (lookupFactory tag (resourceTypeToFactoryMap rt)) as [ factory | ]
    eqn:Hfactory.
  - destruct (factory event newEvent context) as [ built | ]; [ | discriminate ].
    cbn [bind]. intros [= <-]. repeat split.
    exists tag. repeat split. left.
    apply (registry_domain rt). rewrite Hfactory. eauto.
  - destruct (inheritedCall tag event) as [ [] | ] eqn:Hcall; [ | discriminate ].
    cbn [bind]. intros [= <-]. repeat split.
    exists tag. repeat split. right.
    repeat split. eapply inheritedCall_names, Hcall.
Qed.

(** X8 at a complete S3 notification. *)
Lemma returned_trigger_fields_witness :
  exists trigger,
    createFromEvent Samples.runtime Samples.s3Event Samples.context = Ok trigger
    /\ origin trigger = "trigger"
    /\ error_code trigger = OK
    /\ r_type (resource trigger) = JStr "s3".
Proof.
  destruct (createFromEvent Samples.runtime Samples.s3Event Samples.context)
    as [ trigger | ] eqn:H; [ | discriminate H ].
  destruct (returned_trigger_fields _ _ _ _ H)
    as (Horigin & Hcode & _ & _ & tag & Htag & Htype & _).
  exists trigger. injection Htag as <-. repeat split; assumption.
Defined.

(** X9: a payload tagged cognito always yields a trigger: the Cognito
    factory reads top-level fields only.  Its id is ['cognito-'] and the
    fresh identifier, its name the [userPoolId] field and its operation the
    [triggerSource] field (each [undefined] when the field is absent). *)
Theorem cognito_always_completes (rt : Runtime) (event context : JSVal) :
  triggerService event = Ok "cognito" ->
  exists trigger,
    createFromEvent rt event context = Ok trigger
    /\ id trigger = JStr ("cognito-" +:+ uuid4 rt)
    /\ getProp event "userPoolId" = Ok (r_name (resource trigger))
    /\ getProp event "triggerSource" = Ok (r_operation (resource trigger))
    /\ r_type (resource trigger) = JStr "cognito".
Proof.
  intros Htag.
  assert (Hev : nonNullish event = true).
  { destruct event; try reflexivity; discriminate Htag. }
  unfold createFromEvent. rewrite Htag. cbn [bind].
  change (lookupFactory "cognito" (resourceTypeToFactoryMap rt))
    with (Some (createCognitoTrigger rt)).
  unfold createCognitoTrigger. cbv zeta.
  destruct (isOk_inv _ (getProp_ok event "userPoolId" Hev)) as [ pool Hpool ].
  destruct (isOk_inv _ (getProp_ok event "triggerSource" Hev)) as [ src Hsrc ].
  rewrite Hpool, Hsrc. cbn [bind].
  repeat next_read. cbn [bind]. eexists. split; [ reflexivity | ].
  match goal with
  | |- context [ addToMetadata rt ?t ?a ?p ] =>
      pose proof (addToMetadata_identity rt a p t) as Hid
  end.
  unfold identity in Hid. simpl in Hid. injection Hid as Hi _ Hn Ho.
  simpl. rewrite Hi, Hn, Ho. repeat split.
Qed.

(** X9 at a pre-sign-up event. *)
Lemma cognito_always_completes_witness :
  exists trigger,
    createFromEvent Samples.runtime
      (JObj [ ("userPoolId", JStr "us-east-1_uVWAMpQuY");
              ("triggerSource", JStr "PreSignUp_SignUp") ]) Samples.context
    = Ok trigger
    /\ id trigger = JStr ("cognito-" +:+ uuid4 Samples.runtime)
    /\ getProp (JObj [ ("userPoolId", JStr "us-east-1_uVWAMpQuY");
                       ("triggerSource", JStr "PreSignUp_SignUp") ]) "userPoolId"
       = Ok (r_name (resource trigger))
    /\ getProp (JObj [ ("userPoolId", JStr "us-east-1_uVWAMpQuY");
                       ("triggerSource", JStr "PreSignUp_SignUp") ]) "triggerSource"
       = Ok (r_operation (resource trigger))
    /\ r_type (resource trigger) = JStr "cognito".
Proof.
  apply (cognito_always_completes Samples.runtime
           (JObj [ ("userPoolId", JStr "us-east-1_uVWAMpQuY");
                   ("triggerSource", JStr "PreSignUp_SignUp") ])
           Samples.context).
  reflexivity.
Defined.

(** ** The resource names the record factories derive *)

Lemma pop_lastSeg l : l <> [] -> pop l = JStr (lastSeg l).
Proof.
  unfold pop, lastSeg. destruct l as [ | x l _ ] using rev_ind;
    [ contradiction | ].
  now rewrite last_snoc.
Qed.

Lemma sliceLast_one l : l <> [] -> nthSeg (sliceLast 1 l) 0 = JStr (lastSeg l).
Proof.
  unfold nthSeg, sliceLast, lastSeg.
  destruct l as [ | x l _ ] using rev_ind; [ contradiction | ]. intros _.
  rewrite last_snoc, length_app. simpl.
  replace (length l + 1 - 1)%nat with (length l) by lia.
  now rewrite drop_app_length.
Qed.

Lemma sliceLast_two l a b : nthSeg (sliceLast 2 (l ++ [ a; b ])%list) 0 = JStr a.
Proof.
  unfold nthSeg, sliceLast. rewrite length_app. simpl.
  replace (length l + 2 - 2)%nat with (length l) by lia.
  now rewrite drop_app_length.
Qed.

Section Names.

Context (rt : Runtime).

Lemma stepped_identity body t stepped :
  sqsTryStepsDict rt body t = Ok stepped -> identity stepped = identity t.
Proof.
  intros H. apply sqsTryStepsDict_inv in H as (text & _ & H).
  destruct (sqsStepsDict rt body t) as [ t' | ] eqn:E; [ | now subst ].
  subst t'.
  apply sqsStepsDict_inv in E as [ -> | [ epsagon -> ] ]; [ reflexivity | ].
  apply addToMetadata_identity.
Qed.

(** X10: the SQS factory names the resource after the queue: the text
    after the last [:] of the first record's [eventSourceARN] (the whole
    text when it has no [:]); the id is the first record's [messageId] and
    the operation is ['ReceiveMessage'].  The payload is one the factory
    completes on: the records an array without null entries, the first
    body a value with a text. *)
Theorem sqs_queue_name (event : JSVal) (trigger : Event) (context : JSVal)
        (arn : string) :
  recordsAt event ["Records"] = true ->
  convertibleAt event ["Records"; "0"; "body"] = true ->
  getPath event ["Records"; "0"; "eventSourceARN"] = Ok (JStr arn) ->
  exists built messageId,
    createSQSTrigger rt event trigger context = Ok built
    /\ getPath event ["Records"; "0"; "messageId"] = Ok messageId
    /\ id built = messageId
    /\ r_operation (resource built) = JStr "ReceiveMessage"
    /\ r_name (resource built) = JStr (lastSeg (splitOn ":" arn))
    /\ (forall prefix queue,
           arn = prefix +:+ String ":" queue -> occurs ":" queue = false ->
           r_name (resource built) = JStr queue)
    /\ (occurs ":" arn = false -> r_name (resource built) = JStr arn).
Proof.
  intros Hrecs Hbody Harn.
  assert (Hshape : textAt event ["Records"; "0"; "eventSourceARN"]
                   && recordsAt event ["Records"]
                   && convertibleAt event ["Records"; "0"; "body"] = true).
  { unfold textAt. now rewrite Harn, Hrecs, Hbody. }
  destruct (isOk_inv _ (createSQSTrigger_ok rt event trigger context Hshape))
    as [ built Hbuilt ].
  pose proof Hbuilt as H. unfold createSQSTrigger in H.
  destruct (getPath event ["Records"; "0"; "messageId"]) as [ messageId | ]
    eqn:Hid; [ | discriminate ].
  cbn [bind] in H. rewrite Harn in H. cbn [bind callSplit] in H. unbind H.
  assert (Hidentity :
            identity built
            = (messageId, r_type (resource trigger),
               JStr (lastSeg (splitOn ":" arn)), JStr "ReceiveMessage")).
  { match goal with
    | T : sqsTryStepsDict rt _ _ = Ok _ |- _ =>
        apply stepped_identity in T as Hstepped;
        rewrite addToMetadata_identity in Hstepped
    end.
    rewrite sliceLast_one in Hstepped by apply splitOn_nonempty.
    match type of H with
    | (if ?c then _ else _) = _ => destruct c
    end; injection H as <-.
    - now rewrite addToMetadata_identity, Hstepped.
    - exact Hstepped. }
  unfold identity in Hidentity. injection Hidentity as Hi _ Hn Ho.
  exists built, messageId. repeat split; try assumption.
  - intros prefix queue -> Hq. rewrite Hn. f_equal. now apply lastSeg_after.
  - intros Hfree. rewrite Hn. now rewrite splitOn_free.
Qed.

End Names.

(** X10 at a message of the queue "jobs". *)
Lemma sqs_queue_name_witness :
  exists built,
    createSQSTrigger Samples.runtime (Samples.sqsEvent (JStr "hello"))
                     newEvent Samples.context = Ok built
    /\ r_name (resource built) = JStr "jobs".
Proof.
  destruct (sqs_queue_name Samples.runtime (Samples.sqsEvent (JStr "hello"))
              newEvent Samples.context
              "arn:aws:sqs:us-east-2:123456789012:jobs" eq_refl eq_refl eq_refl)
    as (built & messageId & Hbuilt & _ & _ & _ & _ & Hqueue & _).
  exists built. split; [ exact Hbuilt | ].
  apply (Hqueue "arn:aws:sqs:us-east-2:123456789012" "jobs"); reflexivity.
Defined.

Lemma replaceFirst_unfold pat rep s :
  replaceFirst pat rep s
  = if String.prefix pat s
    then rep +:+ String.substring (String.length pat)
                                  (String.length s - String.length pat) s
    else match s with
         | "" => ""
         | String a r => String a (replaceFirst pat rep r)
         end.
Proof. destruct s; reflexivity. Qed.

Lemma prefix_app pat s : String.prefix pat (pat +:+ s) = true.
Proof.
  induction pat as [ | c pat IH ]; simpl; [ now destruct s | ].
  destruct (Ascii.ascii_dec c c); [ exact IH | contradiction ].
Qed.

Lemma substring_whole s : String.substring 0 (String.length s) s = s.
Proof. induction s as [ | c s IH ]; simpl; [ reflexivity | now rewrite IH ]. Qed.

Lemma substring_after pat s :
  String.substring (String.length pat)
                   (String.length (pat +:+ s) - String.length pat) (pat +:+ s)
  = s.
Proof.
  induction pat as [ | c pat IH ]; simpl.
  - rewrite Nat.sub_0_r. apply substring_whole.
  - exact IH.
Qed.

(** Replacing a leading pattern by nothing leaves what follows it. *)
Lemma replaceFirst_leading pat s : replaceFirst pat "" (pat +:+ s) = s.
Proof.
  rewrite replaceFirst_unfold, prefix_app. simpl. apply substring_after.
Qed.

Section MoreNames.

Context (rt : Runtime).

(** X11: the Kinesis factory names the resource after the stream, the text
    after the last [/] of the first record's [eventSourceARN], and takes as
    operation the first record's [eventName] with its first
    ['aws:kinesis:'] removed; for an event name that starts with it, what
    follows. *)
Theorem kinesis_stream_name (event : JSVal) (trigger : Event) (context : JSVal)
        (arn eventName : string) :
  getPath event ["Records"; "0"; "eventSourceARN"] = Ok (JStr arn) ->
  getPath event ["Records"; "0"; "eventName"] = Ok (JStr eventName) ->
  present event ["Records"; "0"; "kinesis"] = true ->
  exists built,
    createKinesisTrigger rt event trigger context = Ok built
    /\ r_name (resource built) = JStr (lastSeg (splitOn "/" arn))
    /\ (forall prefix stream,
           arn = prefix +:+ String "/" stream -> occurs "/" stream = false ->
           r_name (resource built) = JStr stream)
    /\ r_operation (resource built)
       = JStr (replaceFirst "aws:kinesis:" "" eventName)
    /\ (forall rest,
           eventName = "aws:kinesis:" +:+ rest ->
           r_operation (resource built) = JStr rest).
Proof.
  intros Harn Hname Hkin.
  assert (Hshape : textAt event ["Records"; "0"; "eventSourceARN"]
                   && textAt event ["Records"; "0"; "eventName"]
                   && present event ["Records"; "0"; "kinesis"] = true).
  { unfold textAt. now rewrite Harn, Hname, Hkin. }
  destruct (isOk_inv _ (createKinesisTrigger_ok rt event trigger context Hshape))
    as [ built Hbuilt ].
  pose proof Hbuilt as H. unfold createKinesisTrigger in H.
  rewrite Harn, Hname in H. cbn [bind callSplit callReplace] in H. unbind H.
  exists built. split; [ exact Hbuilt | ]. clear Hbuilt.
  injection H as <-.
  match goal with
  | |- context [ addToMetadata rt ?t ?a ?p ] =>
      pose proof (addToMetadata_identity rt a p t) as Hid
  end.
  unfold identity in Hid. simpl in Hid. injection Hid as _ _ Hn Ho.
  rewrite pop_lastSeg in Hn, Ho |- * by apply splitOn_nonempty.
  repeat split; try assumption.
  - intros prefix stream -> Hfree. rewrite Hn. f_equal. now apply lastSeg_after.
  - intros rest ->. rewrite Ho. f_equal. apply replaceFirst_leading.
Qed.

(** X12: the SNS factory names the resource after the topic, the segment
    before the last of the first record's [EventSubscriptionArn] split at
    [:]; an ARN with a single segment is its own name. *)
Theorem sns_topic_name (event : JSVal) (trigger : Event) (context : JSVal)
        (arn : string) :
  present event ["Records"; "0"; "Sns"] = true ->
  getPath event ["Records"; "0"; "EventSubscriptionArn"] = Ok (JStr arn) ->
  exists built,
    createSNSTrigger rt event trigger context = Ok built
    /\ r_name (resource built) = nthSeg (sliceLast 2 (splitOn ":" arn)) 0
    /\ (forall prefix topic subscription,
           arn = prefix +:+ String ":" (topic +:+ String ":" subscription) ->
           occurs ":" topic = false -> occurs ":" subscription = false ->
           r_name (resource built) = JStr topic)
    /\ (occurs ":" arn = false -> r_name (resource built) = JStr arn).
Proof.
  intros Hsns Harn.
  assert (Hshape : present event ["Records"; "0"; "Sns"]
                   && textAt event ["Records"; "0"; "EventSubscriptionArn"] = true).
  { unfold textAt. now rewrite Harn, Hsns. }
  destruct (isOk_inv _ (createSNSTrigger_ok rt event trigger context Hshape))
    as [ built Hbuilt ].
  pose proof Hbuilt as H. unfold createSNSTrigger in H.
  destruct (getPath event ["Records"; "0"; "Sns"; "MessageId"]) as [ messageId | ];
    [ | discriminate ].
  cbn [bind] in H. rewrite Harn in H. cbn [bind callSplit] in H. unbind H.
  exists built. split; [ exact Hbuilt | ]. clear Hbuilt.
  injection H as <-.
  match goal with
  | |- context [ addToMetadata rt ?t ?a ?p ] =>
      pose proof (addToMetadata_identity rt a p t) as Hid
  end.
  unfold identity in Hid. simpl in Hid. injection Hid as _ _ Hn _.
  repeat split; try assumption.
  - intros prefix topic subscription -> Htopic Hsub. rewrite Hn.
    rewrite !splitOn_at, (splitOn_free _ topic), (splitOn_free _ subscription)
      by assumption.
    apply sliceLast_two.
  - intros Hfree. rewrite Hn. now rewrite splitOn_free.
Qed.

(** X13: the DynamoDB factory names the resource after the table, the
    second segment of the first record's [eventSourceARN] split at [/];
    for an ARN without [/] the name is [undefined] and the factory still
    completes.  The id is the record's [eventID] and the operation its
    [eventName]. *)
Theorem dynamodb_table_name (event : JSVal) (trigger : Event)
        (context record : JSVal) (arn : string) :
  getPath event ["Records"; "0"] = Ok record ->
  getProp record "eventSourceARN" = Ok (JStr arn) ->
  present record ["dynamodb"] = true ->
  isOk (dynamoItemHash rt record) = true ->
  exists built,
    createDynamoDBTrigger rt event trigger context = Ok built
    /\ getProp record "eventID" = Ok (id built)
    /\ getProp record "eventName" = Ok (r_operation (resource built))
    /\ r_name (resource built) = nthSeg (splitOn "/" arn) 1
    /\ (forall prefix table,
           arn = prefix +:+ String "/" table ->
           occurs "/" prefix = false -> occurs "/" table = false ->
           r_name (resource built) = JStr table)
    /\ (forall prefix table rest,
           arn = prefix +:+ String "/" (table +:+ String "/" rest) ->
           occurs "/" prefix = false -> occurs "/" table = false ->
           r_name (resource built) = JStr table)
    /\ (occurs "/" arn = false -> r_name (resource built) = JUndefined).
Proof.
  intros Hrec Harn Hdyn Hhash.
  assert (Hshape :
            textAt event ["Records"; "0"; "eventSourceARN"]
            && present event ["Records"; "0"; "dynamodb"]
            && match getPath event ["Records"; "0"] with
               | Ok record => isOk (dynamoItemHash rt record)
               | Throw _ => false
               end = true).
  { pose proof (textAt_under event ["Records"; "0"] ["eventSourceARN"] record Hrec)
      as Xarn.
    pose proof (present_under event ["Records"; "0"] ["dynamodb"] record Hrec)
      as Xdyn.
    cbn [app] in Xarn, Xdyn. rewrite Xarn, Xdyn, Hrec, Hdyn, Hhash.
    unfold textAt. rewrite getPath_single, Harn. reflexivity. }
  destruct (isOk_inv _ (createDynamoDBTrigger_ok rt event trigger context Hshape))
    as [ built Hbuilt ].
  pose proof Hbuilt as H. unfold createDynamoDBTrigger in H.
  rewrite Hrec in H. cbn [bind] in H.
  destruct (dynamoItemHash rt record) as [ hash | ]; [ | discriminate ].
  cbn [bind] in H.
  destruct (getProp record "eventID") as [ eventID | ] eqn:Hid;
    [ | discriminate ].
  cbn [bind] in H. rewrite Harn in H. cbn [bind callSplit] in H.
  destruct (getProp record "eventName") as [ eventName | ] eqn:Hname;
    [ | discriminate ].
  cbn [bind] in H. unbind H.
  exists built. split; [ exact Hbuilt | ]. clear Hbuilt. injection H as <-.
  match goal with
  | |- context [ addToMetadata rt ?t ?a ?p ] =>
      pose proof (addToMetadata_identity rt a p t) as Hident
  end.
  unfold identity in Hident. simpl in Hident. injection Hident as Hi _ Hn Ho.
  rewrite Hi, Ho. repeat split; try assumption.
  - intros prefix table -> Hprefix Htable. rewrite Hn.
    now rewrite splitOn_at, (splitOn_free _ prefix), (splitOn_free _ table).
  - intros prefix table rest -> Hprefix Htable. rewrite Hn.
    now rewrite !splitOn_at, (splitOn_free _ prefix), (splitOn_free _ table).
  - intros Hfree. rewrite Hn. now rewrite splitOn_free.
Qed.

(** X14: the Events factory completes whenever the payload has
    [resources]; the name is the text after the last [/] of the first
    resource when that is a string, and ['CloudWatch Events'] otherwise, in
    particular for an empty resource list; the operation is the
    [detail-type] field. *)
Theorem events_rule_name (event : JSVal) (trigger : Event) (context : JSVal) :
  present event ["resources"] = true ->
  exists built first,
    createEventsTrigger rt event trigger context = Ok built
    /\ getPath event ["resources"; "0"] = Ok first
    /\ r_name (resource built)
       = match first with
         | JStr s => JStr (lastSeg (splitOn "/" s))
         | _ => JStr "CloudWatch Events"
         end
    /\ getProp event "detail-type" = Ok (r_operation (resource built))
    /\ getProp event "id" = Ok (id built).
Proof.
  intros Hres.
  destruct (isOk_inv _ (createEventsTrigger_ok rt event trigger context Hres))
    as [ built Hbuilt ].
  pose proof Hbuilt as H. unfold createEventsTrigger in H.
  destruct (getProp event "id") as [ eventId | ] eqn:Hid; [ | discriminate ].
  cbn [bind] in H.
  destruct (getPath event ["resources"; "0"]) as [ first | ] eqn:Hfirst;
    [ | discriminate ].
  cbn [bind] in H.
  destruct (getProp event "detail-type") as [ detailType | ] eqn:Hdt.
  2: { destruct (isString first); cbn [bind] in H;
       [ destruct (callSplit first "/"); cbn [bind] in H | ];
       discriminate. }
  exists built, first. split; [ exact Hbuilt | ]. split; [ reflexivity | ].
  assert (Hident :
            identity built
            = (eventId, r_type (resource trigger),
               match first with
               | JStr s => JStr (lastSeg (splitOn "/" s))
               | _ => JStr "CloudWatch Events"
               end, detailType)).
  { destruct first; cbn [isString bind callSplit] in H; unbind H;
      injection H as <-; rewrite addToMetadata_identity;
      rewrite ?pop_lastSeg by apply splitOn_nonempty; reflexivity. }
  unfold identity in Hident. injection Hident as Hi _ Hn Ho.
  rewrite Hi, Hn, Ho. repeat split.
Qed.

End MoreNames.

(** X11 at a record of the stream "clicks". *)
Lemma kinesis_stream_name_witness :
  exists built,
    createKinesisTrigger Samples.runtime Fixtures.kinesisEvent newEvent
                         Samples.context = Ok built
    /\ r_name (resource built) = JStr "clicks"
    /\ r_operation (resource built) = JStr "record".
Proof.
  destruct (kinesis_stream_name Samples.runtime Fixtures.kinesisEvent newEvent
              Samples.context
              "arn:aws:kinesis:us-east-2:123456789012:stream/clicks"
              "aws:kinesis:record" eq_refl eq_refl eq_refl)
    as (built & Hbuilt & _ & Hstream & _ & Hop).
  exists built. split; [ exact Hbuilt | ]. split.
  - apply (Hstream "arn:aws:kinesis:us-east-2:123456789012:stream" "clicks");
      reflexivity.
  - apply (Hop "record"). reflexivity.
Defined.

(** X12 at a notification of the topic "alerts". *)
Lemma sns_topic_name_witness :
  exists built,
    createSNSTrigger Samples.runtime Fixtures.snsEvent newEvent Samples.context
    = Ok built
    /\ r_name (resource built) = JStr "alerts".
Proof.
  destruct (sns_topic_name Samples.runtime Fixtures.snsEvent newEvent
              Samples.context
              "arn:aws:sns:us-east-2:123456789012:alerts:21be56ed"
              eq_refl eq_refl)
    as (built & Hbuilt & _ & Htopic & _).
  exists built. split; [ exact Hbuilt | ].
  apply (Htopic "arn:aws:sns:us-east-2:123456789012" "alerts" "21be56ed");
    reflexivity.
Defined.

(** X13 at a stream record of the table "Orders". *)
Lemma dynamodb_table_name_witness :
  exists built,
    createDynamoDBTrigger Samples.runtime
      (Samples.dynamoEvent "INSERT" Samples.newImage) newEvent Samples.context
    = Ok built
    /\ r_name (resource built) = JStr "Orders".
Proof.
  destruct (dynamodb_table_name Samples.runtime
              (Samples.dynamoEvent "INSERT" Samples.newImage) newEvent
              Samples.context _
              "arn:aws:dynamodb:us-west-2:1:table/Orders/stream/2020"
              eq_refl eq_refl eq_refl eq_refl)
    as (built & Hbuilt & _ & _ & _ & _ & Htable & _).
  exists built. split; [ exact Hbuilt | ].
  apply (Htable "arn:aws:dynamodb:us-west-2:1:table" "Orders" "stream/2020");
    reflexivity.
Defined.

(** X14 at a scheduled event with an empty resource list. *)
Lemma events_rule_name_witness :
  exists built,
    createEventsTrigger Samples.runtime Fixtures.scheduledEvent newEvent
                        Samples.context = Ok built
    /\ r_name (resource built) = JStr "CloudWatch Events".
Proof.
  destruct (events_rule_name Samples.runtime Fixtures.scheduledEvent newEvent
              Samples.context eq_refl)
    as (built & first & Hbuilt & Hfirst & Hname & _).
  exists built. split; [ exact Hbuilt | ].
  simpl in Hfirst. injection Hfirst as <-. exact Hname.
Defined.

(** * Properties of the file-system instrumentation *)

(** Every way the four arguments and the wrapped function can turn out. *)
Ltac fs_cases original :=
  cbv zeta;
  unfold FsHook.internalWrapFsWriteFileFunction,
    FsHook.handleFunctionWithoutCallback, FsHook.orArg;
  repeat (cbn;
          match goal with
          | |- context [ FsHook.isFunction ?a ] => is_var a; destruct a
          | |- context [ FsHook.truthyArg ?a ] => is_var a; destruct a
          | |- context [ truthy ?v ] => is_var v; destruct (truthy v) eqn:?
          | |- context [ original ?args ] => destruct (original args) eqn:?
          end);
  cbn; try (exfalso; congruence).

Section FsWrapper.

Import FsHook.

Context {Err : Type} (original : list Arg -> Err + Arg).

(** X15: the wrapper calls the wrapped function exactly once, whatever it
    is given and whether the call raises: with the caller's path and data,
    and with the wrapper's callback in the place of the caller's function
    (fourth argument when [callback] is a function, third when [callback]
    is falsy and [options] is a function).  Otherwise it passes path, data
    and options only.  The second call written after the [try] block is
    never made. *)
Theorem original_called_once (originalName : string)
        (path data options callback : Arg) :
  originalCalls
    (log (internalWrapFsWriteFileFunction original originalName
            path data options callback))
  = [ if isFunction callback
      then [ path; data; options; PatchedCallback callback ]
      else if negb (truthyArg callback) && isFunction options
      then [ path; data; PatchedCallback options ]
      else [ path; data; options ] ].
Proof. fs_cases original; reflexivity. Qed.

(** X16: exceptions of the wrapped function.  Without a callback function
    the exception is handed to [finalizeEvent] and raised again, after the
    event was added to the tracer; with one, the wrapper never raises: the
    exception is handed to [tracer.addException] and swallowed, the wrapper
    returns [undefined] and the event is never added to the tracer. *)
Theorem wrapper_exceptions (originalName : string)
        (path data options callback : Arg) (err : Err) :
  let run := internalWrapFsWriteFileFunction original originalName
               path data options callback in
  (isFunction (orArg callback options) = false ->
   original [ path; data; options ] = inl err ->
   run = mkRun [ InitializeEvent path originalName; AddEvent false;
                 Original [ path; data; options ];
                 FinalizeEvent (Some err) ] (inl err))
  /\ (isFunction (orArg callback options) = true ->
      forall args, originalCalls (log run) = [ args ] ->
      original args = inl err ->
      run = mkRun [ InitializeEvent path originalName; Original args;
                    AddException err ] (inr (Value JUndefined)))
  /\ (isFunction (orArg callback options) = true ->
      exists response, outcome run = inr response).
Proof.
  fs_cases original; repeat split; try discriminate; eauto.
  all: try (intros _ H; rewrite H in *; congruence).
  all: try (intros _ args [= <-] H; congruence).
Qed.

(** X17: the event reaches the tracer unless a callback function was given
    and the wrapped function raised; without a callback it is added before
    the call, with one after it. *)
Theorem event_added_unless_swallowed (originalName : string)
        (path data options callback : Arg) :
  let run := internalWrapFsWriteFileFunction original originalName
               path data options callback in
  eventAdded (log run) = false
  <-> isFunction (orArg callback options) = true
      /\ exists args err,
           originalCalls (log run) = [ args ] /\ original args = inl err.
Proof.
  fs_cases original; split.
  all: try discriminate.
  all: try (intros (Hf & args & err & [= <-] & H); congruence).
  all: try (intros _; split; [ reflexivity | eauto ]).
  all: intros (Hf & _); discriminate Hf.
Qed.

End FsWrapper.

(** X16 at a write with a callback that fails at once. *)
Lemma wrapper_exceptions_witness :
  FsHook.internalWrapFsWriteFileFunction alwaysFails "writeFile"
    (FsHook.Value (JStr "/tmp/out")) (FsHook.Value (JStr "data"))
    (FsHook.Value JUndefined) (FsHook.UserFunction "done")
  = FsHook.mkRun
      [ FsHook.InitializeEvent (FsHook.Value (JStr "/tmp/out")) "writeFile";
        FsHook.Original
          [ FsHook.Value (JStr "/tmp/out"); FsHook.Value (JStr "data");
            FsHook.Value JUndefined;
            FsHook.PatchedCallback (FsHook.UserFunction "done") ];
        FsHook.AddException "EACCES" ]
      (inr (FsHook.Value JUndefined)).
Proof.
  apply (proj1 (proj2 (wrapper_exceptions alwaysFails "writeFile"
                         (FsHook.Value (JStr "/tmp/out"))
                         (FsHook.Value (JStr "data"))
                         (FsHook.Value JUndefined)
                         (FsHook.UserFunction "done") "EACCES")));
    reflexivity.
Defined.

(** X17 at the same write. *)
Lemma event_added_unless_swallowed_witness :
  FsHook.eventAdded
    (FsHook.log
       (FsHook.internalWrapFsWriteFileFunction alwaysFails "writeFile"
          (FsHook.Value (JStr "/tmp/out")) (FsHook.Value (JStr "data"))
          (FsHook.Value JUndefined) (FsHook.UserFunction "done")))
  = false.
Proof.
  apply (proj2 (event_added_unless_swallowed alwaysFails "writeFile"
                  (FsHook.Value (JStr "/tmp/out"))
                  (FsHook.Value (JStr "data"))
                  (FsHook.Value JUndefined)
                  (FsHook.UserFunction "done"))).
  split; [ reflexivity | ].
  eexists. exists "EACCES". split; reflexivity.
Defined.

(** ** The switch of the instrumentation *)

(** The units whose upper case is one of the letters of ['TRUE']. *)
Lemma upperUnit_letters (c : ascii) :
  (FsHook.upperUnit c = "T"%char -> c = "t"%char \/ c = "T"%char)
  /\ (FsHook.upperUnit c = "R"%char -> c = "r"%char \/ c = "R"%char)
  /\ (FsHook.upperUnit c = "U"%char -> c = "u"%char \/ c = "U"%char)
  /\ (FsHook.upperUnit c = "E"%char -> c = "e"%char \/ c = "E"%char).
Proof.
  destruct c as [ [ ] [ ] [ ] [ ] [ ] [ ] [ ] [ ] ]; vm_compute;
    repeat split; intros H; try discriminate H; auto.
Qed.

(** X18: the switch.  [init] patches [writeFile] and [writeFileSync]
    exactly when the setting spells "true" in any mix of cases; for any
    other text, and when the setting is not there, it patches nothing, and
    it never raises on a text. *)
Theorem init_patches_iff (s : string) :
  (FsHook.init (JStr s) = Ok [ "writeFile"; "writeFileSync" ]
   \/ FsHook.init (JStr s) = Ok [])
  /\ (FsHook.init (JStr s) = Ok [ "writeFile"; "writeFileSync" ]
      <-> exists t r u e,
            s = String t (String r (String u (String e "")))
            /\ (t = "t" \/ t = "T")%char /\ (r = "r" \/ r = "R")%char
            /\ (u = "u" \/ u = "U")%char /\ (e = "e" \/ e = "E")%char)
  /\ FsHook.init JUndefined = Ok [].
Proof.
  assert (Hinit : FsHook.init (JStr s)
                  = if String.eqb (FsHook.toUpperCase s) "TRUE"
                    then Ok [ "writeFile"; "writeFileSync" ] else Ok []).
  { unfold FsHook.init, orElse. destruct s; reflexivity. }
  rewrite Hinit. split; [ | split; [ | reflexivity ] ].
  - destruct (String.eqb _ _); auto.
  - destruct (String.eqb_spec (FsHook.toUpperCase s) "TRUE") as [ Hup | Hup ].
    + split; [ intros _ | reflexivity ].
      destruct s as [ | t [ | r [ | u [ | e [ | x s ] ] ] ] ]; try discriminate Hup.
      simpl in Hup. injection Hup as Ht Hr Hu He.
      exists t, r, u, e. split; [ reflexivity | ].
      repeat split.
      * now apply (upperUnit_letters t).
      * now apply (upperUnit_letters r).
      * now apply (upperUnit_letters u).
      * now apply (upperUnit_letters e).
    + split; [ discriminate | ].
      intros (t & r & u & e & -> & Ht & Hr & Hu & He). exfalso. apply Hup.
      destruct Ht as [ -> | -> ], Hr as [ -> | -> ], Hu as [ -> | -> ],
        He as [ -> | -> ]; reflexivity.
Qed.

(** X18 at the setting "True". *)
Lemma init_patches_iff_witness :
  FsHook.init (JStr "True") = Ok [ "writeFile"; "writeFileSync" ].
Proof.
  apply (proj2 (proj1 (proj2 (init_patches_iff "True")))).
  exists "T"%char, "r"%char, "u"%char, "e"%char. repeat split; auto.
Defined.
